(** * Check-in store and reminder scheduler

    A shallow embedding of [utils/checkinStorage] and [utils/reminderStorage]
    (the two storage modules of the check-in application) together with the
    part of the JavaScript run time they call: numbers, strings, [Date],
    [JSON], [Array.prototype.sort], [AsyncStorage] and the notification
    platform. The callers of the two modules (the root layout and the
    settings, summary and home screens) are embedded as far as they call
    them.

    Conventions of the embedding.
    - A JavaScript number is an exact rational or one of [NaN], [Infinity],
      [-Infinity]; rounding of decimal literals to the nearest double is not
      modelled, and [-0] is identified with [0].
    - A string is a sequence of 8-bit code units. How strings collate is
      up to the device: [localeCompare] uses the collation of the world,
      of which only the laws of a consistent comparison are known.
    - A stored text is represented by what [JSON.parse] makes of it: either
      text that [JSON.parse] rejects, or the value it parses to. A numeral
      beyond the range of doubles, such as [1e400], parses to an infinity
      ([Json.JInfinity], see [Json.numeral]).
    - A check-in is its five fields; other members that a stored object
      may have are not represented.
    - A [Date] is its time value in milliseconds (or [NaN]); the zone offset
      of the device is constant.
    - An [async] function is a function from the world to a completion
      (fulfilled or rejected) and a new world.
    - Calls of the notification platform may fail; [AsyncStorage] does
      not. *)

From Stdlib Require Import ZArith QArith Qround Qabs String Ascii List Bool Lia.
From Stdlib Require Import Sorted Permutation OrderedTypeEx.
From stdpp Require Import base option list strings gmap pretty.

Open Scope string_scope.
Open Scope Z_scope.

Set Warnings "-register-all".

(** ** JavaScript numbers *)

Module Js.

Inductive number :=
  | Num (q : Q)
  | NaN
  | Infinity
  | NegInfinity.

Definition int (z : Z) : number := Num (inject_Z z).

(** [Math.trunc]: the integral part, rounding toward zero. *)
Definition Qtrunc (q : Q) : Z := Z.quot (Qnum q) (Zpos (Qden q)).

Definition Math_trunc (x : number) : number :=
  match x with
  | Num q => int (Qtrunc q)
  | other => other
  end.

Definition Math_max (a b : number) : number :=
  match a, b with
  | NaN, _ | _, NaN => NaN
  | Infinity, _ | _, Infinity => Infinity
  | NegInfinity, y => y
  | x, NegInfinity => x
  | Num p, Num q => if Qle_bool p q then Num q else Num p
  end.

Definition Math_min (a b : number) : number :=
  match a, b with
  | NaN, _ | _, NaN => NaN
  | NegInfinity, _ | _, NegInfinity => NegInfinity
  | Infinity, y => y
  | x, Infinity => x
  | Num p, Num q => if Qle_bool p q then Num p else Num q
  end.

(** [a - b] on numbers. *)
Definition sub (a b : number) : number :=
  match a, b with
  | NaN, _ | _, NaN => NaN
  | Infinity, Infinity | NegInfinity, NegInfinity => NaN
  | Infinity, _ | _, NegInfinity => Infinity
  | NegInfinity, _ | _, Infinity => NegInfinity
  | Num p, Num q => Num (p - q)
  end.

(** [a + b] on numbers. *)
Definition add (a b : number) : number :=
  match a, b with
  | NaN, _ | _, NaN => NaN
  | Infinity, NegInfinity | NegInfinity, Infinity => NaN
  | Infinity, _ | _, Infinity => Infinity
  | NegInfinity, _ | _, NegInfinity => NegInfinity
  | Num p, Num q => Num (p + q)
  end.

(** [a <= b] on numbers: false as soon as one side is [NaN]. *)
Definition le (a b : number) : bool :=
  match a, b with
  | NaN, _ | _, NaN => false
  | NegInfinity, _ | _, Infinity => true
  | Infinity, _ | _, NegInfinity => false
  | Num p, Num q => Qle_bool p q
  end.

Definition isFinite (x : number) : bool :=
  match x with Num _ => true | _ => false end.

(** [ToIntegerOrInfinity]: [NaN] becomes 0, finite values are truncated;
    [None] stands for an infinite result. *)
Definition ToIntegerOrInfinity (x : number) : option Z :=
  match x with
  | Num q => Some (Qtrunc q)
  | NaN => Some 0
  | _ => None
  end.

(** An integral number or [NaN], as the [Date] getters return. *)
Definition of_integral (o : option Z) : number :=
  match o with Some z => int z | None => NaN end.

(** Whether a numeral is beyond the range of doubles: from
    [2^1024 - 2^970] on, a numeral rounds to an infinity. *)
Definition overflows (q : Q) : bool :=
  Qle_bool (inject_Z (2 ^ 1024 - 2 ^ 970)) (Qabs q).

End Js.

(** ** JavaScript strings *)

Module Str.

(** [s.split(sep)] for a one-character separator. *)
Fixpoint split (sep : ascii) (s : string) : list string :=
  match s with
  | EmptyString => [EmptyString]
  | String c rest =>
      let parts := split sep rest in
      if Ascii.eqb c sep then EmptyString :: parts
      else match parts with
           | p :: ps => String c p :: ps
           | [] => [String c EmptyString]
           end
  end.

(** [width - length] characters taken cyclically out of [fill]. *)
Fixpoint filler (k : nat) (fill cur : list ascii) : list ascii :=
  match k with
  | O => []
  | S k' =>
      match cur with
      | c :: r => c :: filler k' fill r
      | [] => match fill with
              | c :: r => c :: filler k' fill r
              | [] => []
              end
      end
  end.

(** [s.padStart(width, fill)]. *)
Definition padStart (width : nat) (fill : string) (s : string) : string :=
  string_of_list_ascii
    (filler (width - String.length s) (list_ascii_of_string fill) [])
  +:+ s.

(** [String(n)] for an integral number or [NaN]. *)
Definition of_integral (o : option Z) : string :=
  match o with Some z => pretty z | None => "NaN" end.

(** How the device collates strings. [String.prototype.localeCompare] is
    a consistent comparison: [compare a b] is negative, zero or positive,
    the two directions agree and the order is transitive. Nothing else is
    known of it. *)
Record Collation := {
  compare : string -> string -> Z;
  compare_total : forall a b, 0 < compare a b -> compare b a <= 0;
  compare_trans :
    forall a b c, compare a b <= 0 -> compare b c <= 0 -> compare a c <= 0;
}.

(** [a.localeCompare(b)] on a device with the collation [c]. *)
Definition localeCompare (c : Collation) (a b : string) : Z := compare c a b.

(** The order of the code units, and the collation that follows it. *)
Definition compareCodeUnits (a b : string) : Z :=
  match String.compare a b with Lt => -1 | Eq => 0 | Gt => 1 end.

Definition codeUnits : Collation.
Proof.
  refine {| compare := compareCodeUnits |}.
  - intros a b. unfold compareCodeUnits.
    rewrite (String.compare_antisym a b).
    destruct (String.compare b a); simpl; lia.
  - intros a b c. unfold compareCodeUnits.
    destruct (String.compare a b) eqn:Eab; try lia;
      destruct (String.compare b c) eqn:Ebc; try lia; intros _ _.
    + apply String.compare_eq_iff in Eab. subst a. rewrite Ebc. lia.
    + apply String.compare_eq_iff in Eab. subst a. rewrite Ebc. lia.
    + apply String.compare_eq_iff in Ebc. subst c. rewrite Eab. lia.
    + assert (String.compare a c = Lt) as ->; [ | lia].
      apply String_as_OT.cmp_lt.
      eapply String_as_OT.lt_trans; apply String_as_OT.cmp_lt; eassumption.
Defined.

(** *** [Number(s)]: the StringToNumber grammar *)

Definition isStrWhiteSpace (c : ascii) : bool :=
  let n := N_of_ascii c in
  ((9 <=? n) && (n <=? 13) || (n =? 32) || (n =? 160))%N.

Fixpoint trimStart (cs : list ascii) : list ascii :=
  match cs with
  | c :: r => if isStrWhiteSpace c then trimStart r else cs
  | [] => []
  end.

Definition trim (cs : list ascii) : list ascii :=
  rev (trimStart (rev (trimStart cs))).

(** Value of a digit in bases up to 16. *)
Definition digitValue (c : ascii) : option Z :=
  let n := Z.of_N (N_of_ascii c) in
  if (48 <=? n) && (n <=? 57) then Some (n - 48)
  else if (97 <=? n) && (n <=? 102) then Some (n - 87)
  else if (65 <=? n) && (n <=? 70) then Some (n - 55)
  else None.

Definition isDigit (base : Z) (c : ascii) : bool :=
  match digitValue c with Some d => d <? base | None => false end.

(** The longest prefix of digits, and what follows it. *)
Fixpoint spanDigits (base : Z) (cs : list ascii) : list ascii * list ascii :=
  match cs with
  | c :: r =>
      if isDigit base c
      then let '(ds, rest) := spanDigits base r in (c :: ds, rest)
      else ([], cs)
  | [] => ([], [])
  end.

Definition digitsValue (base : Z) (ds : list ascii) : Z :=
  fold_left (fun acc c => acc * base + default 0 (digitValue c)) ds 0.

(** A whole string of at least one digit in [base]. *)
Definition nonDecimal (base : Z) (cs : list ascii) : Js.number :=
  match spanDigits base cs with
  | ((_ :: _) as ds, []) => Js.int (digitsValue base ds)
  | _ => Js.NaN
  end.

(** ExponentPart, optional: [e] or [E], an optional sign, digits. *)
Definition exponentPart (cs : list ascii) : option Z :=
  match cs with
  | [] => Some 0
  | c :: r =>
      if Ascii.eqb c "e" || Ascii.eqb c "E" then
        let '(neg, r') :=
          match r with
          | s :: r' =>
              if Ascii.eqb s "-" then (true, r')
              else if Ascii.eqb s "+" then (false, r') else (false, r)
          | [] => (false, r)
          end in
        match spanDigits 10 r' with
        | ((_ :: _) as ds, []) =>
            Some (if neg : bool then - digitsValue 10 ds else digitsValue 10 ds)
        | _ => None
        end
      else None
  end.

(** StrUnsignedDecimalLiteral, without [Infinity]. *)
Definition unsignedDecimal (cs : list ascii) : option Q :=
  let '(ip, r1) := spanDigits 10 cs in
  let '(fp, r2) :=
    match r1 with
    | c :: r => if Ascii.eqb c "." then spanDigits 10 r else ([], r1)
    | [] => ([], [])
    end in
  match (ip ++ fp)%list with
  | [] => None
  | ds =>
      match exponentPart r2 with
      | Some e =>
          Some (inject_Z (digitsValue 10 ds)
                * Qpower (inject_Z 10) (e - Z.of_nat (length fp)))%Q
      | None => None
      end
  end.

Definition strDecimalLiteral (cs : list ascii) : Js.number :=
  let '(neg, body) :=
    match cs with
    | c :: r =>
        if Ascii.eqb c "-" then (true, r)
        else if Ascii.eqb c "+" then (false, r) else (false, cs)
    | [] => (false, cs)
    end in
  if String.eqb (string_of_list_ascii body) "Infinity"
  then (if neg : bool then Js.NegInfinity else Js.Infinity)
  else match unsignedDecimal body with
       | Some q => Js.Num (if neg : bool then - q else q)%Q
       | None => Js.NaN
       end.

(** [Number(s)]. *)
Definition Number (s : string) : Js.number :=
  match trim (list_ascii_of_string s) with
  | [] => Js.int 0
  | (z :: x :: r) as cs =>
      if Ascii.eqb z "0" && (Ascii.eqb x "x" || Ascii.eqb x "X")
      then nonDecimal 16 r
      else if Ascii.eqb z "0" && (Ascii.eqb x "o" || Ascii.eqb x "O")
      then nonDecimal 8 r
      else if Ascii.eqb z "0" && (Ascii.eqb x "b" || Ascii.eqb x "B")
      then nonDecimal 2 r
      else strDecimalLiteral cs
  | cs => strDecimalLiteral cs
  end.

End Str.

(** ** [Array.prototype.sort] *)

Section ArraySort.
Context {A : Type} (compareFn : A -> A -> Z).

(** [x] stood before every element of [l] and moves behind an element
    only when the comparison says so: the sort is stable. *)
Fixpoint sort_insert (x : A) (l : list A) : list A :=
  match l with
  | [] => [x]
  | y :: r => if 0 <? compareFn x y then y :: sort_insert x r else x :: l
  end.

Fixpoint Array_sort (l : list A) : list A :=
  match l with
  | [] => []
  | x :: r => sort_insert x (Array_sort r)
  end.
End ArraySort.

(** ** [Date] *)

Module Date.

Definition msPerDay : Z := 86400000.

(** The largest time value a [Date] holds (100 000 000 days). *)
Definition maxTime : Z := 8640000000000000.

Definition Day (t : Z) : Z := t / msPerDay.
Definition TimeWithinDay (t : Z) : Z := t mod msPerDay.

(** Day number (days since 1 January 1970) of the first day of month
    [m] (0 to 11) of year [y] in the proleptic Gregorian calendar. *)
Definition DayFromYearMonth (y m : Z) : Z :=
  let y' := if m <=? 1 then y - 1 else y in
  let era := y' / 400 in
  let yoe := y' - era * 400 in
  let mp := if 1 <? m then m - 2 else m + 10 in
  let doy := (153 * mp + 2) / 5 in
  era * 146097 + (yoe * 365 + yoe / 4 - yoe / 100 + doy) - 719468.

Record Civil := { year : Z; month : Z; date : Z }.

(** The calendar date of a day number; [month] is 0 to 11, [date] 1 to 31. *)
Definition civil (day : Z) : Civil :=
  let z := day + 719468 in
  let era := z / 146097 in
  let doe := z - era * 146097 in
  let yoe := (doe - doe / 1460 + doe / 36524 - doe / 146096) / 365 in
  let doy := doe - (365 * yoe + yoe / 4 - yoe / 100) in
  let mp := (5 * doy + 2) / 153 in
  {| year := yoe + era * 400 + (if mp <? 10 then 0 else 1);
     month := if mp <? 10 then mp + 2 else mp - 10;
     date := doy - (153 * mp + 2) / 5 + 1 |}.

Definition YearFromTime (t : Z) : Z := year (civil (Day t)).
Definition MonthFromTime (t : Z) : Z := month (civil (Day t)).
Definition DateFromTime (t : Z) : Z := date (civil (Day t)).

(** [MakeDay]: months beyond 0..11 carry into the year, the date is an
    offset from the first of the month. [None] is [NaN]. *)
Definition MakeDay (year month date : Js.number) : option Z :=
  match year, month, date with
  | Js.Num y, Js.Num m, Js.Num dt =>
      let ym := Js.Qtrunc y + Js.Qtrunc m / 12 in
      let mn := Js.Qtrunc m mod 12 in
      Some (DayFromYearMonth ym mn + Js.Qtrunc dt - 1)
  | _, _, _ => None
  end.

Definition MakeDate (day : option Z) (time : Z) : option Z :=
  match day with
  | Some d => Some (d * msPerDay + time)
  | None => None
  end.

(** [MakeFullYear]: years 0 to 99 mean 1900 to 1999. *)
Definition MakeFullYear (y : Js.number) : Js.number :=
  match y with
  | Js.Num q =>
      let truncated := Js.Qtrunc q in
      if (0 <=? truncated) && (truncated <=? 99)
      then Js.int (1900 + truncated) else Js.int truncated
  | other => other
  end.

Definition TimeClip (time : option Z) : option Z :=
  match time with
  | Some t => if Z.abs t <=? maxTime then Some t else None
  | None => None
  end.

Section Zone.
(** The offset of local time from UTC, in milliseconds. *)
Variable LocalTZA : Z.

Definition LocalTime (t : Z) : Z := t + LocalTZA.
Definition UTC (t : Z) : Z := t - LocalTZA.

(** A [Date] object: its time value, [None] for an invalid date. *)
Definition t := option Z.

(** [new Date(y, m, d)]. *)
Definition make (y m d : Js.number) : t :=
  TimeClip (UTC <$> MakeDate (MakeDay (MakeFullYear y) m d) 0).

Definition getFullYear (d : t) : option Z :=
  (fun tv => YearFromTime (LocalTime tv)) <$> d.
Definition getMonth (d : t) : option Z :=
  (fun tv => MonthFromTime (LocalTime tv)) <$> d.
Definition getDate (d : t) : option Z :=
  (fun tv => DateFromTime (LocalTime tv)) <$> d.

(** [d.setDate(dt)], returning the date as it is afterwards. *)
Definition setDate (d : t) (dt : Js.number) : t :=
  match d with
  | Some tv =>
      let lt := LocalTime tv in
      TimeClip
        (UTC <$> MakeDate (MakeDay (Js.int (YearFromTime lt))
                                   (Js.int (MonthFromTime lt)) dt)
                          (TimeWithinDay lt))
  | None => None
  end.
End Zone.

(** [a >= b] on dates: both are converted to their time values. *)
Definition ge (a b : t) : bool :=
  match a, b with
  | Some x, Some y => y <=? x
  | _, _ => false
  end.

End Date.

(** ** Completions and JSON *)

Inductive Error := SyntaxError | TypeError | PlatformError.

(** How an evaluation ends: with a value, or with a thrown error. *)
Inductive Completion (A : Type) :=
  | Normal (a : A)
  | Throw (e : Error).
Arguments Normal {A} a.
Arguments Throw {A} e.

Module Json.

Inductive value :=
  | JNull
  | JBool (b : bool)
  (** a finite number, which is a double *)
  | JNumber (q : Q)
  (** an infinity, which a numeral beyond the range of doubles parses to:
      [1e400] is [JInfinity false], see [numeral] *)
  | JInfinity (negative : bool)
  | JString (s : string)
  | JArray (items : list value)
  | JObject (members : list (string * value)).

(** A text as [JSON.parse] sees it: one that it rejects, or the value it
    returns, whose numbers are doubles. *)
Inductive text :=
  | Unparseable (raw : string)
  | Encoded (v : value).

(** [JSON.parse(t)]. *)
Definition parse (t : text) : Completion value :=
  match t with
  | Encoded v => Normal v
  | Unparseable _ => Throw SyntaxError
  end.

(** [!raw] for a text read from storage: only the empty string is falsy. *)
Definition isEmpty (t : text) : bool :=
  match t with
  | Unparseable EmptyString => true
  | _ => false
  end.

Fixpoint member (key : string) (ms : list (string * value)) : option value :=
  match ms with
  | [] => None
  | (k, v) :: rest => if String.eqb k key then Some v else member key rest
  end.

(** [v.key] for a key that no prototype defines: [None] is [undefined];
    reading a property of [null] throws. *)
Definition get (v : value) (key : string) : Completion (option value) :=
  match v with
  | JNull => Throw TypeError
  | JObject ms => Normal (member key ms)
  | _ => Normal None
  end.

Inductive type := TUndefined | TObject | TBoolean | TNumber | TString.

Definition typeof (o : option value) : type :=
  match o with
  | None => TUndefined
  | Some (JBool _) => TBoolean
  | Some (JNumber _) | Some (JInfinity _) => TNumber
  | Some (JString _) => TString
  | Some _ => TObject
  end.

(** [Boolean(v)]. *)
Definition truthy (o : option value) : bool :=
  match o with
  | None | Some JNull => false
  | Some (JBool b) => b
  | Some (JNumber q) => negb (Qeq_bool q 0)
  | Some (JString s) => negb (String.eqb s "")
  | Some _ => true
  end.

(** [v === s] for a string [s]. *)
Definition isString (o : option value) (s : string) : bool :=
  match o with
  | Some (JString k) => String.eqb k s
  | _ => false
  end.

(** How [JSON.stringify] writes a number: non-finite ones become [null]. *)
Definition of_number (n : Js.number) : value :=
  match n with
  | Js.Num q => JNumber q
  | _ => JNull
  end.

(** What [JSON.parse] makes of the numeral [q]: the number, or an infinity
    when the numeral overflows ([1e400] parses to [Infinity]). *)
Definition numeral (q : Q) : value :=
  if Js.overflows q then JInfinity (negb (Qle_bool 0 q)) else JNumber q.

(** What [JSON.parse] makes of a text that is written like [v]: each of
    its numerals is read with [numeral]. *)
Fixpoint rounded (v : value) : value :=
  match v with
  | JNumber q => numeral q
  | JArray items => JArray (map rounded items)
  | JObject members =>
      JObject (map (fun '(key, x) => (key, rounded x)) members)
  | other => other
  end.

(** A parsed number as a number. *)
Definition to_number (o : option value) : Js.number :=
  match o with
  | Some (JNumber q) => Js.Num q
  | Some (JInfinity negative) =>
      if negative then Js.NegInfinity else Js.Infinity
  | _ => Js.NaN
  end.

End Json.

(** ** The world of an [async] function *)

Module Notifications.

Record NotificationContent := {
  title : option string;
  body : option string;
  sound : bool;
  data : option (list (string * Json.value));
}.

Inductive Trigger :=
  | DAILY (hour minute : Js.number) (channelId : option string)
  | OtherTrigger.

Record NotificationRequest := {
  identifier : string;
  content : NotificationContent;
  trigger : Trigger;
}.

Inductive Os := ios | android | web.

(** The calls of the platform that may fail. *)
Inductive Call :=
  | GetAllScheduled
  | CancelScheduled (id : string)
  | CancelAllScheduled
  | Schedule
  | SetChannel.

Record Platform := {
  OS : Os;
  granted : bool;
  scheduled : list NotificationRequest;
  channels : list string;
  (** how many identifiers the platform has handed out *)
  issued : nat;
  (** the calls that throw; a call that throws changes nothing *)
  failing : Call -> bool;
}.

(** The identifier given to the next scheduled notification. *)
Definition nextIdentifier (p : Platform) : string :=
  "notification-" +:+ pretty (issued p).

End Notifications.

Inductive StorageCall :=
  | SetItem (key : string) (v : Json.text)
  | RemoveItem (key : string).

Record World := {
  (** [AsyncStorage] *)
  storage : gmap string Json.text;
  (** the writes made to [AsyncStorage], latest first *)
  journal : list StorageCall;
  platform : Notifications.Platform;
  (** [Date.now()] *)
  clock : Z;
  LocalTZA : Z;
  (** how [localeCompare] orders strings on this device *)
  collation : Str.Collation;
}.

Definition Async (A : Type) : Type := World -> Completion A * World.

Definition ret {A} (a : A) : Async A := fun w => (Normal a, w).

Definition bind {A B} (m : Async A) (k : A -> Async B) : Async B :=
  fun w =>
    match m w with
    | (Normal a, w') => k a w'
    | (Throw e, w') => (Throw e, w')
    end.

Definition throw {A} (e : Error) : Async A := fun w => (Throw e, w).

(** [try { body } catch { handler }]. *)
Definition try_catch {A} (body handler : Async A) : Async A :=
  fun w =>
    match body w with
    | (Normal a, w') => (Normal a, w')
    | (Throw _, w') => handler w'
    end.

(** A synchronous evaluation inside an [async] function. *)
Definition lift {A} (c : Completion A) : Async A := fun w => (c, w).

Definition asks {A} (f : World -> A) : Async A := fun w => (Normal (f w), w).

Declare Scope async_scope.
Delimit Scope async_scope with async.
Notation "'await' x <- m ;; k" := (bind m (fun x => k))
  (at level 10, x name, m at level 99, k at level 200) : async_scope.
Open Scope async_scope.

Module AsyncStorage.

Definition getItem (key : string) : Async (option Json.text) :=
  asks (fun w => storage w !! key).

Definition setItem (key : string) (v : Json.text) : Async unit :=
  fun w =>
    (Normal tt,
     {| storage := <[key := v]> (storage w);
        journal := SetItem key v :: journal w;
        platform := platform w; clock := clock w; LocalTZA := LocalTZA w;
        collation := collation w |}).

Definition removeItem (key : string) : Async unit :=
  fun w =>
    (Normal tt,
     {| storage := delete key (storage w);
        journal := RemoveItem key :: journal w;
        platform := platform w; clock := clock w; LocalTZA := LocalTZA w;
        collation := collation w |}).

End AsyncStorage.

(** [new Date()] and [Date.now()]. *)
Definition Date_new : Async Date.t :=
  asks (fun w => Date.TimeClip (Some (clock w))).
Definition Date_now : Async Js.number :=
  asks (fun w => Js.int (clock w)).

#[global] Instance json_type_eq_dec : EqDecision Json.type.
Proof. solve_decision. Defined.

(** ** utils/checkinStorage *)

Module CheckinStorage.

Record DailyCheckin := {
  dateKey : string;       (* YYYY-MM-DD (device local date) *)
  energy : Js.number;
  mood : Js.number;
  focus : Js.number;
  updatedAt : Js.number;  (* epoch ms *)
}.

Definition STORAGE_KEY : string := "checkin:daily-v1".

Definition localDateFromDateKey (tza : Z) (dateKey : string) : Date.t :=
  let parts := map Str.Number (Str.split "-" dateKey) in
  let y := parts !! 0%nat in
  let m := parts !! 1%nat in
  let d := parts !! 2%nat in
  Date.make tza (default Js.NaN y)
                (Js.sub (default (Js.int 1) m) (Js.int 1))
                (default (Js.int 1) d).

Definition clearAllCheckins : Async unit :=
  AsyncStorage.removeItem STORAGE_KEY.

(** [JSON.stringify] of a check-in and of an array of check-ins. *)
Definition toJSON (c : DailyCheckin) : Json.value :=
  Json.JObject
    [("dateKey", Json.JString (dateKey c));
     ("energy", Json.of_number (energy c));
     ("mood", Json.of_number (mood c));
     ("focus", Json.of_number (focus c));
     ("updatedAt", Json.of_number (updatedAt c))].

Definition stringify (checkins : list DailyCheckin) : Json.text :=
  Json.Encoded (Json.JArray (map toJSON checkins)).

Definition byDateKey (c : Str.Collation) (a b : DailyCheckin) : Z :=
  Str.localeCompare c (dateKey a) (dateKey b).

Definition saveAllCheckins (checkins : list DailyCheckin) : Async unit :=
  await c <- asks collation ;;
  let normalized := Array_sort (byDateKey c) checkins in
  AsyncStorage.setItem STORAGE_KEY (stringify normalized).

Definition getLocalDateKey (tza : Z) (date : Date.t) : string :=
  let year := Date.getFullYear tza date in
  let month :=
    Str.padStart 2 "0"
      (Str.of_integral ((fun m => m + 1) <$> Date.getMonth tza date)) in
  let day := Str.padStart 2 "0" (Str.of_integral (Date.getDate tza date)) in
  Str.of_integral year +:+ "-" +:+ month +:+ "-" +:+ day.

(** The property [key] of an item known to be an object. *)
Definition field (item : Json.value) (key : string) : option Json.value :=
  match Json.get item key with
  | Normal o => o
  | Throw _ => None
  end.

(** The type guard of [loadAllCheckins]. *)
Definition isDailyCheckin (item : Json.value) : bool :=
  if negb (Json.truthy (Some item))
     || negb (bool_decide (Json.typeof (Some item) = Json.TObject))
  then false
  else
    bool_decide (Json.typeof (field item "dateKey") = Json.TString)
    && bool_decide (Json.typeof (field item "energy") = Json.TNumber)
    && bool_decide (Json.typeof (field item "mood") = Json.TNumber)
    && bool_decide (Json.typeof (field item "focus") = Json.TNumber)
    && bool_decide (Json.typeof (field item "updatedAt") = Json.TNumber).

Definition asString (o : option Json.value) : string :=
  match o with Some (Json.JString s) => s | _ => "" end.
Definition asNumber (o : option Json.value) : Js.number :=
  Json.to_number o.

(** An item that passed the guard, read as a [DailyCheckin]. *)
Definition asDailyCheckin (item : Json.value) : DailyCheckin :=
  {| dateKey := asString (field item "dateKey");
     energy := asNumber (field item "energy");
     mood := asNumber (field item "mood");
     focus := asNumber (field item "focus");
     updatedAt := asNumber (field item "updatedAt") |}.

Definition loadAllCheckins : Async (list DailyCheckin) :=
  await raw <- AsyncStorage.getItem STORAGE_KEY ;;
  match raw with
  | None => ret []
  | Some text =>
      if Json.isEmpty text then ret [] else
      try_catch
        (await parsed <- lift (Json.parse text) ;;
         await c <- asks collation ;;
         match parsed with
         | Json.JArray items =>
             ret (Array_sort (byDateKey c)
                    (asDailyCheckin <$> List.filter isDailyCheckin items))
         | _ => ret []
         end)
        (ret [])
  end.

Definition loadCheckinForDate (key : string)
  : Async (option DailyCheckin) :=
  await all <- loadAllCheckins ;;
  ret (snd <$> list_find (fun c => dateKey c = key) all).

Record Values := {
  v_energy : Js.number;
  v_mood : Js.number;
  v_focus : Js.number;
  v_date : option Date.t;
}.

Definition upsertTodayCheckin (values : Values) : Async DailyCheckin :=
  await tza <- asks LocalTZA ;;
  await date <- (match v_date values with
                 | Some d => ret d
                 | None => Date_new
                 end) ;;
  let dateKey := getLocalDateKey tza date in
  await updatedAt <- Date_now ;;
  await all <- loadAllCheckins ;;
  let next :=
    {| dateKey := dateKey;
       energy := v_energy values;
       mood := v_mood values;
       focus := v_focus values;
       updatedAt := updatedAt |} in
  let all' :=
    match list_find (fun c => CheckinStorage.dateKey c = dateKey) all with
    | Some (existingIndex, _) => <[existingIndex := next]> all
    | None => (all ++ [next])%list
    end in
  await _ <- AsyncStorage.setItem STORAGE_KEY (stringify all') ;;
  ret next.

(** Retention helper: keeps only the last N days (inclusive of today).
    Returns the number of removed records. *)
Definition purgeCheckinsOlderThan (days : option Js.number) : Async Z :=
  let days := default (Js.int 90) days in
  await all <- loadAllCheckins ;;
  if (length all =? 0)%nat then ret 0 else
  await tza <- asks LocalTZA ;;
  await now <- Date_new ;;
  let cutoff :=
    Date.make tza (Js.of_integral (Date.getFullYear tza now))
                  (Js.of_integral (Date.getMonth tza now))
                  (Js.of_integral (Date.getDate tza now)) in
  let cutoff :=
    Date.setDate tza cutoff
      (Js.sub (Js.of_integral (Date.getDate tza cutoff))
              (Js.sub (Js.Math_max (Js.int 1) days) (Js.int 1))) in
  let kept :=
    List.filter
      (fun c => Date.ge (localDateFromDateKey tza (dateKey c)) cutoff) all in
  if (length kept =? length all)%nat then ret 0 else
  await _ <- saveAllCheckins kept ;;
  ret (Z.of_nat (length all) - Z.of_nat (length kept)).

End CheckinStorage.

(** ** expo-notifications, as far as the reminder module calls it *)

Module NotificationsApi.
Import Notifications.

Definition update (f : Platform -> Platform) : Async unit :=
  fun w =>
    (Normal tt,
     {| storage := storage w; journal := journal w;
        platform := f (platform w);
        clock := clock w; LocalTZA := LocalTZA w;
        collation := collation w |}).

(** A call that throws when the platform says it fails. *)
Definition call {A} (c : Call) (m : Async A) : Async A :=
  fun w => if failing (platform w) c then (Throw PlatformError, w) else m w.

Definition getPermissionsAsync : Async bool :=
  asks (fun w => granted (platform w)).

Definition getAllScheduledNotificationsAsync
  : Async (list NotificationRequest) :=
  call GetAllScheduled (asks (fun w => scheduled (platform w))).

Definition cancelScheduledNotificationAsync (id : string) : Async unit :=
  call (CancelScheduled id)
    (update (fun p =>
       {| OS := OS p; granted := granted p;
          scheduled :=
            List.filter (fun r => negb (String.eqb (identifier r) id))
                        (scheduled p);
          channels := channels p; issued := issued p;
          failing := failing p |})).

Definition cancelAllScheduledNotificationsAsync : Async unit :=
  call CancelAllScheduled
    (update (fun p =>
       {| OS := OS p; granted := granted p; scheduled := [];
          channels := channels p; issued := issued p;
          failing := failing p |})).

Definition scheduleNotificationAsync
    (c : NotificationContent) (t : Trigger) : Async string :=
  call Schedule
    (await id <- asks (fun w => nextIdentifier (platform w)) ;;
     await _ <- update (fun p =>
       {| OS := OS p; granted := granted p;
          scheduled :=
            (scheduled p
             ++ [{| identifier := id; content := c; trigger := t |}])%list;
          channels := channels p; issued := S (issued p);
          failing := failing p |}) ;;
     ret id).

Definition setNotificationChannelAsync (name : string) : Async unit :=
  call SetChannel
    (update (fun p =>
       {| OS := OS p; granted := granted p; scheduled := scheduled p;
          channels := name :: channels p; issued := issued p;
          failing := failing p |})).

End NotificationsApi.

#[global] Instance os_eq_dec : EqDecision Notifications.Os.
Proof. solve_decision. Defined.

(** ** utils/reminderStorage *)

Module ReminderStorage.
Import Notifications.

Record ReminderSettings := {
  enabled : bool;
  hour : Js.number;    (* 0-23 *)
  minute : Js.number;  (* 0-59 *)
  notificationId : option string;
}.

Definition STORAGE_KEY : string := "checkin:reminder-v1".
Definition REMINDER_KIND : string := "checkin:daily-reminder-v1".
Definition LEGACY_TITLE : string := "Reminder".
Definition LEGACY_BODY : string := "Time to add today's track.".

Definition clampInt (value min max : Js.number) : Js.number :=
  let n := Js.Math_trunc value in
  Js.Math_min max (Js.Math_max min n).

Definition defaults : ReminderSettings :=
  {| enabled := false; hour := Js.int 20; minute := Js.int 0;
     notificationId := None |}.

Definition asNumber (o : option Json.value) : Js.number :=
  Json.to_number o.
Definition asString (o : option Json.value) : option string :=
  match o with Some (Json.JString s) => Some s | _ => None end.

Definition loadReminderSettings : Async ReminderSettings :=
  await raw <- AsyncStorage.getItem STORAGE_KEY ;;
  match raw with
  | None => ret defaults
  | Some text =>
      if Json.isEmpty text then ret defaults else
      try_catch
        (await parsed <- lift (Json.parse text) ;;
         await h <- lift (Json.get parsed "hour") ;;
         let hour :=
           if bool_decide (Json.typeof h = Json.TNumber)
           then clampInt (asNumber h) (Js.int 0) (Js.int 23)
           else Js.int 20 in
         await m <- lift (Json.get parsed "minute") ;;
         let minute :=
           if bool_decide (Json.typeof m = Json.TNumber)
           then clampInt (asNumber m) (Js.int 0) (Js.int 59)
           else Js.int 0 in
         await e <- lift (Json.get parsed "enabled") ;;
         let enabled := Json.truthy e in
         await i <- lift (Json.get parsed "notificationId") ;;
         let notificationId :=
           if bool_decide (Json.typeof i = Json.TString)
           then asString i else None in
         ret {| enabled := enabled; hour := hour; minute := minute;
                notificationId := notificationId |})
        (ret defaults)
  end.

(** [JSON.stringify(settings)]: an absent id is left out. *)
Definition stringify (s : ReminderSettings) : Json.text :=
  Json.Encoded
    (Json.JObject
       ([("enabled", Json.JBool (enabled s));
         ("hour", Json.of_number (hour s));
         ("minute", Json.of_number (minute s))]
        ++ match notificationId s with
           | Some id => [("notificationId", Json.JString id)]
           | None => []
           end)%list).

Definition saveReminderSettings (settings : ReminderSettings) : Async unit :=
  AsyncStorage.setItem STORAGE_KEY (stringify settings).

Definition hasReminderPermissions : Async bool :=
  NotificationsApi.getPermissionsAsync.

Definition cancelReminder (notificationId : option string) : Async unit :=
  match notificationId with
  | None => ret tt
  | Some id =>
      if String.eqb id "" then ret tt else
      try_catch (NotificationsApi.cancelScheduledNotificationAsync id)
                (ret tt)
  end.

Definition isReminderRequest (req : NotificationRequest) : bool :=
  let data := default [] (data (content req)) in
  if Json.isString (Json.member "kind" data) REMINDER_KIND then true
  else
    (* Back-compat: older versions didn't tag data. *)
    bool_decide (title (content req) = Some LEGACY_TITLE)
    && bool_decide (body (content req) = Some LEGACY_BODY).

(** [Promise.all(items.map(f))] for an [f] that never rejects. *)
Fixpoint forEach {A} (f : A -> Async unit) (items : list A) : Async unit :=
  match items with
  | [] => ret tt
  | x :: rest => await _ <- f x ;; forEach f rest
  end.

(** Cancels all scheduled reminders created by this app (including legacy
    ones). Returns how many schedules were cancelled. *)
Definition cancelAllReminders : Async Z :=
  try_catch
    (await scheduled <- NotificationsApi.getAllScheduledNotificationsAsync ;;
     let toCancel := List.filter isReminderRequest scheduled in
     await _ <- forEach
       (fun req =>
          try_catch
            (NotificationsApi.cancelScheduledNotificationAsync
               (identifier req))
            (ret tt))
       toCancel ;;
     ret (Z.of_nat (length toCancel)))
    (* As a fallback (should be rare), cancel everything scheduled by the
       app. *)
    (try_catch
       (await _ <- NotificationsApi.cancelAllScheduledNotificationsAsync ;;
        ret (-1))
       (ret 0)).

Definition ensureAndroidChannel : Async unit :=
  await os <- asks (fun w => OS (platform w)) ;;
  if bool_decide (os <> android) then ret tt else
  NotificationsApi.setNotificationChannelAsync "reminders".

Definition scheduleDailyReminder (hour minute : Js.number) : Async string :=
  await _ <- ensureAndroidChannel ;;
  await os <- asks (fun w => OS (platform w)) ;;
  NotificationsApi.scheduleNotificationAsync
    {| title := Some "Reminder";
       body := Some "Time to add today's track.";
       sound := true;
       data := Some [("kind", Json.JString REMINDER_KIND)] |}
    (DAILY (clampInt hour (Js.int 0) (Js.int 23))
           (clampInt minute (Js.int 0) (Js.int 59))
           (if bool_decide (os = android) then Some "reminders" else None)).

(** Ensures we have at most one scheduled daily reminder matching the
    stored settings. Useful for cleaning up duplicates left from earlier
    installs/bugs. *)
Definition reconcileReminderSchedule (settings : ReminderSettings)
  : Async ReminderSettings :=
  if negb (enabled settings) then ret settings else
  await granted <- hasReminderPermissions ;;
  if negb granted then ret settings else
  await scheduled <- NotificationsApi.getAllScheduledNotificationsAsync ;;
  let reminders := List.filter isReminderRequest scheduled in
  (* Nothing scheduled: create it. *)
  if (length reminders =? 0)%nat then
    await notificationId <-
      scheduleDailyReminder (hour settings) (minute settings) ;;
    ret {| enabled := enabled settings; hour := hour settings;
           minute := minute settings;
           notificationId := Some notificationId |}
  else
  (* Exactly one scheduled: sync stored id if needed. *)
  if (length reminders =? 1)%nat then
    let onlyId := identifier <$> reminders !! 0%nat in
    if bool_decide (onlyId <> None) && bool_decide (onlyId <> Some "")
       && bool_decide (onlyId <> notificationId settings)
    then ret {| enabled := enabled settings; hour := hour settings;
                minute := minute settings; notificationId := onlyId |}
    else ret settings
  else
  (* More than one scheduled: cancel all and schedule a single new one. *)
  await _ <- cancelAllReminders ;;
  await notificationId <-
    scheduleDailyReminder (hour settings) (minute settings) ;;
  ret {| enabled := enabled settings; hour := hour settings;
         minute := minute settings;
         notificationId := Some notificationId |}.

End ReminderStorage.

From Stdlib Require Import Lqa.

(** ** utils/reminderStorage: asking for permission *)

Module Permissions.
Import Notifications.

(** [Notifications.requestPermissionsAsync()]: the platform prompts the
    user, whose [answer] becomes the permission state. *)
Definition requestPermissionsAsync (answer : bool) : Async bool :=
  await _ <- NotificationsApi.update (fun p =>
    {| OS := OS p; granted := answer; scheduled := scheduled p;
       channels := channels p; issued := issued p;
       failing := failing p |}) ;;
  ret answer.

Definition requestReminderPermissions (answer : bool) : Async bool :=
  await current <- NotificationsApi.getPermissionsAsync ;;
  if current then ret true else
  await requested <- requestPermissionsAsync answer ;;
  ret requested.

End Permissions.

(** ** app/_layout: reconciliation when the app starts *)

Module RootLayout.
Import ReminderStorage.

(** The effect [reconcile] of [RootLayout], for a layout that stays
    mounted (its [cancelled] flag stays false). *)
Definition reconcile : Async unit :=
  try_catch
    (await settings <- loadReminderSettings ;;
     if negb (enabled settings) then ret tt else
     await next <- reconcileReminderSchedule settings ;;
     if bool_decide (notificationId next <> notificationId settings)
     then saveReminderSettings next
     else ret tt)
    (* ignore *)
    (ret tt).

End RootLayout.

(** ** app/(tabs)/settings: saving the reminder settings *)

Module SettingsScreen.
Import ReminderStorage.

(** What [persist] does to the screen: the settings it sets, if any, and
    the status it shows. *)
Record Shown := {
  settings : option ReminderSettings;
  status : string;
}.

(** [persist(next)]; [answer] is what the user replies if asked for
    permission. The source calls [setSettings] right before it awaits the
    write of the same settings; a write does not fail here, so the settings
    that were set are those of the result. *)
Definition persist (next : ReminderSettings) (answer : bool) : Async Shown :=
  try_catch
    ((* Cancel any existing schedules (including legacy/duplicate ones) *)
     await _ <- cancelAllReminders ;;
     if enabled next then
       await ok <- Permissions.requestReminderPermissions answer ;;
       if negb ok then
         let disabled :=
           {| enabled := false; hour := hour next; minute := minute next;
              notificationId := None |} in
         await _ <- saveReminderSettings disabled ;;
         ret {| settings := Some disabled;
                status := "Notifications not allowed" |}
       else
         await notificationId <-
           scheduleDailyReminder (hour next) (minute next) ;;
         let saved :=
           {| enabled := enabled next; hour := hour next;
              minute := minute next;
              notificationId := Some notificationId |} in
         await _ <- saveReminderSettings saved ;;
         ret {| settings := Some saved; status := "Saved" |}
     else
       let saved :=
         {| enabled := enabled next; hour := hour next;
            minute := minute next; notificationId := None |} in
       await _ <- saveReminderSettings saved ;;
       ret {| settings := Some saved; status := "Saved" |})
    (ret {| settings := None; status := "Error" |}).

End SettingsScreen.

(** ** app/(tabs)/summary *)

Module SummaryScreen.
Import CheckinStorage.

(** [a / b] on numbers. *)
Definition div (a b : Js.number) : Js.number :=
  match a, b with
  | Js.NaN, _ | _, Js.NaN => Js.NaN
  | Js.Num p, Js.Num q =>
      if Qeq_bool q 0 then
        (if Qeq_bool p 0 then Js.NaN
         else if Qle_bool 0 p then Js.Infinity else Js.NegInfinity)
      else Js.Num (p / q)
  | Js.Num _, _ => Js.int 0
  | Js.Infinity, Js.Num q =>
      if Qle_bool 0 q then Js.Infinity else Js.NegInfinity
  | Js.NegInfinity, Js.Num q =>
      if Qle_bool 0 q then Js.NegInfinity else Js.Infinity
  | _, _ => Js.NaN
  end.

Definition average (values : list Js.number) : Js.number :=
  if (length values =? 0)%nat then Js.int 0 else
  div (fold_left (fun sum n => Js.add sum n) values (Js.int 0))
      (Js.int (Z.of_nat (length values))).

Definition newestFirst (c : Str.Collation) (a b : DailyCheckin) : Z :=
  Str.localeCompare c (dateKey b) (dateKey a).

(** [load] of the focus effect: what it hands to [setAll]. *)
Definition load : Async (list DailyCheckin) :=
  await _ <- purgeCheckinsOlderThan (Some (Js.int 90)) ;;
  await items <- loadAllCheckins ;;
  await c <- asks collation ;;
  (* Newest first *)
  ret (Array_sort (newestFirst c) items).

Record RangeData := {
  inRange : list DailyCheckin;
  count : nat;
  energyAvg : Js.number;
  moodAvg : Js.number;
  focusAvg : Js.number;
}.

(** The memo [rangeData] of the screen for the check-ins [all] and the
    range of [rangeDays] days. *)
Definition rangeData (all : list DailyCheckin) (rangeDays : Js.number)
  : Async RangeData :=
  await tza <- asks LocalTZA ;;
  await today <- Date_new ;;
  let cutoff :=
    Date.make tza (Js.of_integral (Date.getFullYear tza today))
                  (Js.of_integral (Date.getMonth tza today))
                  (Js.of_integral (Date.getDate tza today)) in
  let cutoff :=
    Date.setDate tza cutoff
      (Js.sub (Js.of_integral (Date.getDate tza cutoff))
              (Js.sub rangeDays (Js.int 1))) in
  let inRange :=
    List.filter
      (fun c => Date.ge (localDateFromDateKey tza (dateKey c)) cutoff) all in
  ret {| inRange := inRange;
         count := length inRange;
         energyAvg := average (map energy inRange);
         moodAvg := average (map mood inRange);
         focusAvg := average (map focus inRange) |}.

End SummaryScreen.

(** ** app/(tabs)/index *)

Module HomeScreen.
Import CheckinStorage.

(** What [loadInitial] hands to the screen: the number of saved
    check-ins and today's check-in, if there is one. *)
Definition loadInitial : Async (nat * option DailyCheckin) :=
  await _ <- purgeCheckinsOlderThan (Some (Js.int 90)) ;;
  await tza <- asks LocalTZA ;;
  await now <- Date_new ;;
  let todayKey := getLocalDateKey tza now in
  await existing <- loadCheckinForDate todayKey ;;
  await all <- loadAllCheckins ;;
  ret (length all, existing).

(** The body of the [try] of the Save button: the saved count it sets. *)
Definition onPressSave (energy mood focus : Js.number) : Async nat :=
  await _ <- upsertTodayCheckin
    {| v_energy := energy; v_mood := mood; v_focus := focus;
       v_date := None |} ;;
  await all <- loadAllCheckins ;;
  ret (length all).

End HomeScreen.

(** ** Vocabulary of the statements *)

(** The world after an [async] function has run, and what it returned. *)
Definition after {A} (m : Async A) (w : World) : World := snd (m w).
Definition result {A} (m : Async A) (w : World) : Completion A := fst (m w).

(** The check-ins that [loadAllCheckins] finds in the world. *)
Definition checkins (w : World) : list CheckinStorage.DailyCheckin :=
  match result CheckinStorage.loadAllCheckins w with
  | Normal l => l
  | Throw _ => []
  end.

(** Ascending order of date keys in a collation: the key of [a] does not
    collate after the key of [b]. *)
Definition dateKeyLe (c : Str.Collation)
    (a b : CheckinStorage.DailyCheckin) : Prop :=
  Str.compare c (CheckinStorage.dateKey a) (CheckinStorage.dateKey b) <= 0.

(** A parsed member that is a number: a finite one, or an infinity, which
    a numeral beyond the range of doubles parses to. *)
Definition numberOf (o : option Json.value) : option Js.number :=
  match o with
  | Some (Json.JNumber q) => Some (Js.Num q)
  | Some (Json.JInfinity negative) =>
      Some (if negative then Js.NegInfinity else Js.Infinity)
  | _ => None
  end.

(** A stored element with the five fields of a check-in, each of its
    primitive type. *)
Definition readCheckin (item : Json.value)
  : option CheckinStorage.DailyCheckin :=
  match item with
  | Json.JObject ms =>
      match Json.member "dateKey" ms, numberOf (Json.member "energy" ms),
            numberOf (Json.member "mood" ms),
            numberOf (Json.member "focus" ms),
            numberOf (Json.member "updatedAt" ms) with
      | Some (Json.JString k), Some e, Some m, Some f, Some u =>
          Some {| CheckinStorage.dateKey := k;
                  CheckinStorage.energy := e;
                  CheckinStorage.mood := m;
                  CheckinStorage.focus := f;
                  CheckinStorage.updatedAt := u |}
      | _, _, _, _, _ => None
      end
  | _ => None
  end.

(** The elements of a stored JSON array; any other value has none. *)
Definition elements (v : Json.value) : list Json.value :=
  match v with Json.JArray items => items | _ => [] end.

(** The hour and the minute a parsed value loads as. *)
Definition hourOf (v : Json.value) : Z :=
  match Json.get v "hour" with
  | Normal (Some (Json.JNumber q)) => Z.min 23 (Z.max 0 (Js.Qtrunc q))
  | Normal (Some (Json.JInfinity negative)) => if negative then 0 else 23
  | _ => 20
  end.

Definition minuteOf (v : Json.value) : Z :=
  match Json.get v "minute" with
  | Normal (Some (Json.JNumber q)) => Z.min 59 (Z.max 0 (Js.Qtrunc q))
  | Normal (Some (Json.JInfinity negative)) => if negative then 0 else 59
  | _ => 0
  end.

(** A check-in whose four numbers are finite, as every one is that the
    application has written. *)
Definition finiteCheckin (c : CheckinStorage.DailyCheckin) : Prop :=
  Js.isFinite (CheckinStorage.energy c) = true
  /\ Js.isFinite (CheckinStorage.mood c) = true
  /\ Js.isFinite (CheckinStorage.focus c) = true
  /\ Js.isFinite (CheckinStorage.updatedAt c) = true.

#[global] Instance finiteCheckin_dec c : Decision (finiteCheckin c).
Proof. unfold finiteCheckin. apply _. Defined.

(** The world with a text written under a key. *)
Definition written (key : string) (v : Json.text) (w : World) : World :=
  after (AsyncStorage.setItem key v) w.

(** The same world at another time of the clock. *)
Definition atTime (c : Z) (w : World) : World :=
  {| storage := storage w; journal := journal w; platform := platform w;
     clock := c; LocalTZA := LocalTZA w; collation := collation w |}.

(** The record that [upsertTodayCheckin] builds in a world. *)
Definition upserted (values : CheckinStorage.Values) (w : World)
  : CheckinStorage.DailyCheckin :=
  {| CheckinStorage.dateKey :=
       CheckinStorage.getLocalDateKey (LocalTZA w)
         (match CheckinStorage.v_date values with
          | Some d => d
          | None => Date.TimeClip (Some (clock w))
          end);
     CheckinStorage.energy := CheckinStorage.v_energy values;
     CheckinStorage.mood := CheckinStorage.v_mood values;
     CheckinStorage.focus := CheckinStorage.v_focus values;
     CheckinStorage.updatedAt := Js.int (clock w) |}.

(** The array that [upsertTodayCheckin] writes back. *)
Definition upsertedAll (values : CheckinStorage.Values) (w : World)
  : list CheckinStorage.DailyCheckin :=
  let next := upserted values w in
  match list_find (fun c => CheckinStorage.dateKey c
                            = CheckinStorage.dateKey next) (checkins w) with
  | Some (existingIndex, _) => <[existingIndex := next]> (checkins w)
  | None => (checkins w ++ [next])%list
  end.

(** Values whose three numbers are finite, as the valid ones (1 to 10)
    are. *)
Definition finiteValues (values : CheckinStorage.Values) : Prop :=
  Js.isFinite (CheckinStorage.v_energy values) = true
  /\ Js.isFinite (CheckinStorage.v_mood values) = true
  /\ Js.isFinite (CheckinStorage.v_focus values) = true.

(** At most one check-in per date key. *)
Definition onePerDay (w : World) : Prop :=
  NoDup (CheckinStorage.dateKey <$> checkins w).

(** The check-ins of a date key. *)
Definition checkinsOf (key : string) (w : World)
  : list CheckinStorage.DailyCheckin :=
  filter (fun c => CheckinStorage.dateKey c = key) (checkins w).

(** The cutoff that [purgeCheckinsOlderThan] computes in a world. *)
Definition purgeCutoff (days : option Js.number) (w : World) : Date.t :=
  let tza := LocalTZA w in
  let now := Date.TimeClip (Some (clock w)) in
  let cutoff :=
    Date.make tza (Js.of_integral (Date.getFullYear tza now))
                  (Js.of_integral (Date.getMonth tza now))
                  (Js.of_integral (Date.getDate tza now)) in
  Date.setDate tza cutoff
    (Js.sub (Js.of_integral (Date.getDate tza cutoff))
            (Js.sub (Js.Math_max (Js.int 1) (default (Js.int 90) days))
                    (Js.int 1))).

(** Whether the local date of a check-in is on or after a cutoff. *)
Definition onOrAfter (cutoff : Date.t) (w : World)
    (c : CheckinStorage.DailyCheckin) : bool :=
  Date.ge (CheckinStorage.localDateFromDateKey (LocalTZA w)
             (CheckinStorage.dateKey c))
          cutoff.

(** Whether [p] holds of the [n] integers from [start] on. *)
Fixpoint holdsFrom (n : nat) (start : Z) (p : Z -> bool) : bool :=
  match n with
  | O => true
  | S n' => p start && holdsFrom n' (start + 1) p
  end.

(** The year and the day of the year of a day of a 400-year era, as
    [Date.civil] computes them, are in range. *)
Definition eraDayInRange (doe : Z) : bool :=
  let yoe := (doe - doe / 1460 + doe / 36524 - doe / 146096) / 365 in
  let doy := doe - (365 * yoe + yoe / 4 - yoe / 100) in
  (0 <=? yoe) && (yoe <=? 399) && (0 <=? doy) && (doy <=? 365).

(** Today's day number in local time. *)
Definition today (w : World) : Z :=
  Date.Day (Date.LocalTime (LocalTZA w) (clock w)).

(** The start of a day in local time, as a date. *)
Definition localMidnight (w : World) (day : Z) : Date.t :=
  Some (Date.UTC (LocalTZA w) (day * Date.msPerDay)).

(** The local date of a check-in as a day number; [None] when its key
    does not parse to a valid date. *)
Definition localDay (w : World) (c : CheckinStorage.DailyCheckin)
  : option Z :=
  (fun tv => Date.Day (Date.LocalTime (LocalTZA w) tv))
    <$> CheckinStorage.localDateFromDateKey (LocalTZA w)
          (CheckinStorage.dateKey c).

(** A device whose local time is in 1970 or later, whose clock shows a
    time that a [Date] holds, and whose zone is within a day of UTC. *)
Definition deviceOk (w : World) : Prop :=
  0 <= clock w + LocalTZA w
  /\ clock w <= Date.maxTime
  /\ - Date.msPerDay <= LocalTZA w <= Date.msPerDay.

(** The key of a calendar day as the specification writes it,
    [YYYY-MM-DD]: the year, the month (1 to 12) and the day of the month,
    the latter two in two digits, joined by hyphens. *)
Definition twoDigits (n : Z) : string :=
  if n <? 10 then "0" +:+ pretty n else pretty n.

Definition dateKeyOfDay (day : Z) : string :=
  let c := Date.civil day in
  pretty (Date.year c) +:+ "-" +:+ twoDigits (Date.month c + 1)
  +:+ "-" +:+ twoDigits (Date.date c).

(** A day number from the year 100 on whose start is a time that a
    [Date] holds in every zone within a day of UTC. *)
Definition plainDay (day : Z) : Prop :=
  100 <= Date.year (Date.civil day) /\ day <= 99999999.

(** Whether the local date of a check-in is the day [cutoffDay] or a later
    one; a check-in without a valid date is on no day. *)
Definition keptOn (cutoffDay : Z) (w : World)
    (c : CheckinStorage.DailyCheckin) : bool :=
  match localDay w c with
  | Some d => cutoffDay <=? d
  | None => false
  end.

(** ** Sample worlds *)

(** A working platform with permission granted and the given schedules. *)
Definition samplePlatform (l : list Notifications.NotificationRequest)
  : Notifications.Platform :=
  {| Notifications.OS := Notifications.ios;
     Notifications.granted := true;
     Notifications.scheduled := l;
     Notifications.channels := [];
     Notifications.issued := 7%nat;
     Notifications.failing := fun _ => false |}.

(** A device on 15 March 2024, 11:53 local time, one hour east of UTC,
    that stores the given check-ins and collates by code units. *)
Definition sampleWorld (l : list CheckinStorage.DailyCheckin) : World :=
  {| storage :=
       {[ CheckinStorage.STORAGE_KEY := CheckinStorage.stringify l ]};
     journal := [];
     platform := samplePlatform [];
     clock := 1710500000000;
     LocalTZA := 3600000;
     collation := Str.codeUnits |}.

(** The same device with a text in the check-in store that is written
    like [v]. *)
Definition sampleStore (v : Json.value) : World :=
  {| storage :=
       {[ CheckinStorage.STORAGE_KEY := Json.Encoded (Json.rounded v) ]};
     journal := [];
     platform := samplePlatform [];
     clock := 1710500000000;
     LocalTZA := 3600000;
     collation := Str.codeUnits |}.

Definition sampleCheckin (key : string) (e : Z)
  : CheckinStorage.DailyCheckin :=
  {| CheckinStorage.dateKey := key;
     CheckinStorage.energy := Js.int e;
     CheckinStorage.mood := Js.int 5;
     CheckinStorage.focus := Js.int 6;
     CheckinStorage.updatedAt := Js.int 1700000000000 |}.

Definition sampleValues (e : Z) (d : option Date.t)
  : CheckinStorage.Values :=
  {| CheckinStorage.v_energy := Js.int e;
     CheckinStorage.v_mood := Js.int 4;
     CheckinStorage.v_focus := Js.int 8;
     CheckinStorage.v_date := d |}.

(** An element, as it is written, for the key [key] with the numeral
    [1e400] for its energy, which is beyond the range of doubles. *)
Definition beyondRange (key : string) : Json.value :=
  Json.JObject [("dateKey", Json.JString key);
                ("energy", Json.JNumber (inject_Z (10 ^ 400)));
                ("mood", Json.JNumber (inject_Z 5));
                ("focus", Json.JNumber (inject_Z 6));
                ("updatedAt", Json.JNumber (inject_Z 1700000000000))].

(** Whether the two-character form of [n], as [getLocalDateKey] writes a
    month or a day, is one segment of a key that reads back as [n]. *)
Definition twoDigitsReadBack (n : Z) : bool :=
  let s := Str.padStart 2 "0" (pretty n) in
  match Str.split "-" s, Str.Number s with
  | [p], Js.Num q =>
      String.eqb p s && (Qnum q =? n) && (Qden q =? 1)%positive
      && String.eqb s (twoDigits n)
  | _, _ => false
  end.

(** Whether the day of the month that [Date.civil] computes from the day
    [doy] of a year that starts in March is 1 to 31. *)
Definition dateInRange (doy : Z) : bool :=
  let mp := (5 * doy + 2) / 153 in
  let d := doy - (153 * mp + 2) / 5 + 1 in
  (1 <=? d) && (d <=? 31).

(** Whether the first day of month [i mod 12] of year [i / 12] has that
    year, that month and the date 1 as its calendar date. *)
Definition firstOfMonthRoundTrips (i : Z) : bool :=
  let y := i / 12 in
  let m := i mod 12 in
  let c := Date.civil (Date.DayFromYearMonth y m) in
  (Date.year c =? y) && (Date.month c =? m) && (Date.date c =? 1).

(** ** Vocabulary of the reminder statements *)

(** The platform schedules that carry the signature of this app. *)
Definition reminders (w : World) : list Notifications.NotificationRequest :=
  List.filter ReminderStorage.isReminderRequest
              (Notifications.scheduled (platform w)).

(** A platform none of whose calls fails. *)
Definition healthy (w : World) : Prop :=
  forall c, Notifications.failing (platform w) c = false.

(** The settings with a notification id attached. *)
Definition withId (s : ReminderStorage.ReminderSettings) (id : string)
  : ReminderStorage.ReminderSettings :=
  {| ReminderStorage.enabled := ReminderStorage.enabled s;
     ReminderStorage.hour := ReminderStorage.hour s;
     ReminderStorage.minute := ReminderStorage.minute s;
     ReminderStorage.notificationId := Some id |}.

(** The request that [scheduleDailyReminder] hands to the platform. *)
Definition dailyReminder (w : World) (hour minute : Js.number)
  : Notifications.NotificationRequest :=
  {| Notifications.identifier := Notifications.nextIdentifier (platform w);
     Notifications.content :=
       {| Notifications.title := Some "Reminder";
          Notifications.body := Some "Time to add today's track.";
          Notifications.sound := true;
          Notifications.data :=
            Some [("kind", Json.JString ReminderStorage.REMINDER_KIND)] |};
     Notifications.trigger :=
       Notifications.DAILY
         (ReminderStorage.clampInt hour (Js.int 0) (Js.int 23))
         (ReminderStorage.clampInt minute (Js.int 0) (Js.int 59))
         (if bool_decide (Notifications.OS (platform w)
                          = Notifications.android)
          then Some "reminders" else None) |}.

(** Settings whose time of day is a whole hour in 0..23 and a whole minute
    in 0..59. *)
Definition validTime (s : ReminderStorage.ReminderSettings) : Prop :=
  exists h m,
    ReminderStorage.hour s = Js.int h /\ 0 <= h <= 23
    /\ ReminderStorage.minute s = Js.int m /\ 0 <= m <= 59.

(** What an operation on the schedules leaves alone: storage, journal,
    clock and zone, permission, operating system, the failing calls and
    the collation. *)
Definition sameButSchedules (w w' : World) : Prop :=
  storage w' = storage w /\ journal w' = journal w
  /\ clock w' = clock w /\ LocalTZA w' = LocalTZA w
  /\ Notifications.granted (platform w') = Notifications.granted (platform w)
  /\ Notifications.OS (platform w') = Notifications.OS (platform w)
  /\ Notifications.failing (platform w')
     = Notifications.failing (platform w)
  /\ collation w' = collation w.

(** The settings with the stored id brought in line with the only
    schedule there is. *)
Definition syncedId (s : ReminderStorage.ReminderSettings)
    (only : Notifications.NotificationRequest)
  : ReminderStorage.ReminderSettings :=
  if bool_decide (Notifications.identifier only <> "")
     && bool_decide (Some (Notifications.identifier only)
                     <> ReminderStorage.notificationId s)
  then withId s (Notifications.identifier only)
  else s.

(** A daily schedule of this app at the time of day of the settings, hour
    and minute clamped as [scheduleDailyReminder] clamps them. *)
Definition scheduledAt (s : ReminderStorage.ReminderSettings)
    (new : Notifications.NotificationRequest) : Prop :=
  ReminderStorage.isReminderRequest new = true
  /\ exists channel,
       Notifications.trigger new
       = Notifications.DAILY
           (ReminderStorage.clampInt (ReminderStorage.hour s)
                                     (Js.int 0) (Js.int 23))
           (ReminderStorage.clampInt (ReminderStorage.minute s)
                                     (Js.int 0) (Js.int 59))
           channel.

(** A schedule that carries the tag of this app. *)
Definition sampleReminder (id : string) : Notifications.NotificationRequest :=
  {| Notifications.identifier := id;
     Notifications.content :=
       {| Notifications.title := Some "Reminder";
          Notifications.body := Some "Time to add today's track.";
          Notifications.sound := true;
          Notifications.data :=
            Some [("kind", Json.JString ReminderStorage.REMINDER_KIND)] |};
     Notifications.trigger :=
       Notifications.DAILY (Js.int 20) (Js.int 0) None |}.

(** The sample device with the given schedules on its platform. *)
Definition sampleScheduled (l : list Notifications.NotificationRequest)
  : World :=
  {| storage := ∅; journal := []; platform := samplePlatform l;
     clock := 1710500000000; LocalTZA := 3600000;
     collation := Str.codeUnits |}.

(** The sample device on a platform that refuses to cancel a schedule. *)
Definition sampleKeeping (l : list Notifications.NotificationRequest)
  : World :=
  {| storage := ∅; journal := [];
     platform :=
       {| Notifications.OS := Notifications.ios;
          Notifications.granted := true;
          Notifications.scheduled := l;
          Notifications.channels := [];
          Notifications.issued := 7%nat;
          Notifications.failing :=
            fun c => match c with
                     | Notifications.CancelScheduled _ => true
                     | _ => false
                     end |};
     clock := 1710500000000; LocalTZA := 3600000;
     collation := Str.codeUnits |}.

Definition sampleSettings (on : bool) (id : option string)
  : ReminderStorage.ReminderSettings :=
  {| ReminderStorage.enabled := on;
     ReminderStorage.hour := Js.int 20;
     ReminderStorage.minute := Js.int 30;
     ReminderStorage.notificationId := id |}.

(** ** Vocabulary of the further statements *)

(** How saved settings read back: hour and minute truncated and clamped,
    20 and 0 in place of numbers that are not finite. *)
Definition readBack (s : ReminderStorage.ReminderSettings)
  : ReminderStorage.ReminderSettings :=
  {| ReminderStorage.enabled := ReminderStorage.enabled s;
     ReminderStorage.hour :=
       match ReminderStorage.hour s with
       | Js.Num q => Js.int (Z.min 23 (Z.max 0 (Js.Qtrunc q)))
       | _ => Js.int 20
       end;
     ReminderStorage.minute :=
       match ReminderStorage.minute s with
       | Js.Num q => Js.int (Z.min 59 (Z.max 0 (Js.Qtrunc q)))
       | _ => Js.int 0
       end;
     ReminderStorage.notificationId := ReminderStorage.notificationId s |}.

(** The world with other schedules on the platform. *)
Definition withScheduled (l : list Notifications.NotificationRequest)
    (w : World) : World :=
  {| storage := storage w; journal := journal w;
     platform :=
       {| Notifications.OS := Notifications.OS (platform w);
          Notifications.granted := Notifications.granted (platform w);
          Notifications.scheduled := l;
          Notifications.channels := Notifications.channels (platform w);
          Notifications.issued := Notifications.issued (platform w);
          Notifications.failing := Notifications.failing (platform w) |};
     clock := clock w; LocalTZA := LocalTZA w;
     collation := collation w |}.

(** The schedules whose identifier is none of [ids]. *)
Definition without (ids : list string)
    (l : list Notifications.NotificationRequest)
  : list Notifications.NotificationRequest :=
  List.filter
    (fun r => negb (existsb (String.eqb (Notifications.identifier r)) ids))
    l.

(** The schedules that do not carry the signature of the app. *)
Definition foreign (w : World) : list Notifications.NotificationRequest :=
  List.filter (fun r => negb (ReminderStorage.isReminderRequest r))
              (Notifications.scheduled (platform w)).

(** The settings that [loadReminderSettings] finds in the world. *)
Definition storedSettings (w : World) : ReminderStorage.ReminderSettings :=
  match result ReminderStorage.loadReminderSettings w with
  | Normal s => s
  | Throw _ => ReminderStorage.defaults
  end.

(** The world with another permission state. *)
Definition withGranted (g : bool) (w : World) : World :=
  {| storage := storage w; journal := journal w;
     platform :=
       {| Notifications.OS := Notifications.OS (platform w);
          Notifications.granted := g;
          Notifications.scheduled := Notifications.scheduled (platform w);
          Notifications.channels := Notifications.channels (platform w);
          Notifications.issued := Notifications.issued (platform w);
          Notifications.failing := Notifications.failing (platform w) |};
     clock := clock w; LocalTZA := LocalTZA w;
     collation := collation w |}.

(** The settings without a notification id, and switched off. *)
Definition withoutId (s : ReminderStorage.ReminderSettings)
  : ReminderStorage.ReminderSettings :=
  {| ReminderStorage.enabled := ReminderStorage.enabled s;
     ReminderStorage.hour := ReminderStorage.hour s;
     ReminderStorage.minute := ReminderStorage.minute s;
     ReminderStorage.notificationId := None |}.

Definition switchedOff (s : ReminderStorage.ReminderSettings)
  : ReminderStorage.ReminderSettings :=
  {| ReminderStorage.enabled := false;
     ReminderStorage.hour := ReminderStorage.hour s;
     ReminderStorage.minute := ReminderStorage.minute s;
     ReminderStorage.notificationId := None |}.

(** Descending order of date keys, as the comparison of the summary
    screen sees it. *)
Definition dateKeyGe (c : Str.Collation)
    (a b : CheckinStorage.DailyCheckin) : Prop :=
  Str.compare c (CheckinStorage.dateKey b) (CheckinStorage.dateKey a) <= 0.




(** ** Further sample worlds *)

(** The sample device with the given settings stored and the given
    schedules on its platform. *)
Definition sampleStored (s : ReminderStorage.ReminderSettings)
    (l : list Notifications.NotificationRequest) : World :=
  after (ReminderStorage.saveReminderSettings s) (sampleScheduled l).

(** The sample device on a platform that rejects every new schedule. *)
Definition sampleRejecting : World :=
  {| storage := ∅; journal := [];
     platform :=
       {| Notifications.OS := Notifications.ios;
          Notifications.granted := true;
          Notifications.scheduled := [];
          Notifications.channels := [];
          Notifications.issued := 7%nat;
          Notifications.failing :=
            fun c => match c with
                     | Notifications.Schedule => true
                     | _ => false
                     end |};
     clock := 1710500000000; LocalTZA := 3600000;
     collation := Str.codeUnits |}.

(** * Properties *)

(** ** Order of strings *)

Lemma localeCompare_total (c : Str.Collation) (a b : string) :
  0 < Str.localeCompare c a b -> Str.localeCompare c b a <= 0.
Proof. apply Str.compare_total. Qed.

Lemma localeCompare_trans (c : Str.Collation) (a b d : string) :
  Str.localeCompare c a b <= 0 -> Str.localeCompare c b d <= 0 ->
  Str.localeCompare c a d <= 0.
Proof. apply Str.compare_trans. Qed.

(** A string does not collate after itself. *)
Lemma localeCompare_same (c : Str.Collation) (a : string) :
  Str.localeCompare c a a <= 0.
Proof.
  destruct (Z.lt_ge_cases 0 (Str.localeCompare c a a)) as [H | H];
    [now apply localeCompare_total | lia].
Qed.

(** ** The stable sort *)

Section ArraySortFacts.
Context {A : Type} (compareFn : A -> A -> Z).

Let le (x y : A) : Prop := compareFn x y <= 0.

Hypothesis compareFn_total : forall x y, 0 < compareFn x y -> le y x.
Hypothesis compareFn_trans : forall x y z, le x y -> le y z -> le x z.

Lemma sort_insert_Permutation (x : A) (l : list A) :
  Permutation (sort_insert compareFn x l) (x :: l).
Proof.
  induction l as [ | y r IH]; simpl; [reflexivity | ].
  destruct (0 <? compareFn x y); [ | reflexivity].
  rewrite IH. apply perm_swap.
Qed.

Lemma Array_sort_Permutation (l : list A) :
  Permutation (Array_sort compareFn l) l.
Proof.
  induction l as [ | x r IH]; simpl; [reflexivity | ].
  rewrite sort_insert_Permutation. now constructor.
Qed.

Lemma sort_insert_StronglySorted (x : A) (l : list A) :
  StronglySorted le l -> StronglySorted le (sort_insert compareFn x l).
Proof.
  induction 1 as [ | y r Hr IH Hy]; simpl.
  - repeat constructor.
  - destruct (Z.ltb_spec 0 (compareFn x y)) as [Hgt | Hle].
    + constructor; [exact IH | ].
      rewrite sort_insert_Permutation. constructor; auto.
    + constructor; [now constructor | ].
      constructor; [exact Hle | ].
      eapply Forall_impl; [exact Hy | ].
      intros z Hz. eapply compareFn_trans; [exact Hle | exact Hz].
Qed.

Lemma Array_sort_StronglySorted (l : list A) :
  StronglySorted le (Array_sort compareFn l).
Proof.
  induction l as [ | x r IH]; simpl; [constructor | ].
  now apply sort_insert_StronglySorted.
Qed.

(** Sorting leaves a sorted array as it is. *)
Lemma Array_sort_sorted_id (l : list A) :
  StronglySorted le l -> Array_sort compareFn l = l.
Proof.
  induction 1 as [ | x r Hr IH Hx]; simpl; [reflexivity | ].
  rewrite IH. destruct r as [ | y r']; simpl; [reflexivity | ].
  apply Forall_inv in Hx. unfold le in Hx.
  destruct (Z.ltb_spec 0 (compareFn x y)); [lia | reflexivity].
Qed.
End ArraySortFacts.

(** ** Stability of the sort *)

Section Stable.
Context {A : Type} (compareFn : A -> A -> Z).
Context (P : A -> Prop) `{!forall x, Decision (P x)}.
Hypothesis same_class : forall x y, P x -> P y -> compareFn x y <= 0.

Lemma filter_sort_insert (x : A) (l : list A) :
  filter P (sort_insert compareFn x l) = filter P (x :: l).
Proof.
  induction l as [ | y r IH]; [reflexivity | ].
  cbn [sort_insert]. destruct (Z.ltb_spec 0 (compareFn x y)) as [Hgt | Hle];
    [ | reflexivity].
  rewrite filter_cons, IH, !filter_cons.
  destruct (decide (P y)) as [Hy | Hy]; [ | reflexivity].
  destruct (decide (P x)) as [Hx | Hx]; [ | reflexivity].
  specialize (same_class x y Hx Hy). lia.
Qed.

(** The sort keeps the order of the elements of a class. *)
Lemma filter_Array_sort (l : list A) :
  filter P (Array_sort compareFn l) = filter P l.
Proof.
  induction l as [ | x r IH]; [reflexivity | ].
  cbn [Array_sort]. rewrite filter_sort_insert, !filter_cons. now rewrite IH.
Qed.

Lemma list_find_head_filter (l : list A) :
  snd <$> list_find P l = head (filter P l).
Proof.
  induction l as [ | x r IH]; [reflexivity | ].
  cbn [list_find]. rewrite filter_cons.
  destruct (decide (P x)); [reflexivity | ].
  rewrite <- IH. now destruct (list_find P r) as [[i y] | ].
Qed.

Lemma head_filter_filter (Q : A -> Prop) `{!forall x, Decision (Q x)}
    (l : list A) (x : A) :
  head (filter P l) = Some x -> Q x ->
  head (filter P (filter Q l)) = Some x.
Proof.
  intros Hhead Hx. induction l as [ | y r IH]; [discriminate | ].
  rewrite filter_cons in Hhead. rewrite (filter_cons Q).
  destruct (decide (P y)) as [Hy | Hy].
  - injection Hhead as ->. rewrite decide_True by exact Hx.
    now rewrite filter_cons, decide_True by exact Hy.
  - destruct (decide (Q y)); [rewrite filter_cons, decide_False by exact Hy | ];
      now apply IH.
Qed.
End Stable.

(** A sorted list is sorted by every order that holds between its
    elements whenever the first order does. *)
Lemma StronglySorted_weaken {A} (R S : A -> A -> Prop) (l : list A) :
  (forall x y, x ∈ l -> y ∈ l -> R x y -> S x y) ->
  StronglySorted R l -> StronglySorted S l.
Proof.
  intros HRS H. induction H as [ | x r Hr IH Hx]; constructor.
  - apply IH. intros y z Hy Hz. apply HRS; now right.
  - rewrite Forall_forall in *. intros y Hy.
    apply HRS; [now left | now right | now apply Hx].
Qed.

(** ** Numbers *)

Lemma Qle_bool_inject_Z (a b : Z) :
  Qle_bool (inject_Z a) (inject_Z b) = (a <=? b).
Proof.
  unfold Qle_bool; simpl. now rewrite !Z.mul_1_r.
Qed.

Lemma Math_max_int (a b : Z) :
  Js.Math_max (Js.int a) (Js.int b) = Js.int (Z.max a b).
Proof.
  unfold Js.Math_max, Js.int. rewrite Qle_bool_inject_Z.
  destruct (Z.leb_spec a b); f_equal; f_equal; lia.
Qed.

Lemma Math_min_int (a b : Z) :
  Js.Math_min (Js.int a) (Js.int b) = Js.int (Z.min a b).
Proof.
  unfold Js.Math_min, Js.int. rewrite Qle_bool_inject_Z.
  destruct (Z.leb_spec a b); f_equal; f_equal; lia.
Qed.

Lemma Qtrunc_inject_Z (z : Z) : Js.Qtrunc (inject_Z z) = z.
Proof. unfold Js.Qtrunc; simpl. apply Z.quot_1_r. Qed.

Lemma clampInt_Num (q : Q) (lo hi : Z) :
  ReminderStorage.clampInt (Js.Num q) (Js.int lo) (Js.int hi)
  = Js.int (Z.min hi (Z.max lo (Js.Qtrunc q))).
Proof.
  unfold ReminderStorage.clampInt. cbn [Js.Math_trunc].
  now rewrite Math_max_int, Math_min_int.
Qed.


(** ** Reading the check-in store *)

Section LoadAllCheckins.
Import CheckinStorage.

Lemma byDateKey_total (c : Str.Collation) (a b : DailyCheckin) :
  0 < byDateKey c a b -> dateKeyLe c b a.
Proof. apply localeCompare_total. Qed.

Lemma byDateKey_trans (c : Str.Collation) (a b d : DailyCheckin) :
  dateKeyLe c a b -> dateKeyLe c b d -> dateKeyLe c a d.
Proof. apply localeCompare_trans. Qed.

Lemma dateKeyLe_same_key (c : Str.Collation) (a a' b : DailyCheckin) :
  dateKey a = dateKey a' -> dateKeyLe c a b <-> dateKeyLe c a' b.
Proof. unfold dateKeyLe. now intros ->. Qed.

Lemma dateKeyLe_same_key_r (c : Str.Collation) (a b b' : DailyCheckin) :
  dateKey b = dateKey b' -> dateKeyLe c a b <-> dateKeyLe c a b'.
Proof. unfold dateKeyLe. now intros ->. Qed.

Lemma sorted_checkins (c : Str.Collation) (l : list DailyCheckin) :
  StronglySorted (dateKeyLe c) (Array_sort (byDateKey c) l).
Proof.
  apply Array_sort_StronglySorted.
  - exact (byDateKey_total c).
  - exact (byDateKey_trans c).
Qed.

(** The guard accepts exactly the elements that read as a check-in, and
    the cast reads them. *)
Lemma isDailyCheckin_readCheckin (item : Json.value) :
  match readCheckin item with
  | Some c => isDailyCheckin item = true /\ asDailyCheckin item = c
  | None => isDailyCheckin item = false
  end.
Proof.
  destruct item as [ | b | q | n | s | items | ms ]; try reflexivity.
  - destruct b; reflexivity.
  - unfold isDailyCheckin; cbn. now destruct (Qeq_bool q 0).
  - unfold isDailyCheckin; cbn. now destruct (String.eqb s "").
  - unfold readCheckin, isDailyCheckin, asDailyCheckin, field; cbn.
    destruct (Json.member "dateKey" ms) as [[]|]; cbn; try reflexivity;
    destruct (Json.member "energy" ms) as [[]|]; cbn; try reflexivity;
    destruct (Json.member "mood" ms) as [[]|]; cbn; try reflexivity;
    destruct (Json.member "focus" ms) as [[]|]; cbn; try reflexivity;
    destruct (Json.member "updatedAt" ms) as [[]|]; cbn;
      try reflexivity; now split.
Qed.

Lemma filter_isDailyCheckin (items : list Json.value) :
  asDailyCheckin <$> List.filter isDailyCheckin items
  = omap readCheckin items.
Proof.
  induction items as [ | item rest IH]; [reflexivity | ].
  pose proof (isDailyCheckin_readCheckin item) as H. cbn.
  destruct (readCheckin item) as [c | ].
  - destruct H as [-> <-]. cbn. now rewrite IH.
  - now rewrite H.
Qed.

(** What [JSON.stringify] writes for a finite check-in reads back as it
    was; a check-in with a number that is not finite is written with
    [null] in its place and does not read back. *)
Lemma readCheckin_toJSON (c : DailyCheckin) :
  finiteCheckin c -> readCheckin (toJSON c) = Some c.
Proof.
  destruct c as [k e m f u]. unfold finiteCheckin; cbn.
  intros (He & Hm & Hf & Hu).
  destruct e; try discriminate. destruct m; try discriminate.
  destruct f; try discriminate. destruct u; try discriminate.
  reflexivity.
Qed.

Lemma readCheckin_toJSON_inv (x c : DailyCheckin) :
  readCheckin (toJSON x) = Some c -> c = x /\ finiteCheckin x.
Proof.
  destruct x as [k e m f u]. unfold finiteCheckin.
  destruct e, m, f, u; cbn; try discriminate.
  intros [= <-]. now repeat split.
Qed.

Lemma readCheckin_toJSON_filter (c : DailyCheckin) :
  readCheckin (toJSON c) = if decide (finiteCheckin c) then Some c else None.
Proof.
  destruct (decide (finiteCheckin c)) as [Hc | Hc].
  - now apply readCheckin_toJSON.
  - destruct (readCheckin (toJSON c)) as [x | ] eqn:E; [ | reflexivity].
    now apply readCheckin_toJSON_inv in E as [_ E].
Qed.

Lemma omap_readCheckin_toJSON_filter (l : list DailyCheckin) :
  omap readCheckin (map toJSON l) = filter finiteCheckin l.
Proof.
  induction l as [ | c r IH]; [reflexivity | ].
  cbn [map omap list_omap]. rewrite readCheckin_toJSON_filter, filter_cons.
  destruct (decide (finiteCheckin c)); cbn; now rewrite IH.
Qed.

Lemma filter_finite_id (l : list DailyCheckin) :
  Forall finiteCheckin l -> filter finiteCheckin l = l.
Proof.
  induction 1 as [ | c r Hc Hr IH]; [reflexivity | ].
  now rewrite filter_cons, decide_True, IH by exact Hc.
Qed.

Lemma omap_readCheckin_toJSON (l : list DailyCheckin) :
  Forall finiteCheckin l -> omap readCheckin (map toJSON l) = l.
Proof.
  intros Hl. now rewrite omap_readCheckin_toJSON_filter, filter_finite_id.
Qed.

Lemma loadAllCheckins_eq (w : World) :
  loadAllCheckins w = (Normal (checkins w), w).
Proof.
  unfold checkins, result, loadAllCheckins, bind, AsyncStorage.getItem,
    asks.
  destruct (storage w !! STORAGE_KEY) as [[raw | v] | ]; cbn.
  - destruct raw; reflexivity.
  - destruct v; reflexivity.
  - reflexivity.
Qed.

Lemma checkins_eq (w : World) :
  checkins w
  = match storage w !! STORAGE_KEY with
    | Some (Json.Encoded v) =>
        Array_sort (byDateKey (collation w)) (omap readCheckin (elements v))
    | _ => []
    end.
Proof.
  unfold checkins, result, loadAllCheckins, bind, AsyncStorage.getItem,
    asks.
  destruct (storage w !! STORAGE_KEY) as [[raw | v] | ]; cbn.
  - destruct raw; reflexivity.
  - destruct v; cbn; try reflexivity. now rewrite filter_isDailyCheckin.
  - reflexivity.
Qed.

Lemma checkins_sorted (w : World) :
  StronglySorted (dateKeyLe (collation w)) (checkins w).
Proof.
  rewrite checkins_eq. repeat case_match; try constructor.
  apply sorted_checkins.
Qed.
End LoadAllCheckins.

(** C8. [loadAllCheckins] finds no check-in when nothing is stored or the
    stored text is not JSON; from a stored value it keeps exactly the array
    elements that have the five fields with their primitive types
    ([dateKey] a string; [energy], [mood], [focus], [updatedAt] numbers),
    drops the others without raising an error, and returns what it keeps in
    ascending order of [dateKey]: no key collates after a later one in the
    collation of the device, which on a device that collates the keys it
    reads by their code units is the ascending order of the code units.
    It never writes. *)
Theorem loadAllCheckins_validates_and_sorts (w : World) :
  after CheckinStorage.loadAllCheckins w = w /\
  exists l,
    result CheckinStorage.loadAllCheckins w = Normal l
    /\ StronglySorted (dateKeyLe (collation w)) l
    /\ ((forall a b,
           a ∈ l -> b ∈ l ->
           Str.compare (collation w) (CheckinStorage.dateKey a)
                       (CheckinStorage.dateKey b)
           = Str.compareCodeUnits (CheckinStorage.dateKey a)
                                  (CheckinStorage.dateKey b)) ->
        StronglySorted
          (fun a b => String.compare (CheckinStorage.dateKey a)
                                     (CheckinStorage.dateKey b) <> Gt) l)
    /\ match storage w !! CheckinStorage.STORAGE_KEY with
       | None | Some (Json.Unparseable _) => l = []
       | Some (Json.Encoded v) =>
           Permutation l (omap readCheckin (elements v))
       end.
Proof.
  unfold after, result. rewrite loadAllCheckins_eq. cbn [fst snd].
  split; [reflexivity | ]. exists (checkins w).
  split; [reflexivity | ]. split; [apply checkins_sorted | ]. split.
  - intros Hcode.
    eapply StronglySorted_weaken; [ | apply checkins_sorted].
    intros x y Hx Hy Hxy. unfold dateKeyLe in Hxy.
    rewrite (Hcode x y Hx Hy) in Hxy. unfold Str.compareCodeUnits in Hxy.
    destruct (String.compare _ _); [discriminate | discriminate | lia].
  - rewrite checkins_eq.
    destruct (storage w !! CheckinStorage.STORAGE_KEY) as [[raw | v] | ];
      try reflexivity.
    apply Array_sort_Permutation.
Qed.

(** ** Reminder settings *)

Section LoadReminderSettings.
Import ReminderStorage.

Lemma hourOf_range v : 0 <= hourOf v <= 23.
Proof. unfold hourOf. repeat case_match; lia. Qed.

Lemma minuteOf_range v : 0 <= minuteOf v <= 59.
Proof. unfold minuteOf. repeat case_match; lia. Qed.

Lemma loadReminderSettings_Encoded (w : World) (v : Json.value) :
  storage w !! STORAGE_KEY = Some (Json.Encoded v) ->
  exists s, loadReminderSettings w = (Normal s, w)
            /\ hour s = Js.int (hourOf v)
            /\ minute s = Js.int (minuteOf v).
Proof.
  intros Hraw.
  unfold loadReminderSettings, bind, AsyncStorage.getItem, asks.
  rewrite Hraw. cbn [Json.isEmpty].
  unfold try_catch, bind, lift, ret, hourOf, minuteOf.
  destruct v as [ | b | q | n | s | items | ms ]; cbn -[clampInt];
    try (eexists; split; [reflexivity | split; reflexivity ]).
  destruct (Json.member "hour" ms) as [[ | | | [] | | | ] | ] eqn:Hh;
  destruct (Json.member "minute" ms) as [[ | | | [] | | | ] | ] eqn:Hm;
    cbn -[clampInt]; rewrite ?clampInt_Num;
    (eexists; split; [reflexivity | split; reflexivity ]).
Qed.
End LoadReminderSettings.

(** C9. [loadReminderSettings] returns the defaults (disabled, 20:00, no
    notification id) when nothing is stored or the stored text is not JSON;
    a stored value that parses loads with its hour truncated toward zero and
    then clamped into 0..23 and its minute truncated and clamped into 0..59
    (a field that is not a number loads as 20, respectively 0; a numeral
    beyond the range of doubles, which parses to an infinity, loads as the
    bound on its side). Loading never writes. *)
Theorem loadReminderSettings_defaults_and_clamp (w : World) :
  snd (ReminderStorage.loadReminderSettings w) = w /\
  match storage w !! ReminderStorage.STORAGE_KEY with
  | None | Some (Json.Unparseable _) =>
      fst (ReminderStorage.loadReminderSettings w)
      = Normal {| ReminderStorage.enabled := false;
                  ReminderStorage.hour := Js.int 20;
                  ReminderStorage.minute := Js.int 0;
                  ReminderStorage.notificationId := None |}
  | Some (Json.Encoded v) =>
      exists s h m,
        fst (ReminderStorage.loadReminderSettings w) = Normal s
        /\ ReminderStorage.hour s = Js.int h /\ 0 <= h <= 23
        /\ ReminderStorage.minute s = Js.int m /\ 0 <= m <= 59
        /\ match Json.get v "hour" with
           | Normal (Some (Json.JNumber q)) =>
               h = Z.min 23 (Z.max 0 (Z.quot (Qnum q) (Zpos (Qden q))))
           | Normal (Some (Json.JInfinity negative)) =>
               h = if negative then 0 else 23
           | _ => h = 20
           end
        /\ match Json.get v "minute" with
           | Normal (Some (Json.JNumber q)) =>
               m = Z.min 59 (Z.max 0 (Z.quot (Qnum q) (Zpos (Qden q))))
           | Normal (Some (Json.JInfinity negative)) =>
               m = if negative then 0 else 59
           | _ => m = 0
           end
  end.
Proof.
  destruct (storage w !! ReminderStorage.STORAGE_KEY) as [[raw|v]|] eqn:Hraw.
  - unfold ReminderStorage.loadReminderSettings, bind, AsyncStorage.getItem,
      asks. rewrite Hraw. destruct raw; cbn; auto.
  - destruct (loadReminderSettings_Encoded w v Hraw) as (s & Hs & Hh & Hm).
    rewrite Hs; split; [reflexivity|].
    exists s, (hourOf v), (minuteOf v). cbn [fst].
    pose proof (hourOf_range v). pose proof (minuteOf_range v).
    repeat split; try tauto; try lia.
    + unfold hourOf. repeat case_match; reflexivity.
    + unfold minuteOf. repeat case_match; reflexivity.
  - unfold ReminderStorage.loadReminderSettings, bind, AsyncStorage.getItem,
      asks. rewrite Hraw. cbn; auto.
Qed.

(** A stored hour of 7.9 loads as 7 and a stored minute of -0.5 as 0. *)
Example loadReminderSettings_truncates :
  forall w,
    storage w !! ReminderStorage.STORAGE_KEY
    = Some (Json.Encoded (Json.JObject
        [("enabled", Json.JBool true);
         ("hour", Json.JNumber (79 # 10));
         ("minute", Json.JNumber (-1 # 2))])) ->
    fst (ReminderStorage.loadReminderSettings w)
    = Normal {| ReminderStorage.enabled := true;
                ReminderStorage.hour := Js.int 7;
                ReminderStorage.minute := Js.int 0;
                ReminderStorage.notificationId := None |}.
Proof.
  intros w Hraw.
  unfold ReminderStorage.loadReminderSettings, bind, AsyncStorage.getItem,
    asks. rewrite Hraw. reflexivity.
Qed.

(** ** Writing the check-in store *)

Section Upsert.
Import CheckinStorage.

(** What is read from a store that was written: the check-ins written
    whose numbers are finite, in order. *)
Lemma checkins_written_any (l : list DailyCheckin) (w : World) :
  checkins (written STORAGE_KEY (stringify l) w)
  = Array_sort (byDateKey (collation w)) (filter finiteCheckin l).
Proof.
  rewrite checkins_eq. unfold written, after; cbn.
  rewrite lookup_insert_eq. cbn. now rewrite omap_readCheckin_toJSON_filter.
Qed.

Lemma checkins_written (l : list DailyCheckin) (w : World) :
  Forall finiteCheckin l ->
  checkins (written STORAGE_KEY (stringify l) w)
  = Array_sort (byDateKey (collation w)) l.
Proof.
  intros Hl. now rewrite checkins_written_any, filter_finite_id.
Qed.

(** What is read after a write has finite numbers. *)
Lemma checkins_written_finite (l : list DailyCheckin) (w : World) :
  Forall finiteCheckin (checkins (written STORAGE_KEY (stringify l) w)).
Proof.
  rewrite checkins_written_any. apply Forall_forall. intros c Hc.
  rewrite (Array_sort_Permutation (byDateKey (collation w))) in Hc.
  now apply list_elem_of_filter in Hc as [Hc _].
Qed.

Lemma checkins_atTime (c : Z) (w : World) :
  checkins (atTime c w) = checkins w.
Proof. now rewrite !checkins_eq. Qed.

Lemma upsertTodayCheckin_eq (values : Values) (w : World) :
  upsertTodayCheckin values w
  = (Normal (upserted values w),
     written STORAGE_KEY (stringify (upsertedAll values w)) w).
Proof.
  unfold upsertTodayCheckin, bind, asks, Date_now, Date_new, ret.
  destruct (v_date values) as [d | ] eqn:Hd;
    cbn -[loadAllCheckins getLocalDateKey stringify];
    rewrite loadAllCheckins_eq; unfold upsertedAll, upserted;
    rewrite Hd; reflexivity.
Qed.

Lemma upserted_finite (values : Values) (w : World) :
  finiteValues values -> finiteCheckin (upserted values w).
Proof. intros (He & Hm & Hf). now repeat split. Qed.

Lemma upsertedAll_finite (values : Values) (w : World) :
  finiteValues values -> Forall finiteCheckin (checkins w) ->
  Forall finiteCheckin (upsertedAll values w).
Proof.
  intros Hv Hall.
  pose proof (upserted_finite values w Hv) as Hnext.
  unfold upsertedAll. destruct (list_find _ _) as [[i old] | ].
  - now apply Forall_insert.
  - apply Forall_app. split; [exact Hall | now constructor].
Qed.

(** Overwriting an element by one of the same key keeps the order. *)
Lemma StronglySorted_insert_same_key (c : Str.Collation)
    (l : list DailyCheckin) (i : nat) (old next : DailyCheckin) :
  StronglySorted (dateKeyLe c) l -> l !! i = Some old ->
  dateKey old = dateKey next ->
  StronglySorted (dateKeyLe c) (<[i := next]> l).
Proof.
  intros Hl. revert i. induction Hl as [ | x r Hr IH Hx]; intros i Hi Hk.
  - discriminate.
  - destruct i as [ | i]; cbn in *.
    + injection Hi as ->. constructor; [exact Hr | ].
      eapply Forall_impl; [exact Hx | ].
      intros z Hz. now apply (dateKeyLe_same_key c old next z).
    + constructor; [now apply IH | ].
      apply Forall_insert; [exact Hx | ].
      apply (dateKeyLe_same_key_r c x old next Hk).
      rewrite Forall_forall in Hx. apply Hx.
      eapply list_elem_of_lookup_2; eassumption.
Qed.

(** The keys written back: the same as before when the key was there,
    one more otherwise. *)
Lemma upsertedAll_keys (values : Values) (w : World) :
  let key := dateKey (upserted values w) in
  dateKey <$> upsertedAll values w
  = if bool_decide (key ∈ dateKey <$> checkins w)
    then dateKey <$> checkins w
    else ((dateKey <$> checkins w) ++ [key])%list.
Proof.
  cbn zeta. unfold upsertedAll.
  destruct (list_find _ _) as [[i old] | ] eqn:Hfind.
  - apply list_find_Some in Hfind as (Hi & Hk & _).
    rewrite bool_decide_true.
    + rewrite list_fmap_insert. apply list_insert_id.
      rewrite list_lookup_fmap, Hi. cbn. now rewrite Hk.
    + apply list_elem_of_fmap. exists old. split; [easy | ].
      eapply list_elem_of_lookup_2; eassumption.
  - apply list_find_None in Hfind.
    rewrite bool_decide_false.
    + now rewrite fmap_app.
    + intros Hin. apply list_elem_of_fmap in Hin as (c & Hc & Hin).
      rewrite Forall_forall in Hfind. now apply (Hfind c).
Qed.

Lemma upserted_in_upsertedAll (values : Values) (w : World) :
  upserted values w ∈ upsertedAll values w.
Proof.
  unfold upsertedAll.
  destruct (list_find _ _) as [[i old] | ] eqn:Hfind.
  - apply list_find_Some in Hfind as (Hi & _).
    apply list_elem_of_lookup. exists i.
    apply list_lookup_insert_eq. eapply lookup_lt_Some; eassumption.
  - apply elem_of_app. right. apply list_elem_of_here.
Qed.

Lemma same_key_byDateKey (c : Str.Collation) (key : string)
    (x y : DailyCheckin) :
  dateKey x = key -> dateKey y = key -> byDateKey c x y <= 0.
Proof.
  intros Hx Hy. unfold byDateKey. rewrite Hx, Hy. apply localeCompare_same.
Qed.

(** The sort keeps the order of the check-ins of one key. *)
Lemma checkinsOf_sorted (c : Str.Collation) (key : string)
    (l : list DailyCheckin) :
  filter (fun x => dateKey x = key) (Array_sort (byDateKey c) l)
  = filter (fun x => dateKey x = key) l.
Proof. apply filter_Array_sort, same_key_byDateKey. Qed.

(** In the array written back, the first element of the key is the new
    record. *)
Lemma head_upsertedAll (values : Values) (w : World) :
  let next := upserted values w in
  head (filter (fun c => dateKey c = dateKey next) (upsertedAll values w))
  = Some next.
Proof.
  cbn zeta. set (next := upserted values w).
  rewrite <- list_find_head_filter.
  unfold upsertedAll. fold next.
  destruct (list_find _ (checkins w)) as [[i old] | ] eqn:Hfind.
  - apply list_find_Some in Hfind as (Hi & Hk & Hfirst).
    assert (list_find (fun c => dateKey c = dateKey next)
                      (<[i := next]> (checkins w)) = Some (i, next)) as ->.
    { apply list_find_Some. split; [ | split].
      - apply list_lookup_insert_eq. eapply lookup_lt_Some; eassumption.
      - reflexivity.
      - intros j y Hj Hlt.
        rewrite list_lookup_insert_ne in Hj by lia. eauto. }
    reflexivity.
  - apply list_find_None in Hfind.
    assert (list_find (fun c => dateKey c = dateKey next)
                      (checkins w ++ [next])%list
            = Some (length (checkins w), next)) as ->; [ | reflexivity].
    apply list_find_Some. split; [ | split].
    + rewrite lookup_app_r by lia. now rewrite Nat.sub_diag.
    + reflexivity.
    + intros j y Hj Hlt. rewrite lookup_app_l in Hj by exact Hlt.
      rewrite Forall_forall in Hfind. apply Hfind.
      eapply list_elem_of_lookup_2; eassumption.
Qed.

(** After an upsert with finite values, the first check-in of the key
    that is read is the new record, whatever else is stored. *)
Lemma list_find_upsertedAll (values : Values) (w : World) :
  finiteValues values ->
  let next := upserted values w in
  snd <$> list_find (fun c => dateKey c = dateKey next)
            (Array_sort (byDateKey (collation w))
               (filter finiteCheckin (upsertedAll values w)))
  = Some next.
Proof.
  intros Hv next. rewrite list_find_head_filter, checkinsOf_sorted.
  apply head_filter_filter; [apply head_upsertedAll | ].
  now apply upserted_finite.
Qed.

Lemma loadCheckinForDate_eq (key : string) (w : World) :
  loadCheckinForDate key w
  = (Normal (snd <$> list_find (fun c => dateKey c = key) (checkins w)),
     w).
Proof.
  unfold loadCheckinForDate, bind. now rewrite loadAllCheckins_eq.
Qed.
End Upsert.

(** C2. After [upsertTodayCheckin] with finite values (every valid triple,
    whose numbers are 1 to 10, is finite) and any date, given or left out,
    [loadCheckinForDate] on the date key of the record returns that record:
    its energy, mood and focus are the values passed in and its [updatedAt]
    is not before the time of the call. *)
Theorem upsert_then_loadCheckinForDate
    (values : CheckinStorage.Values) (w : World) :
  finiteValues values ->
  exists next,
    result (CheckinStorage.upsertTodayCheckin values) w = Normal next
    /\ result (CheckinStorage.loadCheckinForDate
                 (CheckinStorage.dateKey next))
              (after (CheckinStorage.upsertTodayCheckin values) w)
       = Normal (Some next)
    /\ CheckinStorage.energy next = CheckinStorage.v_energy values
    /\ CheckinStorage.mood next = CheckinStorage.v_mood values
    /\ CheckinStorage.focus next = CheckinStorage.v_focus values
    /\ Js.le (Js.int (clock w)) (CheckinStorage.updatedAt next) = true.
Proof.
  intros Hv. exists (upserted values w).
  unfold result, after. rewrite upsertTodayCheckin_eq. cbn [fst snd].
  split; [reflexivity | ].
  rewrite loadCheckinForDate_eq. cbn [fst].
  rewrite checkins_written_any.
  rewrite list_find_upsertedAll by exact Hv.
  repeat split. cbn. rewrite Qle_bool_inject_Z. apply Z.leb_refl.
Qed.

(** ** Purging the check-in store *)

Section Purge.
Import CheckinStorage.

Lemma purgeCheckinsOlderThan_eq (days : option Js.number) (w : World) :
  let all := checkins w in
  let kept := List.filter (onOrAfter (purgeCutoff days w) w) all in
  purgeCheckinsOlderThan days w
  = if (length kept =? length all)%nat then (Normal 0, w)
    else (Normal (Z.of_nat (length all) - Z.of_nat (length kept)),
          written STORAGE_KEY
            (stringify (Array_sort (byDateKey (collation w)) kept)) w).
Proof.
  cbn zeta. unfold purgeCheckinsOlderThan, bind.
  rewrite loadAllCheckins_eq.
  destruct (checkins w) as [ | c all] eqn:Hall; [reflexivity | ].
  cbn [length Nat.eqb].
  change (List.filter (onOrAfter (purgeCutoff days w) w) (c :: all))
    with (List.filter
            (fun c => Date.ge (localDateFromDateKey (LocalTZA w) (dateKey c))
                              (purgeCutoff days w)) (c :: all)).
  set (kept := List.filter _ (c :: all)).
  unfold Date_new, asks. cbv beta iota.
  fold (purgeCutoff days w). fold kept.
  destruct (length kept =? S (length all))%nat; reflexivity.
Qed.

Lemma filter_sublist {A} (f : A -> bool) (l : list A) :
  sublist (List.filter f l) l.
Proof.
  induction l as [ | x r IH]; cbn; [constructor | ].
  destruct (f x); now constructor.
Qed.

Lemma filter_length_eq {A} (f : A -> bool) (l : list A) :
  length (List.filter f l) = length l -> List.filter f l = l.
Proof.
  induction l as [ | x r IH]; cbn; [reflexivity | ].
  pose proof (sublist_length _ _ (filter_sublist f r)) as Hle.
  destruct (f x); cbn; intros H.
  - f_equal. apply IH. lia.
  - lia.
Qed.

Lemma filter_Forall {A} (P : A -> Prop) (f : A -> bool) (l : list A) :
  Forall P l -> Forall P (List.filter f l).
Proof.
  induction 1 as [ | x r Hx Hr IH]; cbn; [constructor | ].
  destruct (f x); [now constructor | exact IH].
Qed.

Lemma filter_StronglySorted {A} (R : A -> A -> Prop) (f : A -> bool)
    (l : list A) :
  StronglySorted R l -> StronglySorted R (List.filter f l).
Proof.
  induction 1 as [ | x r Hr IH Hx]; cbn; [constructor | ].
  destruct (f x); [ | exact IH].
  constructor; [exact IH | now apply filter_Forall].
Qed.

Lemma filterP_StronglySorted {A} (R : A -> A -> Prop) (P : A -> Prop)
    `{!forall x, Decision (P x)} (l : list A) :
  StronglySorted R l -> StronglySorted R (filter P l).
Proof.
  induction 1 as [ | x r Hr IH Hx]; [constructor | ].
  rewrite filter_cons. destruct (decide (P x)); [ | exact IH].
  constructor; [exact IH | ].
  apply Forall_forall. intros y Hy. apply list_elem_of_filter in Hy as [_ Hy].
  rewrite Forall_forall in Hx. now apply Hx.
Qed.

(** What the store holds after a purge: as before when nothing was
    removed; otherwise what the purge kept, as far as its numbers are
    finite and so survive the write. *)
Lemma checkins_after_purge_any (days : option Js.number) (w : World) :
  let kept := List.filter (onOrAfter (purgeCutoff days w) w) (checkins w) in
  checkins (after (purgeCheckinsOlderThan days) w)
  = if (length kept =? length (checkins w))%nat then checkins w
    else filter finiteCheckin kept.
Proof.
  cbn zeta. unfold after. rewrite purgeCheckinsOlderThan_eq. cbn zeta.
  set (kept := List.filter _ (checkins w)).
  destruct (Nat.eqb_spec (length kept) (length (checkins w))) as [E | E];
    cbn [snd]; [reflexivity | ].
  assert (StronglySorted (dateKeyLe (collation w)) kept) as Hkept
    by apply filter_StronglySorted, checkins_sorted.
  rewrite (Array_sort_sorted_id (byDateKey (collation w)) kept Hkept).
  rewrite checkins_written_any.
  apply (Array_sort_sorted_id (byDateKey (collation w))).
  now apply filterP_StronglySorted.
Qed.

(** In a store whose numbers are finite: what the purge kept. *)
Lemma checkins_after_purge (days : option Js.number) (w : World) :
  Forall finiteCheckin (checkins w) ->
  checkins (after (purgeCheckinsOlderThan days) w)
  = List.filter (onOrAfter (purgeCutoff days w) w) (checkins w).
Proof.
  intros Hfin. rewrite checkins_after_purge_any. cbn zeta.
  set (kept := List.filter _ (checkins w)).
  destruct (Nat.eqb_spec (length kept) (length (checkins w))) as [E | E].
  - symmetry. now apply filter_length_eq.
  - apply filter_finite_id. now apply filter_Forall.
Qed.

(** Whatever is stored, a purge leaves only check-ins that it kept. *)
Lemma checkins_after_purge_sublist (days : option Js.number) (w : World) :
  sublist (checkins (after (purgeCheckinsOlderThan days) w))
          (List.filter (onOrAfter (purgeCutoff days w) w) (checkins w)).
Proof.
  rewrite checkins_after_purge_any. cbn zeta.
  set (kept := List.filter _ (checkins w)).
  destruct (Nat.eqb_spec (length kept) (length (checkins w))) as [E | E].
  - unfold kept. now rewrite (filter_length_eq _ _ E).
  - apply sublist_filter.
Qed.

(** After a purge that removed something the numbers are finite. *)
Lemma checkins_after_purge_finite (days : option Js.number) (w : World) :
  length (checkins (after (purgeCheckinsOlderThan days) w))
  <> length (checkins w) ->
  Forall finiteCheckin (checkins (after (purgeCheckinsOlderThan days) w)).
Proof.
  rewrite checkins_after_purge_any. cbn zeta.
  destruct (_ =? _)%nat; [congruence | intros _].
  apply Forall_forall. intros c Hc.
  now apply list_elem_of_filter in Hc as [Hc _].
Qed.
End Purge.

(** ** One check-in per day *)

Section OnePerDay.
Import CheckinStorage.

(** What is read after an upsert: the array written back, as far as its
    numbers are finite, in order. *)
Lemma checkins_after_upsert_any (values : Values) (w : World) :
  checkins (after (upsertTodayCheckin values) w)
  = Array_sort (byDateKey (collation w))
      (filter finiteCheckin (upsertedAll values w)).
Proof.
  unfold after. rewrite upsertTodayCheckin_eq. cbn [snd].
  apply checkins_written_any.
Qed.

Lemma checkins_after_upsert (values : Values) (w : World) :
  finiteValues values -> Forall finiteCheckin (checkins w) ->
  checkins (after (upsertTodayCheckin values) w)
  = Array_sort (byDateKey (collation w)) (upsertedAll values w).
Proof.
  intros Hv Hall. rewrite checkins_after_upsert_any.
  now rewrite filter_finite_id by now apply upsertedAll_finite.
Qed.

Lemma checkins_after_upsert_finite (values : Values) (w : World) :
  Forall finiteCheckin (checkins (after (upsertTodayCheckin values) w)).
Proof.
  unfold after. rewrite upsertTodayCheckin_eq. cbn [snd].
  apply checkins_written_finite.
Qed.

Lemma onePerDay_upsert (values : Values) (w : World) :
  onePerDay w -> onePerDay (after (upsertTodayCheckin values) w).
Proof.
  unfold onePerDay. intros Hw.
  rewrite checkins_after_upsert_any.
  rewrite (Array_sort_Permutation (byDateKey (collation w))).
  eapply sublist_NoDup; [ | apply fmap_sublist, sublist_filter].
  rewrite upsertedAll_keys.
  case_bool_decide as Hin; [exact Hw | ].
  apply NoDup_app. split; [exact Hw | ]. split.
  - intros k Hk Hk'. apply list_elem_of_singleton in Hk'. now subst.
  - apply NoDup_singleton.
Qed.

Lemma onePerDay_purge (days : option Js.number) (w : World) :
  onePerDay w -> onePerDay (after (purgeCheckinsOlderThan days) w).
Proof.
  unfold onePerDay. intros Hw.
  eapply sublist_NoDup; [exact Hw | ].
  apply fmap_sublist. etransitivity; [apply checkins_after_purge_sublist | ].
  apply filter_sublist.
Qed.

Lemma checkins_after_clear (w : World) :
  checkins (after clearAllCheckins w) = [].
Proof.
  rewrite checkins_eq. unfold after, clearAllCheckins; cbn.
  now rewrite lookup_delete_eq.
Qed.

Lemma filter_none (key : string) (l : list DailyCheckin) :
  key ∉ dateKey <$> l -> filter (fun c => dateKey c = key) l = [].
Proof.
  induction l as [ | y r IH]; intros Hnot; [reflexivity | ].
  rewrite fmap_cons in Hnot. apply not_elem_of_cons in Hnot as [Hy Hr].
  rewrite filter_cons_False by congruence. now apply IH.
Qed.

Lemma filter_unique_key (l : list DailyCheckin) (x : DailyCheckin) :
  NoDup (dateKey <$> l) -> x ∈ l ->
  filter (fun c => dateKey c = dateKey x) l = [x].
Proof.
  induction l as [ | y r IH]; intros Hnd Hin.
  - now apply elem_of_nil in Hin.
  - rewrite fmap_cons in Hnd. apply NoDup_cons in Hnd as [Hy Hr].
    apply elem_of_cons in Hin as [-> | Hin].
    + rewrite filter_cons_True by reflexivity. f_equal.
      now apply filter_none.
    + rewrite filter_cons_False; [now apply IH | ].
      intros Hk. apply Hy. rewrite Hk. now apply list_elem_of_fmap_2.
Qed.

Lemma upserted_in_checkins (values : Values) (w : World) :
  finiteValues values ->
  upserted values w ∈ checkins (after (upsertTodayCheckin values) w).
Proof.
  intros Hv. rewrite checkins_after_upsert_any.
  rewrite (Array_sort_Permutation (byDateKey (collation w))).
  apply list_elem_of_filter. split; [now apply upserted_finite | ].
  apply upserted_in_upsertedAll.
Qed.

Lemma length_after_upsert (values : Values) (w : World) :
  finiteValues values -> Forall finiteCheckin (checkins w) ->
  dateKey (upserted values w) ∈ dateKey <$> checkins w ->
  length (checkins (after (upsertTodayCheckin values) w))
  = length (checkins w).
Proof.
  intros Hv Hall Hin. rewrite checkins_after_upsert by assumption.
  rewrite (Array_sort_Permutation (byDateKey (collation w))).
  rewrite <- (length_fmap dateKey), upsertedAll_keys.
  rewrite bool_decide_true by exact Hin. apply length_fmap.
Qed.
End OnePerDay.

(** C3, as the code has it. Every operation of the check-in store keeps
    at most one check-in per date key: [upsertTodayCheckin],
    [purgeCheckinsOlderThan] and [clearAllCheckins]. In a store with one
    check-in per key, two calls of [upsertTodayCheckin] with finite values
    for the same date, the second at any later time, leave exactly one
    check-in of that key, which is the record that the second call
    returns, with the second call's values, and the second call does not
    change the number of check-ins. An upsert for a date that the store
    already holds leaves the number of check-ins unchanged when the
    numbers of the stored check-ins are finite; a stored check-in with a
    number that is not finite is written back with [null] and is not read
    again, so that after an upsert every check-in has finite numbers. *)
Theorem checkin_store_one_per_day (w : World) :
  onePerDay w ->
  (forall values,
     onePerDay (after (CheckinStorage.upsertTodayCheckin values) w)
     /\ Forall finiteCheckin
          (checkins (after (CheckinStorage.upsertTodayCheckin values) w)))
  /\ (forall days,
        onePerDay (after (CheckinStorage.purgeCheckinsOlderThan days) w))
  /\ onePerDay (after CheckinStorage.clearAllCheckins w)
  /\ (forall first second later,
        finiteValues first -> finiteValues second ->
        let w1 :=
          atTime later (after (CheckinStorage.upsertTodayCheckin first) w) in
        let w2 := after (CheckinStorage.upsertTodayCheckin second) w1 in
        let r2 := upserted second w1 in
        CheckinStorage.dateKey (upserted first w) = CheckinStorage.dateKey r2 ->
        result (CheckinStorage.upsertTodayCheckin second) w1 = Normal r2
        /\ checkinsOf (CheckinStorage.dateKey r2) w2 = [r2]
        /\ CheckinStorage.energy r2 = CheckinStorage.v_energy second
        /\ CheckinStorage.mood r2 = CheckinStorage.v_mood second
        /\ CheckinStorage.focus r2 = CheckinStorage.v_focus second
        /\ length (checkins w2) = length (checkins w1))
  /\ (forall values,
        finiteValues values -> Forall finiteCheckin (checkins w) ->
        CheckinStorage.dateKey (upserted values w)
        ∈ CheckinStorage.dateKey <$> checkins w ->
        let w' := after (CheckinStorage.upsertTodayCheckin values) w in
        result (CheckinStorage.upsertTodayCheckin values) w
        = Normal (upserted values w)
        /\ checkinsOf (CheckinStorage.dateKey (upserted values w)) w'
           = [upserted values w]
        /\ length (checkins w') = length (checkins w)).
Proof.
  intros Hw. split; [ | split; [ | split; [ | split]]].
  - intros values.
    split; [now apply onePerDay_upsert | apply checkins_after_upsert_finite].
  - intros days. now apply onePerDay_purge.
  - unfold onePerDay. rewrite checkins_after_clear. constructor.
  - intros first second later H1 H2 w1 w2 r2 Hkey.
    assert (onePerDay w1) as Hw1.
    { unfold onePerDay, w1. rewrite checkins_atTime.
      now apply onePerDay_upsert. }
    split; [unfold result; now rewrite upsertTodayCheckin_eq | ].
    split; [ | repeat split].
    + unfold checkinsOf. apply filter_unique_key.
      * now apply onePerDay_upsert.
      * now apply upserted_in_checkins.
    + apply length_after_upsert; [exact H2 | | ].
      * unfold w1. rewrite checkins_atTime.
        apply checkins_after_upsert_finite.
      * fold r2. rewrite <- Hkey. unfold w1. rewrite checkins_atTime.
        apply list_elem_of_fmap_2. now apply upserted_in_checkins.
  - intros values Hv Hall Hin w'.
    split; [unfold result; now rewrite upsertTodayCheckin_eq | ]. split.
    + unfold checkinsOf. apply filter_unique_key.
      * now apply onePerDay_upsert.
      * now apply upserted_in_checkins.
    + now apply length_after_upsert.
Qed.

(** ** Dates *)

Lemma holdsFrom_spec (n : nat) (start : Z) (p : Z -> bool) :
  holdsFrom n start p = true ->
  forall z, start <= z < start + Z.of_nat n -> p z = true.
Proof.
  revert start. induction n as [ | n IH]; intros start H z Hz.
  - lia.
  - cbn in H. apply andb_prop in H as [H0 H1].
    destruct (Z.eq_dec z start) as [-> | Hne]; [exact H0 | ].
    apply (IH (start + 1)); [exact H1 | lia].
Qed.

Lemma eraDayInRange_all (doe : Z) :
  0 <= doe < 146097 -> eraDayInRange doe = true.
Proof.
  intros H. apply (holdsFrom_spec (Z.to_nat 146097) 0); [ | lia].
  vm_compute. reflexivity.
Qed.

Section CivilDates.
Import Date.

(** The calendar date of a day number is the date of that day. *)
Lemma civil_DayFromYearMonth (n : Z) :
  DayFromYearMonth (year (civil n)) (month (civil n)) + date (civil n) - 1
  = n
  /\ 0 <= month (civil n) <= 11.
Proof.
  unfold civil, DayFromYearMonth. cbn [year month date].
  set (z := n + 719468).
  set (era := z / 146097).
  set (doe := z - era * 146097).
  assert (0 <= doe < 146097) as Hdoe.
  { unfold doe, era. pose proof (Z.mod_pos_bound z 146097 ltac:(lia)).
    rewrite Z.mod_eq in H by lia. lia. }
  pose proof (eraDayInRange_all doe Hdoe) as Hr.
  unfold eraDayInRange in Hr.
  set (yoe := (doe - doe / 1460 + doe / 36524 - doe / 146096) / 365) in *.
  set (doy := doe - (365 * yoe + yoe / 4 - yoe / 100)) in *.
  apply andb_prop in Hr as [Hr Hdoy2]. apply andb_prop in Hr as [Hr Hdoy1].
  apply andb_prop in Hr as [Hyoe1 Hyoe2].
  apply Z.leb_le in Hyoe1, Hyoe2, Hdoy1, Hdoy2.
  set (mp := (5 * doy + 2) / 153).
  assert (0 <= mp <= 11) as Hmp.
  { unfold mp. split.
    - apply Z.div_pos; lia.
    - apply Z.lt_succ_r. apply Z.div_lt_upper_bound; lia. }
  destruct (Z.ltb_spec mp 10) as [Hlt | Hge].
  - assert ((mp + 2 <=? 1) = false) as -> by lia.
    assert ((1 <? mp + 2) = true) as -> by lia.
    replace (yoe + era * 400 + 0) with (yoe + era * 400) by lia.
    replace ((yoe + era * 400) / 400) with era
      by (apply Z.div_unique with yoe; lia).
    replace (yoe + era * 400 - era * 400) with yoe by lia.
    replace (mp + 2 - 2) with mp by lia.
    split; [ | lia].
    generalize ((153 * mp + 2) / 5). unfold doy.
    generalize (yoe / 4), (yoe / 100). clearbody yoe.
    unfold doe, z. clearbody era. lia.
  - assert ((mp - 10 <=? 1) = true) as -> by lia.
    assert ((1 <? mp - 10) = false) as -> by lia.
    replace (yoe + era * 400 + 1 - 1) with (yoe + era * 400) by lia.
    replace ((yoe + era * 400) / 400) with era
      by (apply Z.div_unique with yoe; lia).
    replace (yoe + era * 400 - era * 400) with yoe by lia.
    replace (mp - 10 + 10) with mp by lia.
    split; [ | lia].
    generalize ((153 * mp + 2) / 5). unfold doy.
    generalize (yoe / 4), (yoe / 100). clearbody yoe.
    unfold doe, z. clearbody era. lia.
Qed.

Lemma civil_year_1600 (n : Z) : 0 <= n -> 1600 <= year (civil n).
Proof.
  intros Hn. unfold civil. cbn [year].
  set (z := n + 719468).
  set (era := z / 146097).
  set (doe := z - era * 146097).
  assert (0 <= doe < 146097) as Hdoe.
  { unfold doe, era. pose proof (Z.mod_pos_bound z 146097 ltac:(lia)).
    rewrite Z.mod_eq in H by lia. lia. }
  pose proof (eraDayInRange_all doe Hdoe) as Hr.
  unfold eraDayInRange in Hr.
  set (yoe := (doe - doe / 1460 + doe / 36524 - doe / 146096) / 365) in *.
  apply andb_prop in Hr as [Hr _]. apply andb_prop in Hr as [Hr _].
  apply andb_prop in Hr as [Hyoe1 _]. apply Z.leb_le in Hyoe1.
  assert (4 <= era).
  { unfold era. apply Z.div_le_lower_bound; lia. }
  destruct (_ <? _); lia.
Qed.

Lemma Day_midnight (n : Z) : Day (n * msPerDay) = n.
Proof. unfold Day. apply Z.div_mul. unfold msPerDay. lia. Qed.

Lemma TimeWithinDay_midnight (n : Z) : TimeWithinDay (n * msPerDay) = 0.
Proof. unfold TimeWithinDay. apply Z.mod_mul. unfold msPerDay. lia. Qed.

Lemma LocalTime_UTC (tza x : Z) : LocalTime tza (UTC tza x) = x.
Proof. unfold LocalTime, UTC. lia. Qed.
End CivilDates.

(** ** Truncation *)

Lemma Qtrunc_floor (q : Q) :
  Js.Qtrunc q = if 0 <=? Qnum q then Qfloor q else - Qfloor (- q).
Proof.
  destruct q as [n d]. unfold Js.Qtrunc, Qfloor, Qopp. cbn [Qnum Qden].
  destruct (Z.leb_spec 0 n) as [Hn | Hn].
  - apply Z.quot_div_nonneg; lia.
  - rewrite <- (Z.opp_involutive n) at 1. rewrite Z.quot_opp_l by lia.
    f_equal. apply Z.quot_div_nonneg; lia.
Qed.

Lemma Qnum_nonneg (q : Q) : (0 <=? Qnum q) = true <-> (0 <= q)%Q.
Proof.
  destruct q as [n d]. unfold Qle. cbn. rewrite Z.leb_le. lia.
Qed.

Lemma Qtrunc_comp (x y : Q) : (x == y)%Q -> Js.Qtrunc x = Js.Qtrunc y.
Proof.
  intros E. rewrite !Qtrunc_floor.
  assert ((0 <=? Qnum x) = (0 <=? Qnum y)) as ->.
  { apply eq_true_iff_eq. rewrite !Qnum_nonneg. now rewrite E. }
  destruct (0 <=? Qnum y).
  - now apply Qfloor_comp.
  - f_equal. apply Qfloor_comp. now rewrite E.
Qed.

Lemma Qtrunc_le (x y : Q) : (x <= y)%Q -> Js.Qtrunc x <= Js.Qtrunc y.
Proof.
  intros Hle. rewrite !Qtrunc_floor.
  destruct (0 <=? Qnum x) eqn:Hx; destruct (0 <=? Qnum y) eqn:Hy.
  - now apply Qfloor_resp_le.
  - apply Qnum_nonneg in Hx.
    assert (~ (0 <= y)%Q) as Hny by (rewrite <- Qnum_nonneg; congruence).
    exfalso. apply Hny. now apply Qle_trans with x.
  - apply Qnum_nonneg in Hy.
    assert (~ (0 <= x)%Q) as Hnx by (rewrite <- Qnum_nonneg; congruence).
    apply Qnot_le_lt in Hnx.
    assert (0 <= Qfloor (- x)).
    { rewrite <- (Qfloor_Z 0). apply Qfloor_resp_le.
      apply Qlt_le_weak in Hnx. apply Qopp_le_compat in Hnx. exact Hnx. }
    assert (0 <= Qfloor y).
    { rewrite <- (Qfloor_Z 0). now apply Qfloor_resp_le. }
    lia.
  - apply Qopp_le_compat in Hle. apply Qfloor_resp_le in Hle. lia.
Qed.

Lemma Qtrunc_int_sub (a b c : Z) :
  Js.Qtrunc (inject_Z a - (inject_Z b - inject_Z c)) = a - (b - c).
Proof.
  rewrite <- (Qtrunc_inject_Z (a - (b - c))). apply Qtrunc_comp.
  unfold Qeq, Qminus, Qplus, Qopp, inject_Z. cbn. lia.
Qed.

(** ** The cutoff of a purge *)

Section Cutoff.
Import Date.

Lemma MakeDay_int (y m : Z) (dt : Js.number) :
  0 <= m <= 11 ->
  MakeDay (Js.int y) (Js.int m) dt
  = match dt with
    | Js.Num q => Some (DayFromYearMonth y m + Js.Qtrunc q - 1)
    | _ => None
    end.
Proof.
  intros Hm. unfold MakeDay, Js.int. rewrite !Qtrunc_inject_Z.
  rewrite Z.div_small, Z.mod_small by lia.
  now rewrite Z.add_0_r.
Qed.

Lemma MakeFullYear_int (y : Z) :
  99 < y -> MakeFullYear (Js.int y) = Js.int y.
Proof.
  intros Hy. unfold MakeFullYear, Js.int. rewrite Qtrunc_inject_Z.
  destruct (Z.leb_spec y 99); [lia | ]. now rewrite andb_false_r.
Qed.

Lemma today_bounds (w : World) :
  deviceOk w ->
  0 <= today w
  /\ today w * msPerDay <= clock w + LocalTZA w
     < today w * msPerDay + msPerDay.
Proof.
  intros (H0 & _). unfold today, Day, LocalTime.
  pose proof (Z.mod_pos_bound (clock w + LocalTZA w) msPerDay) as Hm.
  rewrite Z.mod_eq in Hm by (unfold msPerDay; lia).
  assert (0 < msPerDay) as Hpos by (unfold msPerDay; lia).
  specialize (Hm Hpos). split; [ | lia].
  apply Z.div_pos; lia.
Qed.

(** The cutoff is the start of the local day that lies as many days
    before today as the purge steps back. *)
Lemma purgeCutoff_eq (days : option Js.number) (w : World) :
  deviceOk w ->
  purgeCutoff days w
  = match Js.sub (Js.int (date (civil (today w))))
                 (Js.sub (Js.Math_max (Js.int 1)
                                      (default (Js.int 90) days))
                         (Js.int 1)) with
    | Js.Num q =>
        TimeClip
          (localMidnight w
             (today w - date (civil (today w)) + Js.Qtrunc q))
    | _ => None
    end.
Proof.
  intros Hok. pose proof (today_bounds w Hok) as (Htoday & Hlo & Hhi).
  destruct Hok as (H0 & Hmax & Htz).
  pose proof (civil_DayFromYearMonth (today w)) as (Hciv & Hmonth).
  pose proof (civil_year_1600 (today w) Htoday) as Hyear.
  unfold purgeCutoff.
  assert (TimeClip (Some (clock w)) = Some (clock w)) as ->.
  { unfold TimeClip. unfold maxTime, msPerDay in *.
    destruct (Z.leb_spec (Z.abs (clock w)) 8640000000000000); [easy | lia]. }
  unfold getFullYear, getMonth, getDate. cbn [fmap option_fmap option_map].
  unfold YearFromTime, MonthFromTime, DateFromTime.
  fold (today w). cbn [Js.of_integral].
  assert (make (LocalTZA w) (Js.int (year (civil (today w))))
               (Js.int (month (civil (today w))))
               (Js.int (date (civil (today w))))
          = Some (UTC (LocalTZA w) (today w * msPerDay))) as ->.
  { unfold make. rewrite MakeFullYear_int by lia.
    rewrite MakeDay_int by exact Hmonth. unfold Js.int at 1.
    rewrite Qtrunc_inject_Z, Hciv. cbn. unfold TimeClip, UTC.
    rewrite Z.add_0_r.
    unfold maxTime, msPerDay in *.
    destruct (Z.leb_spec (Z.abs (today w * 86400000 - LocalTZA w))
                         8640000000000000); [easy | lia]. }
  cbn [fmap option_fmap option_map Js.of_integral].
  unfold setDate. rewrite LocalTime_UTC.
  unfold YearFromTime, MonthFromTime, DateFromTime.
  rewrite Day_midnight, TimeWithinDay_midnight.
  rewrite MakeDay_int by exact Hmonth.
  destruct (Js.sub _ _) as [q | | | ]; try reflexivity.
  replace (DayFromYearMonth (year (civil (today w)))
             (month (civil (today w))) + Js.Qtrunc q - 1)
    with (today w - date (civil (today w)) + Js.Qtrunc q) by lia.
  unfold MakeDate, localMidnight. cbn [fmap option_fmap option_map].
  now rewrite Z.add_0_r.
Qed.
End Cutoff.

(** ** Date keys: writing and reading back *)

Section DateKeyRoundTrip.
Import Date CheckinStorage.

Lemma digit_facts (c : ascii) :
  Str.isDigit 10 c = true ->
  Str.isStrWhiteSpace c = false
  /\ Ascii.eqb c "-" = false /\ Ascii.eqb c "+" = false
  /\ (Ascii.eqb c "x" || Ascii.eqb c "X") = false
  /\ (Ascii.eqb c "o" || Ascii.eqb c "O") = false
  /\ (Ascii.eqb c "b" || Ascii.eqb c "B") = false
  /\ Ascii.eqb c "I" = false.
Proof.
  destruct c as [[] [] [] [] [] [] [] []]; vm_compute; intros H;
    try discriminate H; repeat split.
Qed.

Lemma split_segment (s t : string) :
  Forall (fun c => Ascii.eqb c "-" = false) (list_ascii_of_string s) ->
  Str.split "-" (s +:+ String "-" t) = s :: Str.split "-" t.
Proof.
  induction s as [ | c s IH]; cbn [list_ascii_of_string]; intros H.
  - reflexivity.
  - apply Forall_cons in H as [Hc Hs].
    change (String c s +:+ String "-" t)
      with (String c (s +:+ String "-" t)).
    cbn [Str.split]. rewrite Hc, (IH Hs). reflexivity.
Qed.

Lemma pretty_N_char_digit (r : N) :
  (r < 10)%N ->
  Str.isDigit 10 (pretty_N_char r) = true
  /\ Str.digitValue (pretty_N_char r) = Some (Z.of_N r).
Proof.
  intros Hr.
  assert (r = 0 \/ r = 1 \/ r = 2 \/ r = 3 \/ r = 4 \/ r = 5 \/ r = 6
          \/ r = 7 \/ r = 8 \/ r = 9)%N as Hcases by lia.
  repeat (destruct Hcases as [-> | Hcases]; [now split | ]).
  subst r. now split.
Qed.

Lemma string_of_list_ascii_snoc (ds : list ascii) (c : ascii) (s : string) :
  string_of_list_ascii (ds ++ [c]) +:+ s
  = string_of_list_ascii ds +:+ String c s.
Proof.
  induction ds as [ | d ds IH]; [reflexivity | ].
  change (String d (string_of_list_ascii (ds ++ [c]) +:+ s)
          = String d (string_of_list_ascii ds +:+ String c s)).
  now rewrite IH.
Qed.

Lemma digitsValue_snoc (ds : list ascii) (c : ascii) :
  Str.digitsValue 10 (ds ++ [c])
  = Str.digitsValue 10 ds * 10 + default 0 (Str.digitValue c).
Proof. unfold Str.digitsValue. now rewrite fold_left_app. Qed.

(** The characters that [pretty] puts in front of [s] are the decimal
    digits of [x]. *)
Lemma pretty_N_go_digits (x : N) :
  forall s, exists ds,
    pretty_N_go x s = string_of_list_ascii ds +:+ s
    /\ Forall (fun c => Str.isDigit 10 c = true) ds
    /\ Str.digitsValue 10 ds = Z.of_N x
    /\ ((0 < x)%N -> ds <> []).
Proof.
  induction (N.lt_wf_0 x) as [x _ IH]. intros s.
  destruct (N.eq_dec x 0%N) as [-> | Hx].
  - exists []. rewrite pretty_N_go_0. repeat split; [constructor | lia].
  - rewrite pretty_N_go_step by lia.
    destruct (IH (x `div` 10)%N ltac:(apply N.div_lt; lia)
                (String (pretty_N_char (x `mod` 10)) s))
      as (ds & Heq & Hds & Hval & _).
    pose proof (pretty_N_char_digit (x `mod` 10)%N
                  ltac:(apply N.mod_lt; lia)) as [Hdig Hdv].
    exists (ds ++ [pretty_N_char (x `mod` 10)])%list.
    split; [now rewrite Heq, string_of_list_ascii_snoc | ].
    split; [apply Forall_app; split; [exact Hds | now constructor] | ].
    split.
    + rewrite digitsValue_snoc, Hval, Hdv. cbn [default].
      unfold id. pose proof (N.div_mod x 10 ltac:(lia)). lia.
    + intros _ E. now apply app_eq_nil in E as [_ E].
Qed.

Lemma append_empty (s : string) : s +:+ "" = s.
Proof.
  induction s as [ | c s IH]; [reflexivity | ].
  change (String c (s +:+ "") = String c s). now rewrite IH.
Qed.

Lemma pretty_Z_digits (y : Z) :
  0 < y ->
  exists ds,
    pretty y = string_of_list_ascii ds /\ ds <> []
    /\ Forall (fun c => Str.isDigit 10 c = true) ds
    /\ Str.digitsValue 10 ds = y.
Proof.
  destruct y as [ | p | p]; try lia. intros _.
  destruct (pretty_N_go_digits (N.pos p) "") as (ds & Heq & Hds & Hval & Hne).
  exists ds. rewrite append_empty in Heq.
  split; [exact Heq | ]. split; [apply Hne; lia | ]. now split.
Qed.

Lemma trimStart_digit (ds : list ascii) :
  match ds with c :: _ => Str.isDigit 10 c = true | [] => True end ->
  Str.trimStart ds = ds.
Proof.
  destruct ds as [ | c r]; [reflexivity | ]. intros Hc.
  apply digit_facts in Hc as (Hws & _). cbn. now rewrite Hws.
Qed.

Lemma trim_digits (ds : list ascii) :
  Forall (fun c => Str.isDigit 10 c = true) ds -> Str.trim ds = ds.
Proof.
  intros Hds. unfold Str.trim.
  rewrite (trimStart_digit ds) by (destruct Hds; auto).
  rewrite trimStart_digit; [apply rev_involutive | ].
  assert (Forall (fun c => Str.isDigit 10 c = true) (rev ds)) as Hrev.
  { apply Forall_forall. intros c Hc. rewrite Forall_forall in Hds.
    apply Hds. apply list_elem_of_In. apply list_elem_of_In in Hc.
    now apply in_rev. }
  destruct Hrev; auto.
Qed.

Lemma spanDigits_digits (ds : list ascii) :
  Forall (fun c => Str.isDigit 10 c = true) ds ->
  Str.spanDigits 10 ds = (ds, []).
Proof.
  induction 1 as [ | c r Hc Hr IH]; cbn [Str.spanDigits]; [reflexivity | ].
  now rewrite Hc, IH.
Qed.

Lemma strDecimalLiteral_digits (ds : list ascii) :
  ds <> [] -> Forall (fun c => Str.isDigit 10 c = true) ds ->
  Str.strDecimalLiteral ds = Js.int (Str.digitsValue 10 ds).
Proof.
  intros Hne Hds. destruct ds as [ | c r]; [congruence | ].
  pose proof (Forall_inv Hds) as Hc.
  apply digit_facts in Hc as (_ & Hminus & Hplus & _ & _ & _ & HI).
  unfold Str.strDecimalLiteral. rewrite Hminus, Hplus.
  assert (String.eqb (string_of_list_ascii (c :: r)) "Infinity" = false)
    as ->.
  { cbn [string_of_list_ascii]. cbn [String.eqb]. now rewrite HI. }
  unfold Str.unsignedDecimal. rewrite (spanDigits_digits _ Hds).
  rewrite app_nil_r. cbn [Str.exponentPart length Z.of_nat Z.sub].
  unfold Js.int. f_equal.
  generalize (Str.digitsValue 10 (c :: r)). intros v.
  unfold Qmult, inject_Z. cbn. now rewrite Z.mul_1_r.
Qed.

(** [Number] reads a string of decimal digits as their value. *)
Lemma Number_digits (ds : list ascii) :
  ds <> [] -> Forall (fun c => Str.isDigit 10 c = true) ds ->
  Str.Number (string_of_list_ascii ds) = Js.int (Str.digitsValue 10 ds).
Proof.
  intros Hne Hds. unfold Str.Number.
  rewrite list_ascii_of_string_of_list_ascii, (trim_digits _ Hds).
  destruct ds as [ | z [ | x r]]; [congruence | | ].
  - now apply strDecimalLiteral_digits.
  - assert (Str.isDigit 10 x = true) as Hx.
    { apply Forall_inv_tail in Hds. now apply Forall_inv in Hds. }
    apply digit_facts in Hx as (_ & _ & _ & -> & -> & -> & _).
    rewrite !andb_false_r. now apply strDecimalLiteral_digits.
Qed.

(** The year of a key, from 1 on: one segment that reads back. *)
Lemma year_segment (y : Z) (t : string) :
  0 < y ->
  Str.split "-" (pretty y +:+ String "-" t) = pretty y :: Str.split "-" t
  /\ Str.Number (pretty y) = Js.int y.
Proof.
  intros Hy. destruct (pretty_Z_digits y Hy) as (ds & -> & Hne & Hds & Hval).
  split.
  - apply split_segment. rewrite list_ascii_of_string_of_list_ascii.
    eapply Forall_impl; [exact Hds | ].
    intros c Hc. now apply digit_facts in Hc.
  - rewrite <- Hval. now apply Number_digits.
Qed.

Lemma twoDigitsReadBack_spec (n : Z) :
  1 <= n <= 31 ->
  let s := Str.padStart 2 "0" (pretty n) in
  Str.split "-" s = [s] /\ Str.Number s = Js.int n /\ s = twoDigits n.
Proof.
  intros Hn s.
  assert (twoDigitsReadBack n = true) as H.
  { apply (holdsFrom_spec 31 1); [vm_compute; reflexivity | lia]. }
  unfold twoDigitsReadBack in H. fold s in H.
  destruct (Str.split "-" s) as [ | p [ | ? ?]]; try discriminate H.
  destruct (Str.Number s) as [[num den] | | | ]; try discriminate H.
  apply andb_prop in H as [H Htwo]. apply andb_prop in H as [H Hden].
  apply andb_prop in H as [Hp Hnum].
  apply String.eqb_eq in Hp, Htwo. apply Z.eqb_eq in Hnum.
  apply Pos.eqb_eq in Hden. cbn in Hnum, Hden. subst p num den.
  now repeat split.
Qed.

Lemma split_nonempty (s : string) : Str.split "-" s <> [].
Proof.
  destruct s as [ | c s]; cbn [Str.split]; [discriminate | ].
  destruct (Ascii.eqb c "-"); [discriminate | ].
  destruct (Str.split "-" s); discriminate.
Qed.

Lemma split_one_segment (s t p : string) :
  Str.split "-" s = [p] ->
  Str.split "-" (s +:+ String "-" t) = p :: Str.split "-" t.
Proof.
  revert p. induction s as [ | c s IH]; intros p.
  - intros [= <-]. reflexivity.
  - change (String c s +:+ String "-" t)
      with (String c (s +:+ String "-" t)).
    cbn [Str.split]. pose proof (split_nonempty s) as Hne.
    destruct (Ascii.eqb c "-").
    + intros [= _ Hrest]. congruence.
    + destruct (Str.split "-" s) as [ | p' ps]; [congruence | ].
      intros [= <- ->]. now rewrite (IH p').
Qed.

Lemma two_digits_segment (n : Z) (t : string) :
  1 <= n <= 31 ->
  let s := Str.padStart 2 "0" (pretty n) in
  Str.split "-" (s +:+ String "-" t) = s :: Str.split "-" t.
Proof.
  intros Hn s. apply split_one_segment.
  apply (twoDigitsReadBack_spec n Hn).
Qed.

(** The day of the month is 1 to 31. *)
Lemma civil_date_range (n : Z) : 1 <= date (civil n) <= 31.
Proof.
  unfold civil. cbn [date].
  set (z := n + 719468).
  set (era := z / 146097).
  set (doe := z - era * 146097).
  assert (0 <= doe < 146097) as Hdoe.
  { unfold doe, era. pose proof (Z.mod_pos_bound z 146097 ltac:(lia)).
    rewrite Z.mod_eq in H by lia. lia. }
  pose proof (eraDayInRange_all doe Hdoe) as Hr.
  unfold eraDayInRange in Hr.
  set (yoe := (doe - doe / 1460 + doe / 36524 - doe / 146096) / 365) in *.
  set (doy := doe - (365 * yoe + yoe / 4 - yoe / 100)) in *.
  apply andb_prop in Hr as [Hr Hdoy2]. apply andb_prop in Hr as [_ Hdoy1].
  apply Z.leb_le in Hdoy1, Hdoy2. clearbody doy.
  assert (dateInRange doy = true) as H.
  { apply (holdsFrom_spec 366 0); [vm_compute; reflexivity | lia]. }
  unfold dateInRange in H. apply andb_prop in H as [H1 H2].
  apply Z.leb_le in H1, H2. lia.
Qed.

(** A year from 100 on starts no earlier than day -719468. *)
Lemma DayFromYearMonth_lower (y m : Z) :
  100 <= y -> 0 <= m <= 11 -> -719468 <= DayFromYearMonth y m.
Proof.
  intros Hy Hm. unfold DayFromYearMonth.
  set (y' := if m <=? 1 then y - 1 else y).
  assert (99 <= y') as Hy' by (unfold y'; destruct (m <=? 1); lia).
  clearbody y'.
  set (mp := if 1 <? m then m - 2 else m + 10).
  assert (0 <= mp <= 11) as Hmp
    by (unfold mp; destruct (Z.ltb_spec 1 m); lia).
  clearbody mp.
  pose proof (Z.mod_pos_bound y' 400 ltac:(lia)) as Hyoe.
  rewrite Z.mod_eq in Hyoe by lia.
  replace (y' / 400 * 400) with (400 * (y' / 400)) by lia.
  assert (0 <= y' / 400) as Hera by (apply Z.div_pos; lia).
  set (era := y' / 400) in *. clearbody era.
  set (yoe := y' - 400 * era) in *. clearbody yoe.
  assert (0 <= yoe / 4) by (apply Z.div_pos; lia).
  assert (yoe / 100 <= yoe) by (apply Z.div_le_upper_bound; lia).
  assert (0 <= (153 * mp + 2) / 5) by (apply Z.div_pos; lia).
  lia.
Qed.

(** The key of a date names the calendar date of its local day. *)
Lemma getLocalDateKey_eq (tza tv : Z) :
  let c := civil (Day (LocalTime tza tv)) in
  getLocalDateKey tza (Some tv)
  = pretty (year c)
    +:+ String "-" (Str.padStart 2 "0" (pretty (month c + 1))
    +:+ String "-" (Str.padStart 2 "0" (pretty (date c)))).
Proof. reflexivity. Qed.

(** Reading a key of a year from 100 on: the start of that local day. *)
Lemma localDateFromDateKey_getLocalDateKey (tza tv : Z) :
  - msPerDay <= tza <= msPerDay -> Z.abs tv <= maxTime ->
  100 <= YearFromTime (LocalTime tza tv) ->
  localDateFromDateKey tza (getLocalDateKey tza (Some tv))
  = Some (UTC tza (Day (LocalTime tza tv) * msPerDay)).
Proof.
  intros Htz Htv Hy. rewrite getLocalDateKey_eq. cbn zeta.
  unfold YearFromTime in Hy.
  set (n := Day (LocalTime tza tv)) in *.
  assert (n * msPerDay <= tv + tza) as Hn.
  { unfold n, Day, LocalTime.
    pose proof (Z.mod_pos_bound (tv + tza) msPerDay
                  ltac:(unfold msPerDay; lia)) as Hmod.
    rewrite Z.mod_eq in Hmod by (unfold msPerDay; lia). lia. }
  destruct (civil_DayFromYearMonth n) as [Hday Hm].
  pose proof (civil_date_range n) as Hd.
  set (y := year (civil n)) in *. set (m := month (civil n)) in *.
  set (d := date (civil n)) in *. clearbody y m d.
  unfold localDateFromDateKey.
  destruct (year_segment y
              (Str.padStart 2 "0" (pretty (m + 1))
               +:+ String "-" (Str.padStart 2 "0" (pretty d)))
              ltac:(lia)) as [-> Hyear].
  rewrite (two_digits_segment (m + 1)) by lia.
  destruct (twoDigitsReadBack_spec (m + 1) ltac:(lia)) as (_ & Hmonth & _).
  destruct (twoDigitsReadBack_spec d ltac:(lia)) as (-> & Hdate & _).
  cbn [map lookup list_lookup default]. cbn zeta in Hmonth, Hdate.
  rewrite Hyear, Hmonth, Hdate. unfold id.
  unfold make. rewrite MakeFullYear_int by lia.
  unfold Js.sub, Js.int, MakeDay. rewrite !Qtrunc_inject_Z.
  rewrite (Qtrunc_comp _ (inject_Z m))
    by (unfold Qeq, Qminus, Qplus, Qopp, inject_Z; cbn; lia).
  rewrite Qtrunc_inject_Z, Z.div_small, Z.mod_small by lia.
  rewrite Z.add_0_r, Hday.
  pose proof (DayFromYearMonth_lower y m Hy Hm) as Hlow.
  unfold MakeDate, TimeClip, UTC. cbn [fmap option_fmap option_map].
  rewrite Z.add_0_r. unfold maxTime, msPerDay in *.
  destruct (Z.leb_spec (Z.abs (n * 86400000 - tza)) 8640000000000000);
    [reflexivity | lia].
Qed.

(** The key that the code writes is the key of the local day. *)
Lemma getLocalDateKey_dateKeyOfDay (tza tv : Z) :
  getLocalDateKey tza (Some tv) = dateKeyOfDay (Day (LocalTime tza tv)).
Proof.
  rewrite getLocalDateKey_eq. cbn zeta. unfold dateKeyOfDay.
  set (n := Day (LocalTime tza tv)).
  destruct (civil_DayFromYearMonth n) as [_ Hm].
  pose proof (civil_date_range n) as Hd.
  destruct (twoDigitsReadBack_spec (month (civil n) + 1) ltac:(lia))
    as (_ & _ & Hmonth).
  destruct (twoDigitsReadBack_spec (date (civil n)) Hd) as (_ & _ & Hdate).
  cbn zeta in Hmonth, Hdate. now rewrite Hmonth, Hdate.
Qed.

(** Reading the key of a day: the start of that day in local time. *)
Lemma localDateFromDateKey_dateKeyOfDay (tza day : Z) :
  - msPerDay <= tza <= msPerDay -> plainDay day ->
  localDateFromDateKey tza (dateKeyOfDay day)
  = Some (UTC tza (day * msPerDay)).
Proof.
  intros Htz [Hy Hday].
  assert (Day (LocalTime tza (UTC tza (day * msPerDay))) = day) as Hd
    by now rewrite LocalTime_UTC, Day_midnight.
  rewrite <- Hd at 1. rewrite <- getLocalDateKey_dateKeyOfDay.
  rewrite localDateFromDateKey_getLocalDateKey; [now rewrite Hd | exact Htz | | ].
  - destruct (civil_DayFromYearMonth day) as [Hn Hm].
    pose proof (civil_date_range day) as Hdt.
    pose proof (DayFromYearMonth_lower _ _ Hy Hm) as Hlow.
    unfold UTC, maxTime, msPerDay in *. lia.
  - unfold YearFromTime. now rewrite Hd.
Qed.
End DateKeyRoundTrip.

Section PurgeCutoff.
Import Date CheckinStorage.

Lemma TimeClip_localMidnight (w : World) (day : Z) :
  deviceOk w -> -99999999 <= day <= today w ->
  TimeClip (localMidnight w day) = localMidnight w day.
Proof.
  intros Hok Hday. pose proof (today_bounds w Hok) as (Htoday & Hlo & Hhi).
  destruct Hok as (H0 & Hmax & Htz).
  unfold TimeClip, localMidnight, UTC.
  unfold maxTime, msPerDay in *.
  destruct (Z.leb_spec (Z.abs (day * 86400000 - LocalTZA w))
                       8640000000000000); [reflexivity | lia].
Qed.


Lemma purgeCutoff_int (k : Z) (w : World) :
  deviceOk w -> k <= 100000000 ->
  purgeCutoff (Some (Js.int k)) w
  = localMidnight w (today w - (Z.max 1 k - 1)).
Proof.
  intros Hok Hk. rewrite purgeCutoff_eq by exact Hok.
  change (default (Js.int 90) (Some (Js.int k))) with (Js.int k). rewrite Math_max_int. unfold Js.sub, Js.int.
  rewrite Qtrunc_int_sub.
  pose proof (today_bounds w Hok) as (Htoday & _).
  replace (today w - date (civil (today w))
           + (date (civil (today w)) - (Z.max 1 k - 1)))
    with (today w - (Z.max 1 k - 1)) by lia.
  apply TimeClip_localMidnight; [exact Hok | lia].
Qed.

Lemma purgeCutoff_le_1 (days : Js.number) (w : World) :
  deviceOk w -> Js.le days (Js.int 1) = true ->
  purgeCutoff (Some days) w = localMidnight w (today w).
Proof.
  intros Hok Hdays. rewrite purgeCutoff_eq by exact Hok.
  change (default (Js.int 90) (Some days)) with days.
  pose proof (today_bounds w Hok) as (Htoday & _).
  assert (forall q, (q == 1)%Q ->
            TimeClip (localMidnight w
              (today w - date (civil (today w))
               + Js.Qtrunc (inject_Z (date (civil (today w)))
                            - (q - inject_Z 1))))
            = localMidnight w (today w)) as Hone.
  { intros q Hq.
    rewrite (Qtrunc_comp _ (inject_Z (date (civil (today w))))).
    - rewrite Qtrunc_inject_Z.
      replace (today w - date (civil (today w)) + date (civil (today w)))
        with (today w) by lia.
      apply TimeClip_localMidnight; [exact Hok | lia].
    - rewrite Hq. unfold Qeq, Qminus, Qplus, Qopp, inject_Z. cbn. lia. }
  destruct days as [q | | | ]; try discriminate.
  - cbn in Hdays. unfold Js.Math_max, Js.int.
    destruct (Qle_bool (inject_Z 1) q) eqn:Hge; cbn [Js.sub].
    + apply Hone. apply Qle_bool_iff in Hdays, Hge.
      now apply Qle_antisym.
    + now apply Hone.
  - cbn [Js.Math_max Js.int Js.sub]. now apply Hone.
Qed.

Lemma Math_max_1_ge (days : Js.number) (q : Q) :
  Js.Math_max (Js.int 1) days = Js.Num q -> (1 <= q)%Q.
Proof.
  unfold Js.Math_max, Js.int.
  destruct days as [p | | | ]; try discriminate.
  - destruct (Qle_bool (inject_Z 1) p) eqn:Hge; intros [= <-].
    + now apply Qle_bool_iff.
    + apply Qle_refl.
  - intros [= <-]. apply Qle_refl.
Qed.

(** Whatever the number of days, a valid cutoff is not after now. *)
Lemma purgeCutoff_not_future (days : option Js.number) (w : World)
    (tv : Z) :
  deviceOk w -> purgeCutoff days w = Some tv -> tv <= clock w.
Proof.
  intros Hok. rewrite purgeCutoff_eq by exact Hok.
  pose proof (today_bounds w Hok) as (Htoday & Hlo & Hhi).
  set (D := date (civil (today w))). clearbody D.
  destruct (Js.Math_max (Js.int 1) (default (Js.int 90) days))
    as [m | | | ] eqn:Hmax; try discriminate.
  apply Math_max_1_ge in Hmax.
  assert (Js.Qtrunc (inject_Z D - (m - inject_Z 1)) <= D) as Hle.
  { rewrite <- (Qtrunc_inject_Z D) at 2.
    apply Qtrunc_le.
    rewrite <- (Qplus_0_r (inject_Z D)) at 2.
    unfold Qminus. apply Qplus_le_r.
    apply (Qopp_le_compat 0). destruct m as [n d].
    unfold Qle in *. cbn in *. lia. }
  unfold Js.sub, Js.int, TimeClip, localMidnight.
  set (steps := Js.Qtrunc (inject_Z D - (m - inject_Z 1))) in *.
  clearbody steps.
  destruct (_ <=? _); [ | discriminate]. intros [= <-].
  unfold UTC, msPerDay in *. lia.
Qed.

(** A date parsed from a key is the start of a local day. *)
Lemma localDateFromDateKey_midnight (tza : Z) (key : string) (tv : Z) :
  localDateFromDateKey tza key = Some tv ->
  tv = UTC tza (Day (LocalTime tza tv) * msPerDay).
Proof.
  unfold localDateFromDateKey, make.
  destruct (MakeDay _ _ _) as [d | ]; [ | discriminate].
  unfold MakeDate, TimeClip. cbn [fmap option_fmap option_map].
  destruct (_ <=? _); [ | discriminate]. intros [= <-].
  rewrite LocalTime_UTC, Z.add_0_r, Day_midnight. reflexivity.
Qed.

Lemma onOrAfter_localMidnight (w : World) (cutoffDay : Z)
    (c : DailyCheckin) :
  onOrAfter (localMidnight w cutoffDay) w c = keptOn cutoffDay w c.
Proof.
  unfold onOrAfter, keptOn, localDay, localMidnight.
  destruct (localDateFromDateKey (LocalTZA w) (dateKey c)) as [tv | ] eqn:E;
    [ | reflexivity].
  cbn [fmap option_fmap option_map Date.ge].
  apply localDateFromDateKey_midnight in E.
  set (d := Day (LocalTime (LocalTZA w) tv)) in *. clearbody d. subst tv.
  unfold UTC, msPerDay.
  destruct (Z.leb_spec cutoffDay d); [apply Z.leb_le | apply Z.leb_gt]; lia.
Qed.

Lemma filter_ext_bool {A} (f g : A -> bool) (l : list A) :
  (forall x, f x = g x) -> List.filter f l = List.filter g l.
Proof.
  intros H. induction l as [ | x r IH]; cbn; [reflexivity | ].
  now rewrite H, IH.
Qed.

Lemma filter_complement_length {A} (f : A -> bool) (l : list A) :
  (length (List.filter f l)
   + length (List.filter (fun x => negb (f x)) l) = length l)%nat.
Proof.
  induction l as [ | x r IH]; cbn; [reflexivity | ].
  destruct (f x); cbn; lia.
Qed.

(** A check-in whose key is the key of a day is kept from that day's
    cutoff on. *)
Lemma localDay_dateKeyOfDay (w : World) (day : Z) (c : DailyCheckin) :
  deviceOk w -> plainDay day -> dateKey c = dateKeyOfDay day ->
  localDay w c = Some day.
Proof.
  intros (_ & _ & Htz) Hday Hkey. unfold localDay. rewrite Hkey.
  rewrite localDateFromDateKey_dateKeyOfDay by assumption.
  cbn [fmap option_fmap option_map].
  now rewrite LocalTime_UTC, Day_midnight.
Qed.

Lemma keptOn_dateKeyOfDay (cutoffDay : Z) (w : World) (day : Z)
    (c : DailyCheckin) :
  deviceOk w -> plainDay day -> dateKey c = dateKeyOfDay day ->
  keptOn cutoffDay w c = (cutoffDay <=? day).
Proof.
  intros Hok Hday Hkey. unfold keptOn.
  now rewrite (localDay_dateKeyOfDay w day c).
Qed.

Lemma filter_nil_length {A} (f : A -> bool) (l : list A) :
  List.filter (fun x => negb (f x)) l = [] <->
  length (List.filter f l) = length l.
Proof.
  pose proof (filter_complement_length f l) as H.
  destruct (List.filter (fun x => negb (f x)) l) eqn:E; cbn in H.
  - split; [lia | reflexivity].
  - split; [discriminate | lia].
Qed.

(** A purge whose cutoff is the start of a local day: what it returns,
    that it writes only when it removes, and what it leaves. *)
Lemma purge_at_cutoffDay (days : option Js.number) (w : World)
    (cutoffDay : Z) :
  purgeCutoff days w = localMidnight w cutoffDay ->
  let old :=
    List.filter (fun c => negb (keptOn cutoffDay w c)) (checkins w) in
  let kept := List.filter (keptOn cutoffDay w) (checkins w) in
  result (purgeCheckinsOlderThan days) w = Normal (Z.of_nat (length old))
  /\ (old = [] -> after (purgeCheckinsOlderThan days) w = w)
  /\ (old <> [] ->
      checkins (after (purgeCheckinsOlderThan days) w)
      = filter finiteCheckin kept)
  /\ (Forall finiteCheckin (checkins w) ->
      checkins (after (purgeCheckinsOlderThan days) w) = kept)
  /\ sublist (checkins (after (purgeCheckinsOlderThan days) w)) kept.
Proof.
  intros Hcut old kept.
  assert (List.filter (onOrAfter (purgeCutoff days w) w) (checkins w)
          = kept) as Hkept.
  { apply filter_ext_bool. intros c. rewrite Hcut.
    apply onOrAfter_localMidnight. }
  pose proof (filter_complement_length (keptOn cutoffDay w) (checkins w))
    as Hlen. fold old in Hlen. fold kept in Hlen.
  pose proof (filter_nil_length (keptOn cutoffDay w) (checkins w)) as Hnil.
  fold old in Hnil. fold kept in Hnil.
  split; [ | split; [ | split; [ | split]]].
  - unfold result. rewrite purgeCheckinsOlderThan_eq. cbn zeta.
    rewrite Hkept.
    destruct (Nat.eqb_spec (length kept) (length (checkins w))) as [E | E];
      cbn [fst]; f_equal; lia.
  - intros Hold. unfold after. rewrite purgeCheckinsOlderThan_eq.
    cbn zeta. rewrite Hkept. apply Hnil in Hold.
    rewrite Hold, Nat.eqb_refl. reflexivity.
  - intros Hold. rewrite checkins_after_purge_any. cbn zeta. rewrite Hkept.
    destruct (Nat.eqb_spec (length kept) (length (checkins w))) as [E | E];
      [ | reflexivity].
    now apply Hnil in E.
  - intros Hfin. now rewrite checkins_after_purge, Hkept.
  - rewrite <- Hkept. apply checkins_after_purge_sublist.
Qed.

(** Without a valid cutoff no date is on or after it: everything is
    removed. *)
Lemma purge_no_cutoff (days : option Js.number) (w : World) :
  purgeCutoff days w = None ->
  checkins (after (purgeCheckinsOlderThan days) w) = []
  /\ result (purgeCheckinsOlderThan days) w
     = Normal (Z.of_nat (length (checkins w))).
Proof.
  intros Hcut.
  assert (List.filter (onOrAfter (purgeCutoff days w) w) (checkins w) = [])
    as Hnone.
  { rewrite Hcut. induction (checkins w) as [ | c r IH]; [reflexivity | ].
    cbn [List.filter]. unfold onOrAfter at 1.
    now destruct (localDateFromDateKey _ _). }
  split.
  - pose proof (checkins_after_purge_sublist days w) as Hsub.
    rewrite Hnone in Hsub. now apply sublist_nil_r in Hsub.
  - unfold result. rewrite purgeCheckinsOlderThan_eq. cbn zeta.
    rewrite Hnone. cbn [length].
    destruct (checkins w); cbn; [reflexivity | f_equal; lia].
Qed.
End PurgeCutoff.

Section PurgeTwice.
Import CheckinStorage.

Lemma keptOn_same_zone (cutoffDay : Z) (w w' : World) (c : DailyCheckin) :
  LocalTZA w' = LocalTZA w -> keptOn cutoffDay w' c = keptOn cutoffDay w c.
Proof. unfold keptOn, localDay. now intros ->. Qed.


Lemma LocalTZA_after_purge (days : option Js.number) (w : World) :
  LocalTZA (after (purgeCheckinsOlderThan days) w) = LocalTZA w.
Proof.
  unfold after. rewrite purgeCheckinsOlderThan_eq. cbn zeta.
  destruct (_ =? _)%nat; reflexivity.
Qed.

Lemma clock_after_purge (days : option Js.number) (w : World) :
  clock (after (purgeCheckinsOlderThan days) w) = clock w.
Proof.
  unfold after. rewrite purgeCheckinsOlderThan_eq. cbn zeta.
  destruct (_ =? _)%nat; reflexivity.
Qed.


(** Which check-ins a purge with a valid cutoff removes and keeps, by the
    calendar day of their key. *)
Lemma purge_members (days : option Js.number) (w : World) (cutoffDay : Z)
    (c : DailyCheckin) (day : Z) :
  deviceOk w -> purgeCutoff days w = localMidnight w cutoffDay ->
  c ∈ checkins w -> plainDay day -> dateKey c = dateKeyOfDay day ->
  (day < cutoffDay -> c ∉ checkins (after (purgeCheckinsOlderThan days) w))
  /\ (cutoffDay <= day -> finiteCheckin c ->
      c ∈ checkins (after (purgeCheckinsOlderThan days) w)).
Proof.
  intros Hok Hcut Hc Hday Hkey.
  pose proof (purge_at_cutoffDay _ w cutoffDay Hcut)
    as (_ & Hsame & Hlost & _ & Hsub).
  pose proof (keptOn_dateKeyOfDay cutoffDay w day c Hok Hday Hkey) as Hk.
  split.
  - intros Hlt Hin. apply (fun H => elem_of_sublist _ _ _ H Hsub) in Hin.
    apply list_elem_of_In, filter_In in Hin as [_ Hkept].
    rewrite Hk in Hkept. apply Z.leb_le in Hkept. lia.
  - intros Hle Hfin.
    assert (c ∈ List.filter (keptOn cutoffDay w) (checkins w)) as Hin.
    { apply list_elem_of_In, filter_In. split.
      - now apply list_elem_of_In.
      - rewrite Hk. now apply Z.leb_le. }
    destruct (List.filter (fun c => negb (keptOn cutoffDay w c))
                (checkins w)) as [ | x r] eqn:Hold.
    + now rewrite (Hsame eq_refl).
    + rewrite Hlost by discriminate.
      apply list_elem_of_filter. now split.
Qed.
End PurgeTwice.


(** C10, as the code has it, on a device whose local time is in 1970 or
    later, within the range of [Date], and whose zone is within a day of
    UTC. Any number of days that
    is at most 1 (0, negative numbers, fractions, -Infinity) is raised to
    1: the cutoff is the start of today in local time. The purge removes
    every check-in whose key is the key [YYYY-MM-DD] of a day before
    today, and keeps the check-ins of today (and of later days) whose
    numbers are finite. When it removes nothing it leaves the world as it
    is; when it removes something, a check-in of today with a number that
    is not finite is written with [null] and is not read again. Whatever the number of days, the cutoff is never after
    the present time. *)
Theorem purge_days_clamped_to_one (days : Js.number) (w : World) :
  deviceOk w -> Js.le days (Js.int 1) = true ->
  let purge := CheckinStorage.purgeCheckinsOlderThan (Some days) in
  purgeCutoff (Some days) w = localMidnight w (today w)
  /\ (forall c day,
        c ∈ checkins w -> plainDay day ->
        CheckinStorage.dateKey c = dateKeyOfDay day ->
        (day < today w -> c ∉ checkins (after purge w))
        /\ (today w <= day -> finiteCheckin c ->
            c ∈ checkins (after purge w)))
  /\ (Forall finiteCheckin (checkins w) ->
      checkins (after purge w)
      = List.filter (keptOn (today w) w) (checkins w))
  /\ (List.filter (fun c => negb (keptOn (today w) w c)) (checkins w) = [] ->
      after purge w = w)
  /\ (List.filter (fun c => negb (keptOn (today w) w c)) (checkins w) <> [] ->
      checkins (after purge w)
      = filter finiteCheckin
          (List.filter (keptOn (today w) w) (checkins w)))
  /\ sublist (checkins (after purge w))
             (List.filter (keptOn (today w) w) (checkins w))
  /\ (forall anyDays tv, purgeCutoff anyDays w = Some tv -> tv <= clock w).
Proof.
  intros Hok Hdays purge.
  pose proof (purgeCutoff_le_1 days w Hok Hdays) as Hcut.
  pose proof (purge_at_cutoffDay _ w (today w) Hcut)
    as (_ & Hsame & Hlost & Hleft & Hsub).
  fold purge in Hsame, Hlost, Hleft, Hsub.
  split; [exact Hcut | ].
  split; [ | split; [exact Hleft | split; [exact Hsame | split;
    [exact Hlost | split]]]].
  - intros c day Hc Hday Hkey.
    now apply (purge_members _ w (today w) c day).
  - exact Hsub.
  - intros anyDays tv. now apply purgeCutoff_not_future.
Qed.

(** ** Parsing date keys *)

Lemma firstOfMonthRoundTrips_all (i : Z) :
  0 <= i < 4800 -> firstOfMonthRoundTrips i = true.
Proof.
  intros H. apply (holdsFrom_spec (Z.to_nat 4800) 0); [ | lia].
  vm_compute. reflexivity.
Qed.

Section DateKeys.
Import Date CheckinStorage.

Lemma civil_era_shift (n k : Z) :
  civil (n + k * 146097)
  = {| year := year (civil n) + 400 * k;
       month := month (civil n);
       date := date (civil n) |}.
Proof.
  unfold civil. cbn [year month date].
  replace (n + k * 146097 + 719468) with (n + 719468 + k * 146097) by lia.
  rewrite Z.div_add by lia.
  replace (n + 719468 + k * 146097 - ((n + 719468) / 146097 + k) * 146097)
    with (n + 719468 - (n + 719468) / 146097 * 146097) by lia.
  f_equal. lia.
Qed.

Lemma DayFromYearMonth_era_shift (y m k : Z) :
  DayFromYearMonth (y + 400 * k) m = DayFromYearMonth y m + k * 146097.
Proof.
  unfold DayFromYearMonth.
  destruct (m <=? 1).
  - replace (y + 400 * k - 1) with (y - 1 + k * 400) by lia.
    rewrite Z.div_add by lia.
    replace (y - 1 + k * 400 - ((y - 1) / 400 + k) * 400)
      with (y - 1 - (y - 1) / 400 * 400) by lia.
    lia.
  - replace (y + 400 * k) with (y + k * 400) by lia.
    rewrite Z.div_add by lia.
    replace (y + k * 400 - (y / 400 + k) * 400)
      with (y - y / 400 * 400) by lia.
    lia.
Qed.

Lemma firstOfMonthRoundTrips_spec (i : Z) :
  firstOfMonthRoundTrips i = true ->
  civil (DayFromYearMonth (i / 12) (i mod 12))
  = {| year := i / 12; month := i mod 12; date := 1 |}.
Proof.
  unfold firstOfMonthRoundTrips.
  generalize (i / 12), (i mod 12). intros y m.
  destruct (civil (DayFromYearMonth y m)) as [cy cm cd].
  cbn [year month date]. intros H.
  apply andb_prop in H as [H Hd]. apply andb_prop in H as [Hyr Hmo].
  apply Z.eqb_eq in Hyr, Hmo, Hd. now subst.
Qed.

Lemma civil_first_of_month_in_era (y0 k m : Z) :
  0 <= y0 < 400 -> 0 <= m <= 11 ->
  civil (DayFromYearMonth (y0 + 400 * k) m)
  = {| year := y0 + 400 * k; month := m; date := 1 |}.
Proof.
  intros Hy0 Hm.
  rewrite DayFromYearMonth_era_shift, civil_era_shift.
  assert ((y0 * 12 + m) / 12 = y0) as Hq
    by (symmetry; apply Z.div_unique with m; lia).
  assert ((y0 * 12 + m) mod 12 = m) as Hr
    by (symmetry; apply Z.mod_unique with y0; lia).
  pose proof (firstOfMonthRoundTrips_spec (y0 * 12 + m)
                (firstOfMonthRoundTrips_all (y0 * 12 + m) ltac:(lia))) as H.
  rewrite Hq, Hr in H. rewrite H. reflexivity.
Qed.

(** The first day of a month has that month and the date 1. *)
Lemma civil_first_of_month (y m : Z) :
  0 <= m <= 11 ->
  civil (DayFromYearMonth y m) = {| year := y; month := m; date := 1 |}.
Proof.
  intros Hm.
  pose proof (Z.mod_pos_bound y 400 ltac:(lia)) as Hy0.
  pose proof (Z.div_mod y 400 ltac:(lia)) as Hy.
  pose proof (civil_first_of_month_in_era (y mod 400) (y / 400) m Hy0 Hm)
    as H.
  replace (y mod 400 + 400 * (y / 400)) with y in H by lia.
  exact H.
Qed.

Lemma DayFromYearMonth_bounds (y m : Z) :
  100 <= y <= 200000 -> 0 <= m <= 11 ->
  -719468 <= DayFromYearMonth y m <= 80000000.
Proof.
  intros Hy Hm. unfold DayFromYearMonth.
  set (y' := if m <=? 1 then y - 1 else y).
  assert (99 <= y' <= 200000) as Hy' by (unfold y'; destruct (m <=? 1); lia).
  clearbody y'.
  set (mp := if 1 <? m then m - 2 else m + 10).
  assert (0 <= mp <= 11) as Hmp
    by (unfold mp; destruct (Z.ltb_spec 1 m); lia).
  clearbody mp.
  pose proof (Z.mod_pos_bound y' 400 ltac:(lia)) as Hyoe.
  rewrite Z.mod_eq in Hyoe by lia.
  replace (y' / 400 * 400) with (400 * (y' / 400)) by lia.
  set (era := y' / 400) in *.
  assert (0 <= era <= 500) as Hera.
  { unfold era. split.
    - apply Z.div_pos; lia.
    - apply Z.div_le_upper_bound; lia. }
  clearbody era.
  set (yoe := y' - 400 * era) in *. clearbody yoe.
  assert (0 <= yoe / 4 < 100) by (split;
    [apply Z.div_pos; lia | apply Z.div_lt_upper_bound; lia]).
  assert (0 <= yoe / 100 < 4) by (split;
    [apply Z.div_pos; lia | apply Z.div_lt_upper_bound; lia]).
  assert (yoe / 100 <= yoe) by (apply Z.div_le_upper_bound; lia).
  assert (0 <= (153 * mp + 2) / 5 < 338) by (split;
    [apply Z.div_pos; lia | apply Z.div_lt_upper_bound; lia]).
  lia.
Qed.

(** [new Date(Y, M - 1, 1)] for a year from 100 on and a month from 1
    to 12: the first of that month, without any carry. *)
Lemma make_first_of_month (tza Y M : Z) (m : Js.number) :
  - msPerDay <= tza <= msPerDay ->
  100 <= Y <= 200000 -> 1 <= M <= 12 ->
  m = Js.int M ->
  let d := make tza (Js.int Y) (Js.sub m (Js.int 1)) (Js.int 1) in
  getFullYear tza d = Some Y
  /\ getMonth tza d = Some (M - 1)
  /\ getDate tza d = Some 1.
Proof.
  intros Htz HY HM -> d.
  assert (d = Some (UTC tza (DayFromYearMonth Y (M - 1) * msPerDay)))
    as ->.
  { unfold d, make. rewrite MakeFullYear_int by lia.
    unfold Js.sub, Js.int, MakeDay.
    rewrite !Qtrunc_inject_Z.
    rewrite (Qtrunc_comp _ (inject_Z (M - 1)))
      by (unfold Qeq, Qminus, Qplus, Qopp, inject_Z; cbn; lia).
    rewrite Qtrunc_inject_Z.
    rewrite Z.div_small, Z.mod_small by lia.
    pose proof (DayFromYearMonth_bounds Y (M - 1) HY ltac:(lia)) as Hb.
    rewrite Z.add_0_r. unfold MakeDate, TimeClip, UTC.
    cbn [fmap option_fmap option_map].
    replace (DayFromYearMonth Y (M - 1) + 1 - 1)
      with (DayFromYearMonth Y (M - 1)) by lia.
    rewrite Z.add_0_r.
    unfold maxTime, msPerDay in *.
    destruct (Z.leb_spec
                (Z.abs (DayFromYearMonth Y (M - 1) * 86400000 - tza))
                8640000000000000); [reflexivity | lia]. }
  unfold getFullYear, getMonth, getDate, YearFromTime, MonthFromTime,
    DateFromTime.
  cbn [fmap option_fmap option_map].
  rewrite LocalTime_UTC, Day_midnight.
  rewrite civil_first_of_month by lia. now cbn.
Qed.

(** A segment that is no number makes the date invalid. *)
Lemma make_NaN (tza : Z) (y m d : Js.number) :
  y = Js.NaN \/ m = Js.NaN \/ d = Js.NaN ->
  make tza y (Js.sub m (Js.int 1)) d = None.
Proof.
  unfold make, MakeDay.
  intros [-> | [-> | ->]]; cbn; [reflexivity | | ].
  - destruct (MakeFullYear y); reflexivity.
  - destruct (MakeFullYear y); [ | reflexivity..].
    destruct (Js.sub m (Js.int 1)); reflexivity.
Qed.

(** [new Date(Y, M - 1, D)] for whole numbers: a year from 0 to 99 means
    1900 to 1999, a month outside 1 to 12 carries into the year, and the
    day counts from the first of the month. *)
Lemma make_int (tza Y M D : Z) :
  let year := if (0 <=? Y) && (Y <=? 99) then 1900 + Y else Y in
  make tza (Js.int Y) (Js.sub (Js.int M) (Js.int 1)) (Js.int D)
  = TimeClip
      (Some (UTC tza ((DayFromYearMonth (year + (M - 1) / 12)
                                         ((M - 1) mod 12) + D - 1)
                      * msPerDay))).
Proof.
  intros yr. unfold make.
  assert (MakeFullYear (Js.int Y) = Js.int yr) as ->.
  { unfold MakeFullYear, Js.int, yr. rewrite Qtrunc_inject_Z.
    now destruct ((0 <=? Y) && (Y <=? 99)). }
  unfold Js.sub, Js.int, MakeDay, MakeDate. rewrite !Qtrunc_inject_Z.
  rewrite (Qtrunc_comp _ (inject_Z (M - 1)))
    by (unfold Qeq, Qminus, Qplus, Qopp, inject_Z; cbn; lia).
  rewrite Qtrunc_inject_Z. cbn [fmap option_fmap option_map].
  now rewrite Z.add_0_r.
Qed.

Lemma getters_midnight (tza day : Z) :
  getFullYear tza (Some (UTC tza (day * msPerDay))) = Some (year (civil day))
  /\ getMonth tza (Some (UTC tza (day * msPerDay)))
     = Some (month (civil day))
  /\ getDate tza (Some (UTC tza (day * msPerDay))) = Some (date (civil day)).
Proof.
  unfold getFullYear, getMonth, getDate, YearFromTime, MonthFromTime,
    DateFromTime.
  cbn [fmap option_fmap option_map].
  now rewrite LocalTime_UTC, Day_midnight.
Qed.
End DateKeys.

(** C6, as the code has it. The parser splits the key on ['-'], turns the
    segments into numbers and hands the year, the month minus 1 and the
    day to the [Date] constructor; a month or day segment that is missing
    counts as 1. So the key [YYYY-MM-DD] of a calendar day (from the year
    100 on) parses to the start of that day in local time, a key that is
    only a year to 1 January of that year, and a key of a year and a
    month (1 to 12) to the first day of that month. Segments that are
    present are not defaulted: one that is no number makes the date
    invalid, and whole numbers go to the constructor as they are, so that
    a year from 0 to 99 means 1900 to 1999, a month outside 1 to 12 is
    carried into the year and the day counts from the first of the month
    whatever its size. *)
Theorem localDateFromDateKey_defaults (tza : Z) (key : string) :
  - Date.msPerDay <= tza <= Date.msPerDay ->
  let d := CheckinStorage.localDateFromDateKey tza key in
  (forall day,
     plainDay day -> key = dateKeyOfDay day ->
     d = Some (Date.UTC tza (day * Date.msPerDay))
     /\ Date.getFullYear tza d = Some (Date.year (Date.civil day))
     /\ Date.getMonth tza d = Some (Date.month (Date.civil day))
     /\ Date.getDate tza d = Some (Date.date (Date.civil day)))
  /\ (forall sY Y,
        Str.split "-" key = [sY] -> Str.Number sY = Js.int Y ->
        100 <= Y <= 200000 ->
        Date.getFullYear tza d = Some Y
        /\ Date.getMonth tza d = Some 0
        /\ Date.getDate tza d = Some 1)
  /\ (forall sY sM Y M,
        Str.split "-" key = [sY; sM] ->
        Str.Number sY = Js.int Y -> Str.Number sM = Js.int M ->
        100 <= Y <= 200000 -> 1 <= M <= 12 ->
        Date.getFullYear tza d = Some Y
        /\ Date.getMonth tza d = Some (M - 1)
        /\ Date.getDate tza d = Some 1)
  /\ (forall i seg,
        (i < 3)%nat -> Str.split "-" key !! i = Some seg ->
        Str.Number seg = Js.NaN ->
        d = None)
  /\ (forall Y M D,
        let segments := Str.split "-" key in
        Str.Number <$> segments !! 0%nat = Some (Js.int Y) ->
        default (Js.int 1) (Str.Number <$> segments !! 1%nat) = Js.int M ->
        default (Js.int 1) (Str.Number <$> segments !! 2%nat) = Js.int D ->
        let year := if (0 <=? Y) && (Y <=? 99) then 1900 + Y else Y in
        d = Date.TimeClip
              (Some (Date.UTC tza
                       ((Date.DayFromYearMonth (year + (M - 1) / 12)
                                               ((M - 1) mod 12) + D - 1)
                        * Date.msPerDay)))).
Proof.
  intros Htz d. unfold d, CheckinStorage.localDateFromDateKey.
  split; [ | split; [ | split; [ | split]]].
  - intros day Hday ->.
    pose proof (localDateFromDateKey_dateKeyOfDay tza day Htz Hday) as E.
    unfold CheckinStorage.localDateFromDateKey in E. rewrite E.
    split; [reflexivity | apply getters_midnight].
  - intros sY Y -> HsY HY. cbn. rewrite HsY.
    apply (make_first_of_month tza Y 1 (Js.int 1)); auto; lia.
  - intros sY sM Y M -> HsY HsM HY HM. cbn. rewrite HsY, HsM.
    now apply (make_first_of_month tza Y M (Js.int M)).
  - intros i seg Hi Hseg Hnan.
    apply make_NaN.
    assert (map Str.Number (Str.split "-" key) !! i = Some Js.NaN) as Hp.
    { change (map Str.Number (Str.split "-" key))
        with (Str.Number <$> Str.split "-" key).
      now rewrite list_lookup_fmap, Hseg; cbn; rewrite Hnan. }
    destruct i as [ | [ | [ | i]]]; [ | | | lia].
    + left. now rewrite Hp.
    + right; left. now rewrite Hp.
    + right; right. now rewrite Hp.
  - intros Y M D HY HM HD.
    change (map Str.Number (Str.split "-" key))
      with (Str.Number <$> Str.split "-" key).
    rewrite !list_lookup_fmap, HY, HM, HD. cbn [default].
    apply make_int.
Qed.

(** ** Reconciling the reminder schedule *)

Section Reconcile.
Import Notifications NotificationsApi ReminderStorage.

Lemma sameButSchedules_refl (w : World) : sameButSchedules w w.
Proof. now repeat split. Qed.

Lemma sameButSchedules_trans (w1 w2 w3 : World) :
  sameButSchedules w1 w2 -> sameButSchedules w2 w3 ->
  sameButSchedules w1 w3.
Proof.
  unfold sameButSchedules. intros H1 H2.
  repeat split; etransitivity; try apply H2; apply H1.
Qed.

Lemma healthy_same (w w' : World) :
  sameButSchedules w w' -> healthy w -> healthy w'.
Proof.
  intros (_ & _ & _ & _ & _ & _ & Hf & _) H c. now rewrite Hf.
Qed.

Lemma call_healthy {A} (c : Call) (m : Async A) (w : World) :
  healthy w -> call c m w = m w.
Proof. intros H. unfold call. now rewrite H. Qed.

Lemma dailyReminder_isReminderRequest (w : World) (h m : Js.number) :
  isReminderRequest (dailyReminder w h m) = true.
Proof. reflexivity. Qed.

Lemma ensureAndroidChannel_healthy (w : World) :
  healthy w ->
  exists w',
    ensureAndroidChannel w = (Normal tt, w')
    /\ scheduled (platform w') = scheduled (platform w)
    /\ issued (platform w') = issued (platform w)
    /\ sameButSchedules w w'.
Proof.
  intros Hw. unfold ensureAndroidChannel, bind, asks. cbn beta iota.
  destruct (bool_decide (OS (platform w) <> android)).
  - exists w. now repeat split.
  - unfold setNotificationChannelAsync. rewrite call_healthy by exact Hw.
    eexists. split; [reflexivity | ]. now repeat split.
Qed.

Lemma scheduleDailyReminder_healthy (h m : Js.number) (w : World) :
  healthy w ->
  exists w',
    scheduleDailyReminder h m w
    = (Normal (nextIdentifier (platform w)), w')
    /\ scheduled (platform w')
       = (scheduled (platform w) ++ [dailyReminder w h m])%list
    /\ sameButSchedules w w'.
Proof.
  intros Hw.
  destruct (ensureAndroidChannel_healthy w Hw)
    as (w1 & Hrun & Hsched & Hissued & Hsame).
  pose proof (healthy_same _ _ Hsame Hw) as Hw1.
  unfold scheduleDailyReminder, bind. rewrite Hrun.
  unfold asks. cbn beta iota.
  unfold scheduleNotificationAsync. rewrite call_healthy by exact Hw1.
  unfold bind, asks, update, ret. cbn beta iota.
  eexists. split; [ | split].
  - unfold nextIdentifier. rewrite Hissued. reflexivity.
  - cbn [platform scheduled snd]. rewrite Hsched.
    unfold dailyReminder, nextIdentifier.
    rewrite ?Hissued. destruct Hsame as (_ & _ & _ & _ & _ & -> & _).
    reflexivity.
  - eapply sameButSchedules_trans; [exact Hsame | ]. now repeat split.
Qed.

(** Cancelling the schedules of a list of requests one by one. *)
Lemma forEach_cancel (items : list NotificationRequest) (w : World) :
  healthy w ->
  exists w',
    forEach (fun req =>
               try_catch (cancelScheduledNotificationAsync (identifier req))
                         (ret tt)) items w
    = (Normal tt, w')
    /\ sameButSchedules w w'
    /\ forall r, In r (scheduled (platform w')) ->
         In r (scheduled (platform w))
         /\ forall x, In x items -> identifier r <> identifier x.
Proof.
  revert w. induction items as [ | x rest IH]; intros w Hw.
  - exists w. split; [reflexivity | ].
    split; [apply sameButSchedules_refl | ]. intros r Hr. split; [easy | ].
    intros x [].
  - cbn [forEach]. unfold bind, try_catch at 1.
    unfold cancelScheduledNotificationAsync.
    rewrite call_healthy by exact Hw. cbn [update].
    match goal with
    | |- context [forEach _ rest ?w0] => set (w1 := w0)
    end.
    assert (sameButSchedules w w1) as Hsame.
    { repeat split. }
    destruct (IH w1 (healthy_same _ _ Hsame Hw)) as (w' & Hrun & Hs & Hin).
    exists w'. split; [exact Hrun | ].
    split; [exact (sameButSchedules_trans _ _ _ Hsame Hs) | ].
    intros r Hr. destruct (Hin r Hr) as [Hr1 Hne].
    cbn in Hr1. apply filter_In in Hr1 as [Hr0 Hx].
    split; [exact Hr0 | ]. intros y [<- | Hy]; [ | now apply Hne].
    intros E. rewrite E, String.eqb_refl in Hx. discriminate.
Qed.

Lemma filter_none_In {A} (f : A -> bool) (l : list A) :
  (forall x, In x l -> f x = false) -> List.filter f l = [].
Proof.
  induction l as [ | x r IH]; intros H; cbn; [reflexivity | ].
  rewrite (H x) by now left. apply IH. intros y Hy. apply H. now right.
Qed.

Lemma cancelAllReminders_healthy (w : World) :
  healthy w ->
  exists w',
    cancelAllReminders w = (Normal (Z.of_nat (length (reminders w))), w')
    /\ reminders w' = []
    /\ sameButSchedules w w'.
Proof.
  intros Hw. unfold cancelAllReminders, try_catch at 1, bind at 1.
  unfold getAllScheduledNotificationsAsync.
  rewrite call_healthy by exact Hw. unfold asks. cbn beta iota.
  fold (reminders w).
  destruct (forEach_cancel (reminders w) w Hw) as (w' & Hrun & Hs & Hin).
  unfold bind. rewrite Hrun. cbn.
  exists w'. split; [reflexivity | ]. split; [ | exact Hs].
  apply filter_none_In. intros r Hr.
  destruct (Hin r Hr) as [Hr0 Hne].
  destruct (isReminderRequest r) eqn:E; [ | reflexivity].
  exfalso. apply (Hne r); [ | reflexivity].
  apply filter_In. now split.
Qed.

Lemma clampInt_valid (h lo hi : Z) :
  lo <= h <= hi -> clampInt (Js.int h) (Js.int lo) (Js.int hi) = Js.int h.
Proof.
  intros H. unfold Js.int at 1. rewrite clampInt_Num, Qtrunc_inject_Z.
  f_equal. lia.
Qed.

Lemma reminders_app (w w' : World) (r : NotificationRequest) :
  scheduled (platform w') = (scheduled (platform w) ++ [r])%list ->
  isReminderRequest r = true ->
  reminders w' = (reminders w ++ [r])%list.
Proof.
  intros Hs Hr. unfold reminders. rewrite Hs, List.filter_app. cbn.
  now rewrite Hr.
Qed.
End Reconcile.

Section ReconcileCases.
Import Notifications NotificationsApi ReminderStorage.

Lemma reconcile_disabled (settings : ReminderSettings) (w : World) :
  enabled settings = false ->
  reconcileReminderSchedule settings w = (Normal settings, w).
Proof. intros H. unfold reconcileReminderSchedule. now rewrite H. Qed.

Lemma reconcile_not_granted (settings : ReminderSettings) (w : World) :
  enabled settings = true -> granted (platform w) = false ->
  reconcileReminderSchedule settings w = (Normal settings, w).
Proof.
  intros He Hg. unfold reconcileReminderSchedule.
  destruct (negb (enabled settings)) eqn:Hn;
    [rewrite He in Hn; discriminate | clear Hn].
  unfold bind, hasReminderPermissions, getPermissionsAsync, asks.
  now rewrite Hg.
Qed.

(** With reminders enabled, permission granted and a working platform,
    the run depends on how many schedules carry the signature. *)
Lemma reconcile_enabled (settings : ReminderSettings) (w : World) :
  enabled settings = true -> granted (platform w) = true -> healthy w ->
  exists s1 w',
    reconcileReminderSchedule settings w = (Normal s1, w')
    /\ sameButSchedules w w'
    /\ match reminders w with
       | [] =>
           s1 = withId settings (nextIdentifier (platform w))
           /\ scheduled (platform w')
              = (scheduled (platform w)
                 ++ [dailyReminder w (hour settings)
                                   (minute settings)])%list
       | [only] => s1 = syncedId settings only /\ w' = w
       | _ =>
           exists w1,
             sameButSchedules w w1 /\ reminders w1 = []
             /\ s1 = withId settings (nextIdentifier (platform w1))
             /\ scheduled (platform w')
                = (scheduled (platform w1)
                   ++ [dailyReminder w1 (hour settings)
                                        (minute settings)])%list
       end.
Proof.
  intros He Hg Hw. unfold reconcileReminderSchedule.
  destruct (negb (enabled settings)) eqn:Hn;
    [rewrite He in Hn; discriminate | clear Hn].
  unfold bind at 1, hasReminderPermissions, getPermissionsAsync, asks.
  rewrite Hg. cbn [negb].
  unfold bind at 1, getAllScheduledNotificationsAsync.
  rewrite call_healthy by exact Hw. unfold asks. cbn beta iota.
  fold (reminders w).
  destruct (reminders w) as [ | only [ | second rest]] eqn:Hrem.
  - cbn [length Nat.eqb].
    destruct (scheduleDailyReminder_healthy (hour settings)
                (minute settings) w Hw) as (w' & Hrun & Hsched & Hsame).
    unfold bind. rewrite Hrun.
    eexists _, w'. split; [reflexivity | ]. split; [exact Hsame | ].
    split; [reflexivity | exact Hsched].
  - cbn [length Nat.eqb lookup list_lookup fmap option_fmap option_map].
    exists (syncedId settings only), w.
    split; [ | split; [apply sameButSchedules_refl | easy]].
    unfold syncedId, ret, withId.
    rewrite (bool_decide_true (Some (identifier only) <> None))
      by discriminate.
    cbn [andb].
    assert (bool_decide (Some (identifier only) <> Some "")
            = bool_decide (identifier only <> "")) as ->.
    { apply bool_decide_ext. split; intros H E; apply H; congruence. }
    destruct (_ && _); reflexivity.
  - cbn [length Nat.eqb].
    destruct (cancelAllReminders_healthy w Hw)
      as (w1 & Hcancel & Hnone & Hsame1).
    unfold bind at 1. rewrite Hcancel.
    pose proof (healthy_same _ _ Hsame1 Hw) as Hw1.
    destruct (scheduleDailyReminder_healthy (hour settings)
                (minute settings) w1 Hw1) as (w' & Hrun & Hsched & Hsame).
    unfold bind. rewrite Hrun.
    eexists _, w'. split; [reflexivity | ].
    split; [exact (sameButSchedules_trans _ _ _ Hsame1 Hsame) | ].
    exists w1. split; [exact Hsame1 | ]. split; [exact Hnone | ].
    split; [reflexivity | exact Hsched].
Qed.
End ReconcileCases.

Section ReconcileTwice.
Import Notifications NotificationsApi ReminderStorage.

Lemma dailyReminder_scheduledAt (s : ReminderSettings) (w : World) :
  scheduledAt s (dailyReminder w (hour s) (minute s)).
Proof. split; [reflexivity | ]. eexists. reflexivity. Qed.

Lemma scheduledAt_valid (s : ReminderSettings)
    (new : NotificationRequest) :
  validTime s -> scheduledAt s new ->
  exists channel, trigger new = DAILY (hour s) (minute s) channel.
Proof.
  intros (h & m & Hh & Hhr & Hm & Hmr) (_ & channel & Ht).
  exists channel. rewrite Ht, Hh, Hm.
  now rewrite !clampInt_valid by lia.
Qed.

Lemma withId_same (s : ReminderSettings) (id : string) :
  notificationId s = Some id -> withId s id = s.
Proof. destruct s. cbn. now intros ->. Qed.

Lemma syncedId_idem (s : ReminderSettings) (only : NotificationRequest) :
  syncedId (syncedId s only) only = syncedId s only.
Proof.
  unfold syncedId.
  destruct (bool_decide (identifier only <> "")) eqn:Hne; cbn [andb];
    [ | reflexivity].
  destruct (bool_decide (Some (identifier only) <> notificationId s))
    eqn:Hid.
  - cbn [withId notificationId].
    rewrite bool_decide_false; [reflexivity | ]. intros H. now apply H.
  - now rewrite Hid.
Qed.

Lemma syncedId_withId (s : ReminderSettings) (new : NotificationRequest) :
  identifier new <> "" ->
  syncedId s new = withId s (identifier new).
Proof.
  intros Hne. unfold syncedId. rewrite bool_decide_true by exact Hne.
  cbn [andb]. case_bool_decide as Hid; [reflexivity | ].
  symmetry. apply withId_same.
  destruct (decide (Some (identifier new) = notificationId s)) as [E | E];
    [now symmetry | now exfalso].
Qed.

Lemma nextIdentifier_nonempty (p : Platform) : nextIdentifier p <> "".
Proof. unfold nextIdentifier. cbn. discriminate. Qed.

(** After a run with reminders enabled and permission granted there is
    one schedule of the app, and the stored id is in line with it. *)
Lemma reconcile_single (settings : ReminderSettings) (w : World) :
  enabled settings = true -> granted (platform w) = true -> healthy w ->
  exists s1 w' only,
    reconcileReminderSchedule settings w = (Normal s1, w')
    /\ sameButSchedules w w'
    /\ reminders w' = [only]
    /\ s1 = syncedId settings only.
Proof.
  intros He Hg Hw.
  destruct (reconcile_enabled settings w He Hg Hw)
    as (s1 & w' & Hrun & Hsame & Hcase).
  destruct (reminders w) as [ | only [ | second rest]] eqn:Hrem.
  - destruct Hcase as [-> Hsched].
    exists (withId settings (nextIdentifier (platform w))), w',
      (dailyReminder w (hour settings) (minute settings)).
    split; [exact Hrun | ]. split; [exact Hsame | ]. split.
    + rewrite (reminders_app w w' _ Hsched) by reflexivity.
      now rewrite Hrem.
    + symmetry. apply syncedId_withId, nextIdentifier_nonempty.
  - destruct Hcase as [-> ->].
    exists (syncedId settings only), w, only.
    now repeat split.
  - destruct Hcase as (w1 & Hsame1 & Hnone & -> & Hsched).
    exists (withId settings (nextIdentifier (platform w1))), w',
      (dailyReminder w1 (hour settings) (minute settings)).
    split; [exact Hrun | ]. split; [exact Hsame | ]. split.
    + rewrite (reminders_app w1 w' _ Hsched) by reflexivity.
      now rewrite Hnone.
    + symmetry. apply syncedId_withId, nextIdentifier_nonempty.
Qed.

Lemma reconcile_one (settings : ReminderSettings) (w : World)
    (only : NotificationRequest) :
  enabled settings = true -> granted (platform w) = true -> healthy w ->
  reminders w = [only] ->
  reconcileReminderSchedule settings w
  = (Normal (syncedId settings only), w).
Proof.
  intros He Hg Hw Hrem.
  destruct (reconcile_enabled settings w He Hg Hw)
    as (s1 & w' & Hrun & _ & Hcase).
  rewrite Hrem in Hcase. destruct Hcase as [-> ->]. exact Hrun.
Qed.

Lemma enabled_syncedId (s : ReminderSettings) (only : NotificationRequest) :
  enabled (syncedId s only) = enabled s.
Proof. unfold syncedId. now destruct (_ && _). Qed.
End ReconcileTwice.

(** C4, as the code has it. [reconcileReminderSchedule] by cases.
    Disabled settings, or permission not granted: the settings come back
    unchanged and the world is untouched. Otherwise, on a platform whose
    calls succeed: with no schedule of the app, one daily schedule is added
    and the settings come back with its id; with exactly one, the settings
    come back with the identifier of that schedule when it is not empty
    and differs from the stored id, and unchanged when it does not, and
    the world is untouched; with two or more, all are cancelled, one fresh
    schedule is created and the settings come back with its id. A new
    schedule is at the hour and minute of the settings truncated to whole
    numbers and clamped to 0..23 and 0..59, which are the hour and minute
    themselves when these are whole numbers in that range. *)
Theorem reconcile_by_cases
    (settings : ReminderStorage.ReminderSettings) (w : World) :
  let run := ReminderStorage.reconcileReminderSchedule settings in
  (ReminderStorage.enabled settings = false -> run w = (Normal settings, w))
  /\ (Notifications.granted (platform w) = false ->
      run w = (Normal settings, w))
  /\ (ReminderStorage.enabled settings = true ->
      Notifications.granted (platform w) = true -> healthy w ->
      match reminders w with
      | [] =>
          exists new,
            result run w = Normal (withId settings
                                     (Notifications.identifier new))
            /\ Notifications.scheduled (platform (after run w))
               = (Notifications.scheduled (platform w) ++ [new])%list
            /\ scheduledAt settings new
            /\ (validTime settings ->
                exists channel,
                  Notifications.trigger new
                  = Notifications.DAILY (ReminderStorage.hour settings)
                      (ReminderStorage.minute settings) channel)
      | [only] =>
          run w
          = (Normal
               (if bool_decide
                     (Notifications.identifier only <> ""
                      /\ ReminderStorage.notificationId settings
                         <> Some (Notifications.identifier only))
                then withId settings (Notifications.identifier only)
                else settings),
             w)
      | _ =>
          exists new,
            result run w = Normal (withId settings
                                     (Notifications.identifier new))
            /\ reminders (after run w) = [new]
            /\ scheduledAt settings new
            /\ (validTime settings ->
                exists channel,
                  Notifications.trigger new
                  = Notifications.DAILY (ReminderStorage.hour settings)
                      (ReminderStorage.minute settings) channel)
      end).
Proof.
  cbn zeta. split; [apply reconcile_disabled | ]. split.
  - intros Hg. destruct (ReminderStorage.enabled settings) eqn:He.
    + now apply reconcile_not_granted.
    + now apply reconcile_disabled.
  - intros He Hg Hw.
    destruct (reconcile_enabled settings w He Hg Hw)
      as (s1 & w' & Hrun & Hsame & Hcase).
    unfold result, after. rewrite Hrun. cbn [fst snd].
    destruct (reminders w) as [ | only [ | second rest]] eqn:Hrem.
    + destruct Hcase as [-> Hsched].
      exists (dailyReminder w (ReminderStorage.hour settings)
                (ReminderStorage.minute settings)).
      split; [reflexivity | ]. split; [exact Hsched | ].
      split; [apply dailyReminder_scheduledAt | ].
      intros Hv. eapply scheduledAt_valid; [exact Hv | ].
      apply dailyReminder_scheduledAt.
    + destruct Hcase as [-> ->]. f_equal. f_equal.
      unfold syncedId.
      repeat case_bool_decide; cbn [andb]; try reflexivity;
        exfalso; intuition congruence.
    + destruct Hcase as (w1 & Hsame1 & Hnone & -> & Hsched).
      exists (dailyReminder w1 (ReminderStorage.hour settings)
                (ReminderStorage.minute settings)).
      split; [reflexivity | ]. split.
      * rewrite (reminders_app w1 w' _ Hsched) by reflexivity.
        now rewrite Hnone.
      * split; [apply dailyReminder_scheduledAt | ].
        intros Hv. eapply scheduledAt_valid; [exact Hv | ].
        apply dailyReminder_scheduledAt.
Qed.

(** C5, as the code has it. With reminders enabled and permission
    granted, on a platform whose calls succeed, a run leaves exactly one
    schedule of the app, whatever their number was before, two duplicates
    included; a second run right after, on the settings that the first
    returned or on the original ones, returns the same settings as the
    first and leaves the world untouched. With reminders disabled or
    permission missing, a run returns its settings and leaves the
    schedules as they are, however many there are. *)
Theorem reconcile_idempotent_single_schedule
    (settings : ReminderStorage.ReminderSettings) (w : World) :
  let run := ReminderStorage.reconcileReminderSchedule in
  (healthy w ->
   ReminderStorage.enabled settings = true ->
   Notifications.granted (platform w) = true ->
   exists s1,
     result (run settings) w = Normal s1
     /\ length (reminders (after (run settings) w)) = 1%nat
     /\ run s1 (after (run settings) w)
        = (Normal s1, after (run settings) w)
     /\ run settings (after (run settings) w)
        = (Normal s1, after (run settings) w))
  /\ (ReminderStorage.enabled settings = false
      \/ Notifications.granted (platform w) = false ->
      run settings w = (Normal settings, w)).
Proof.
  intros run. split.
  - intros Hw He Hg.
    destruct (reconcile_single settings w He Hg Hw)
      as (s1 & w' & only & Hrun & Hsame & Hone & ->).
    exists (syncedId settings only). unfold result, after, run.
    rewrite Hrun. cbn [fst snd].
    pose proof (healthy_same _ _ Hsame Hw) as Hw'.
    assert (Notifications.granted (platform w') = true) as Hg'.
    { destruct Hsame as (_ & _ & _ & _ & -> & _). exact Hg. }
    split; [reflexivity | ]. split; [now rewrite Hone | ]. split.
    + rewrite (reconcile_one (syncedId settings only) w' only); auto.
      * now rewrite syncedId_idem.
      * now rewrite enabled_syncedId.
    + now apply reconcile_one.
  - intros [He | Hg].
    + now apply reconcile_disabled.
    + destruct (ReminderStorage.enabled settings) eqn:He.
      * now apply reconcile_not_granted.
      * now apply reconcile_disabled.
Qed.
(** * The statements at sample inputs *)

Lemma sampleWorld_deviceOk l : deviceOk (sampleWorld l).
Proof.
  unfold deviceOk, sampleWorld, Date.maxTime, Date.msPerDay. cbn. lia.
Defined.

Lemma sampleStore_deviceOk v : deviceOk (sampleStore v).
Proof.
  unfold deviceOk, sampleStore, Date.maxTime, Date.msPerDay. cbn. lia.
Defined.

Lemma sampleValues_finite e d : finiteValues (sampleValues e d).
Proof. repeat split. Defined.

Lemma sampleScheduled_healthy l : healthy (sampleScheduled l).
Proof. intros c. reflexivity. Defined.

(** The scenario of the specification: check-ins for 2024-01-01 (energy 3)
    and 2024-01-02 (energy 7); an upsert for 2024-01-01 with energy 9. *)
Example upsert_scenario :
  let w := sampleWorld [sampleCheckin "2024-01-01" 3;
                        sampleCheckin "2024-01-02" 7] in
  let date := Date.make (LocalTZA w) (Js.int 2024) (Js.int 0) (Js.int 1) in
  let w' := after (CheckinStorage.upsertTodayCheckin
                     (sampleValues 9 (Some date))) w in
  result (CheckinStorage.loadCheckinForDate "2024-01-01") w'
  = Normal (Some {| CheckinStorage.dateKey := "2024-01-01";
                    CheckinStorage.energy := Js.int 9;
                    CheckinStorage.mood := Js.int 4;
                    CheckinStorage.focus := Js.int 8;
                    CheckinStorage.updatedAt := Js.int 1710500000000 |})
  /\ length (checkins w') = 2%nat.
Proof. vm_compute. split; reflexivity. Qed.

(** [getLocalDateKey(new Date(2024, 0, 5))] is ["2024-01-05"]. *)
Example getLocalDateKey_scenario :
  CheckinStorage.getLocalDateKey 3600000
    (Date.make 3600000 (Js.int 2024) (Js.int 0) (Js.int 5))
  = "2024-01-05".
Proof. vm_compute. reflexivity. Qed.

(** The numeral [1e400] parses to [Infinity], which is a number, so the
    element reads as a check-in; written back it is [null]. *)
Example beyondRange_reads_as_checkin :
  Json.numeral (inject_Z (10 ^ 400)) = Json.JInfinity false
  /\ readCheckin (Json.rounded (beyondRange "2024-03-15"))
     = Some {| CheckinStorage.dateKey := "2024-03-15";
               CheckinStorage.energy := Js.Infinity;
               CheckinStorage.mood := Js.int 5;
               CheckinStorage.focus := Js.int 6;
               CheckinStorage.updatedAt := Js.int 1700000000000 |}
  /\ (readCheckin (Json.rounded (beyondRange "2024-03-15"))
      ≫= fun c => readCheckin (CheckinStorage.toJSON c)) = None.
Proof. vm_compute. repeat split; reflexivity. Qed.

(** C7 at a failing input: the store holds a check-in for 2024-01-02 and an
    upsert for 2024-01-01 appends its record behind it, so the array that
    [upsertTodayCheckin] persists is not in ascending order of [dateKey]. *)
Theorem upsert_persists_unsorted :
  let w := sampleWorld [sampleCheckin "2024-01-02" 7] in
  let date := Date.make (LocalTZA w) (Js.int 2024) (Js.int 0) (Js.int 1) in
  let values := sampleValues 9 (Some date) in
  let next := upserted values w in
  CheckinStorage.dateKey next = "2024-01-01"
  /\ storage (after (CheckinStorage.upsertTodayCheckin values) w)
       !! CheckinStorage.STORAGE_KEY
     = Some (CheckinStorage.stringify [sampleCheckin "2024-01-02" 7; next])
  /\ ~ Sorted (dateKeyLe (collation w)) [sampleCheckin "2024-01-02" 7; next]
  /\ String.compare "2024-01-02" "2024-01-01" = Gt.
Proof.
  cbn zeta. split; [vm_compute; reflexivity | ].
  split; [vm_compute; reflexivity | ].
  split; [ | reflexivity].
  intros H. apply Sorted_inv in H as [_ H]. apply HdRel_inv in H.
  vm_compute in H. now apply H.
Qed.

(** The other write path sorts: what a purge persists is in ascending
    order of [dateKey]. *)
Lemma purge_persists_sorted (days : option Js.number) (w : World) :
  journal (after (CheckinStorage.purgeCheckinsOlderThan days) w) = journal w
  \/ exists l,
       journal (after (CheckinStorage.purgeCheckinsOlderThan days) w)
       = SetItem CheckinStorage.STORAGE_KEY (CheckinStorage.stringify l)
           :: journal w
       /\ StronglySorted (dateKeyLe (collation w)) l.
Proof.
  unfold after. rewrite purgeCheckinsOlderThan_eq. cbn zeta.
  destruct (_ =? _)%nat; [now left | right].
  eexists. split; [reflexivity | apply sorted_checkins].
Qed.


(** C3 as stated fails: the store holds a check-in for 15 March 2024 and
    one for 14 March whose energy is the numeral [1e400]. An upsert for
    15 March writes the latter back with [null] for its energy, so it is
    not read as a check-in again: of two records one is left. *)
Lemma upsert_loses_record_beyond_range :
  ~ (forall (values : CheckinStorage.Values) (w : World),
       finiteValues values -> onePerDay w ->
       CheckinStorage.dateKey (upserted values w)
         ∈ (CheckinStorage.dateKey <$> checkins w) ->
       length (checkins (after (CheckinStorage.upsertTodayCheckin values) w))
       = length (checkins w)).
Proof.
  intros H.
  specialize (H (sampleValues 9 None)
                (sampleStore
                   (Json.JArray
                      [CheckinStorage.toJSON (sampleCheckin "2024-03-15" 3);
                       beyondRange "2024-03-14"]))
                (sampleValues_finite _ _)).
  assert (forall a b : string, a <> b -> NoDup [a; b]) as Hnd.
  { intros a b Hab. apply NoDup_cons. split; [ | apply NoDup_singleton].
    intros Hin. apply list_elem_of_singleton in Hin. contradiction. }
  assert (onePerDay
            (sampleStore
               (Json.JArray
                  [CheckinStorage.toJSON (sampleCheckin "2024-03-15" 3);
                   beyondRange "2024-03-14"]))) as Hone.
  { unfold onePerDay. vm_compute. apply Hnd. discriminate. }
  specialize (H Hone). clear Hone Hnd.
  assert (CheckinStorage.dateKey
            (upserted (sampleValues 9 None)
               (sampleStore
                  (Json.JArray
                     [CheckinStorage.toJSON (sampleCheckin "2024-03-15" 3);
                      beyondRange "2024-03-14"])))
          = "2024-03-15") as Hkey by (vm_compute; reflexivity).
  rewrite Hkey in H.
  assert (CheckinStorage.dateKey
            <$> checkins
                  (sampleStore
                     (Json.JArray
                        [CheckinStorage.toJSON (sampleCheckin "2024-03-15" 3);
                         beyondRange "2024-03-14"]))
          = ["2024-03-14"; "2024-03-15"]) as Hkeys
    by (vm_compute; reflexivity).
  rewrite Hkeys in H.
  specialize (H (list_elem_of_further _ _ _ (list_elem_of_here _ _))).
  vm_compute in H. discriminate H.
Qed.

(** C4 as stated fails: on a platform that refuses to cancel, a run over
    two duplicates leaves both in place beside the schedule it creates. *)
Lemma reconcile_keeps_duplicates_not_cancelled :
  ~ (forall (settings : ReminderStorage.ReminderSettings) (w : World),
       ReminderStorage.enabled settings = true ->
       Notifications.granted (platform w) = true ->
       (2 <= length (reminders w))%nat ->
       exists new,
         reminders (after (ReminderStorage.reconcileReminderSchedule
                             settings) w)
         = [new]).
Proof.
  intros H.
  destruct (H (sampleSettings true (Some "a"))
              (sampleKeeping [sampleReminder "a"; sampleReminder "b"])
              eq_refl eq_refl ltac:(vm_compute; lia)) as [new Hnew].
  vm_compute in Hnew. discriminate Hnew.
Qed.

(** An hour that is no whole number from 0 to 23 is not the hour of the
    schedule: 25.7 is scheduled at 23. *)
Example reconcile_clamps_hour :
  let settings :=
    {| ReminderStorage.enabled := true;
       ReminderStorage.hour := Js.Num (257 # 10);
       ReminderStorage.minute := Js.int 30;
       ReminderStorage.notificationId := None |} in
  Notifications.trigger
    <$> reminders (after (ReminderStorage.reconcileReminderSchedule settings)
                         (sampleScheduled []))
  = [Notifications.DAILY (Js.int 23) (Js.int 30) None].
Proof. vm_compute. reflexivity. Qed.

(** C5 as stated fails: with reminders disabled a run leaves two duplicate
    schedules in place. *)
Lemma reconcile_disabled_keeps_duplicates :
  ~ (forall (settings : ReminderStorage.ReminderSettings) (w : World),
       healthy w ->
       (length (reminders
                  (after (ReminderStorage.reconcileReminderSchedule settings)
                         w)) <= 1)%nat).
Proof.
  intros H.
  specialize (H (sampleSettings false None)
                (sampleScheduled [sampleReminder "a"; sampleReminder "b"])
                (sampleScheduled_healthy _)).
  vm_compute in H. lia.
Qed.

(** C6 as stated fails: a month segment that is no number is not replaced
    by 1; the date is invalid. *)
Lemma malformed_month_is_not_defaulted :
  ~ (forall (tza : Z) (y m d : string),
       Str.Number m = Js.NaN ->
       CheckinStorage.localDateFromDateKey tza
         (y +:+ "-" +:+ m +:+ "-" +:+ d)
       = CheckinStorage.localDateFromDateKey tza (y +:+ "-1-" +:+ d)).
Proof.
  intros H. specialize (H 0 "2024" "xx" "05" eq_refl).
  vm_compute in H. discriminate H.
Qed.

(** An empty month segment counts as month 0, the December before. *)
Example empty_month_rolls_back :
  Date.getFullYear 0 (CheckinStorage.localDateFromDateKey 0 "2024--05")
  = Some 2023
  /\ Date.getMonth 0 (CheckinStorage.localDateFromDateKey 0 "2024--05")
     = Some 11.
Proof. vm_compute. split; reflexivity. Qed.

(** Segments that are numbers out of range carry over: month 13 is
    January of the next year, month 0 December of the year before, day 30
    of February the first of March, and the year 50 is 1950. *)
Example segments_out_of_range_carry :
  let parsed key :=
    let d := CheckinStorage.localDateFromDateKey 0 key in
    (Date.getFullYear 0 d, Date.getMonth 0 d, Date.getDate 0 d) in
  parsed "2024-13" = (Some 2025, Some 0, Some 1)
  /\ parsed "2024-00" = (Some 2023, Some 11, Some 1)
  /\ parsed "2024-02-30" = (Some 2024, Some 2, Some 1)
  /\ parsed "50" = (Some 1950, Some 0, Some 1).
Proof. vm_compute. repeat (split; [reflexivity | ]). reflexivity. Qed.

(** C10 as stated fails: the store holds a check-in for 14 March 2024 and
    one for today, 15 March, whose energy is the numeral [1e400]. A purge
    with [days = 1] removes the former and writes the latter back with
    [null] for its energy, so that today's record is not read again. *)
Lemma purge_loses_todays_record_beyond_range :
  ~ (forall (days : Js.number) (w : World),
       deviceOk w -> Js.le days (Js.int 1) = true ->
       checkinsOf (dateKeyOfDay (today w))
         (after (CheckinStorage.purgeCheckinsOlderThan (Some days)) w)
       = checkinsOf (dateKeyOfDay (today w)) w).
Proof.
  intros H.
  specialize (H (Js.int 1)
                (sampleStore
                   (Json.JArray
                      [CheckinStorage.toJSON (sampleCheckin "2024-03-14" 3);
                       beyondRange "2024-03-15"]))
                (sampleStore_deviceOk _) eq_refl).
  vm_compute in H. discriminate H.
Qed.
(** ** Witnesses: the theorems applied at sample inputs *)

(** Every day from 1 January 1970 on that a [Date] holds is a plain day. *)
Lemma plainDay_since_1970 (day : Z) : 0 <= day <= 99999999 -> plainDay day.
Proof.
  intros H. split; [ | lia].
  pose proof (civil_year_1600 day ltac:(lia)). lia.
Qed.


(** C2 at an upsert for today with energy 9 into an empty store. *)
Lemma upsert_then_loadCheckinForDate_witness :
  exists next,
    result (CheckinStorage.upsertTodayCheckin (sampleValues 9 None))
           (sampleWorld [])
    = Normal next
    /\ result (CheckinStorage.loadCheckinForDate
                 (CheckinStorage.dateKey next))
              (after (CheckinStorage.upsertTodayCheckin (sampleValues 9 None))
                     (sampleWorld []))
       = Normal (Some next)
    /\ CheckinStorage.energy next = Js.int 9
    /\ CheckinStorage.mood next = Js.int 4
    /\ CheckinStorage.focus next = Js.int 8
    /\ Js.le (Js.int (clock (sampleWorld [])))
             (CheckinStorage.updatedAt next) = true.
Proof.
  exact (upsert_then_loadCheckinForDate (sampleValues 9 None)
           (sampleWorld []) (sampleValues_finite _ _)).
Defined.

Lemma sampleWorld_onePerDay :
  onePerDay (sampleWorld [sampleCheckin "2024-01-01" 3;
                          sampleCheckin "2024-01-02" 7]).
Proof.
  unfold onePerDay.
  change (NoDup ["2024-01-01"; "2024-01-02"]).
  apply NoDup_cons. split; [ | apply NoDup_singleton].
  intros H. apply list_elem_of_singleton in H. discriminate H.
Defined.

(** C3 at the scenario of the specification: the store holds check-ins
    for 2024-01-01 and 2024-01-02, and 2024-01-01 is upserted with energy
    2 and, a minute later, with energy 9. *)
Lemma checkin_store_one_per_day_witness :
  let w := sampleWorld [sampleCheckin "2024-01-01" 3;
                        sampleCheckin "2024-01-02" 7] in
  let date := Date.make (LocalTZA w) (Js.int 2024) (Js.int 0) (Js.int 1) in
  let first := sampleValues 2 (Some date) in
  let second := sampleValues 9 (Some date) in
  let w1 :=
    atTime 1710500060000
      (after (CheckinStorage.upsertTodayCheckin first) w) in
  let w2 := after (CheckinStorage.upsertTodayCheckin second) w1 in
  onePerDay (after (CheckinStorage.upsertTodayCheckin second) w)
  /\ onePerDay (after (CheckinStorage.purgeCheckinsOlderThan None) w)
  /\ onePerDay (after CheckinStorage.clearAllCheckins w)
  /\ checkinsOf "2024-01-01" w2
     = [{| CheckinStorage.dateKey := "2024-01-01";
           CheckinStorage.energy := Js.int 9;
           CheckinStorage.mood := Js.int 4;
           CheckinStorage.focus := Js.int 8;
           CheckinStorage.updatedAt := Js.int 1710500060000 |}]
  /\ length (checkins w2) = length (checkins w1)
  /\ length (checkins
               (after (CheckinStorage.upsertTodayCheckin second) w))
     = length (checkins w).
Proof.
  cbn zeta.
  set (w := sampleWorld [sampleCheckin "2024-01-01" 3;
                         sampleCheckin "2024-01-02" 7]).
  set (date := Date.make (LocalTZA w) (Js.int 2024) (Js.int 0) (Js.int 1)).
  destruct (checkin_store_one_per_day w sampleWorld_onePerDay)
    as (Hupsert & Hpurge & Hclear & Htwice & Honce).
  split; [apply Hupsert | ].
  split; [apply Hpurge | ]. split; [exact Hclear | ].
  specialize (Htwice (sampleValues 2 (Some date))
                (sampleValues 9 (Some date)) 1710500060000
                (sampleValues_finite _ _) (sampleValues_finite _ _)).
  cbn zeta in Htwice.
  specialize (Htwice ltac:(vm_compute; reflexivity)).
  destruct Htwice as (_ & Hof & _ & _ & _ & Hlen).
  split; [ | split; [exact Hlen | ]].
  - assert (upserted (sampleValues 9 (Some date))
              (atTime 1710500060000
                 (after (CheckinStorage.upsertTodayCheckin
                           (sampleValues 2 (Some date))) w))
            = {| CheckinStorage.dateKey := "2024-01-01";
                 CheckinStorage.energy := Js.int 9;
                 CheckinStorage.mood := Js.int 4;
                 CheckinStorage.focus := Js.int 8;
                 CheckinStorage.updatedAt := Js.int 1710500060000 |}) as E
      by (vm_compute; reflexivity).
    rewrite E in Hof. exact Hof.
  - specialize (Honce (sampleValues 9 (Some date))
                  (sampleValues_finite _ _)).
    assert (checkins w = [sampleCheckin "2024-01-01" 3;
                          sampleCheckin "2024-01-02" 7]) as Hall
      by (vm_compute; reflexivity).
    rewrite Hall in Honce at 1 2.
    assert (CheckinStorage.dateKey (upserted (sampleValues 9 (Some date)) w)
            = "2024-01-01") as Hkey by (vm_compute; reflexivity).
    rewrite Hkey in Honce.
    destruct (Honce ltac:(repeat constructor) (list_elem_of_here _ _))
      as (_ & _ & Hsame).
    exact Hsame.
Defined.

(** C4 at two duplicate schedules: both are cancelled and one is created. *)
Lemma reconcile_by_cases_witness :
  let w := sampleScheduled [sampleReminder "a"; sampleReminder "b"] in
  let run :=
    ReminderStorage.reconcileReminderSchedule
      (sampleSettings true (Some "a")) in
  exists new,
    result run w = Normal (withId (sampleSettings true (Some "a"))
                                  (Notifications.identifier new))
    /\ reminders (after run w) = [new]
    /\ scheduledAt (sampleSettings true (Some "a")) new
    /\ (validTime (sampleSettings true (Some "a")) ->
        exists channel,
          Notifications.trigger new
          = Notifications.DAILY (Js.int 20) (Js.int 30) channel).
Proof.
  exact (proj2 (proj2 (reconcile_by_cases (sampleSettings true (Some "a"))
                         (sampleScheduled [sampleReminder "a";
                                           sampleReminder "b"])))
           eq_refl eq_refl (sampleScheduled_healthy _)).
Defined.

(** C5 at two duplicate schedules. *)
Lemma reconcile_idempotent_single_schedule_witness :
  let w := sampleScheduled [sampleReminder "a"; sampleReminder "b"] in
  let settings := sampleSettings true (Some "a") in
  let run := ReminderStorage.reconcileReminderSchedule in
  exists s1,
    result (run settings) w = Normal s1
    /\ length (reminders (after (run settings) w)) = 1%nat
    /\ run s1 (after (run settings) w) = (Normal s1, after (run settings) w)
    /\ run settings (after (run settings) w)
       = (Normal s1, after (run settings) w).
Proof.
  exact (proj1 (reconcile_idempotent_single_schedule
                  (sampleSettings true (Some "a"))
                  (sampleScheduled [sampleReminder "a"; sampleReminder "b"]))
           (sampleScheduled_healthy _) eq_refl eq_refl).
Defined.

(** C6 at the keys ["2024-03-15"], the key of day 19797, and ["2024-03"]:
    15 March and 1 March 2024. *)
Lemma localDateFromDateKey_defaults_witness :
  let full := CheckinStorage.localDateFromDateKey 3600000 "2024-03-15" in
  let d := CheckinStorage.localDateFromDateKey 3600000 "2024-03" in
  (Date.getFullYear 3600000 full = Some 2024
   /\ Date.getMonth 3600000 full = Some 2
   /\ Date.getDate 3600000 full = Some 15)
  /\ Date.getFullYear 3600000 d = Some 2024
  /\ Date.getMonth 3600000 d = Some (3 - 1)
  /\ Date.getDate 3600000 d = Some 1.
Proof.
  assert (- Date.msPerDay <= 3600000 <= Date.msPerDay) as Htz
    by (unfold Date.msPerDay; lia).
  split.
  - destruct (proj1 (localDateFromDateKey_defaults 3600000 "2024-03-15" Htz)
                19797 (plainDay_since_1970 19797 ltac:(lia))
                ltac:(vm_compute; reflexivity))
      as (_ & Hy & Hm & Hd).
    split; [exact Hy | split; [exact Hm | exact Hd]].
  - exact (proj1 (proj2 (proj2 (localDateFromDateKey_defaults 3600000
                                  "2024-03" Htz)))
             "2024" "03" 2024 3 eq_refl eq_refl eq_refl
             ltac:(lia) ltac:(lia)).
Defined.

(** C8 at a store that holds a check-in for 2024-01-02, a string and a
    check-in for 2024-01-01. *)
Lemma loadAllCheckins_validates_and_sorts_witness :
  let w :=
    sampleStore
      (Json.JArray [CheckinStorage.toJSON (sampleCheckin "2024-01-02" 7);
                    Json.JString "junk";
                    CheckinStorage.toJSON (sampleCheckin "2024-01-01" 3)]) in
  exists l,
    result CheckinStorage.loadAllCheckins w = Normal l
    /\ StronglySorted
         (fun a b => String.compare (CheckinStorage.dateKey a)
                                    (CheckinStorage.dateKey b) <> Gt) l
    /\ Permutation l [sampleCheckin "2024-01-02" 7;
                      sampleCheckin "2024-01-01" 3].
Proof.
  cbn zeta.
  destruct (loadAllCheckins_validates_and_sorts
              (sampleStore
                 (Json.JArray
                    [CheckinStorage.toJSON (sampleCheckin "2024-01-02" 7);
                     Json.JString "junk";
                     CheckinStorage.toJSON (sampleCheckin "2024-01-01" 3)])))
    as (_ & l & Hres & _ & Hunits & Hperm).
  exists l. split; [exact Hres | ]. split.
  - apply Hunits. intros a b _ _. reflexivity.
  - vm_compute in Hperm. exact Hperm.
Defined.

(** C10 at [days = 0] on 15 March 2024 (day 19797): the cutoff is the
    start of today; the check-in of 14 March is removed and the one of
    today is kept. *)
Lemma purge_days_clamped_to_one_witness :
  let w := sampleWorld [sampleCheckin "2024-03-14" 3;
                        sampleCheckin "2024-03-15" 5] in
  let purge := CheckinStorage.purgeCheckinsOlderThan (Some (Js.int 0)) in
  purgeCutoff (Some (Js.int 0)) w = localMidnight w 19797
  /\ (sampleCheckin "2024-03-14" 3 ∉ checkins (after purge w))
  /\ (sampleCheckin "2024-03-15" 5 ∈ checkins (after purge w))
  /\ checkins (after purge w) = [sampleCheckin "2024-03-15" 5].
Proof.
  cbn zeta.
  set (w := sampleWorld [sampleCheckin "2024-03-14" 3;
                         sampleCheckin "2024-03-15" 5]).
  destruct (purge_days_clamped_to_one (Js.int 0) w
              (sampleWorld_deviceOk _) eq_refl)
    as (Hcut & Hkey & Hleft & _).
  assert (checkins w = [sampleCheckin "2024-03-14" 3;
                        sampleCheckin "2024-03-15" 5]) as Hall
    by (vm_compute; reflexivity).
  assert (today w = 19797) as Htoday by (vm_compute; reflexivity).
  rewrite Htoday in Hcut, Hkey.
  split; [exact Hcut | ]. split; [ | split].
  - apply (Hkey (sampleCheckin "2024-03-14" 3) 19796).
    + rewrite Hall. apply list_elem_of_here.
    + apply plainDay_since_1970. lia.
    + vm_compute. reflexivity.
    + lia.
  - apply (Hkey (sampleCheckin "2024-03-15" 5) 19797).
    + rewrite Hall. apply list_elem_of_further, list_elem_of_here.
    + apply plainDay_since_1970. lia.
    + vm_compute. reflexivity.
    + lia.
    + repeat constructor.
  - rewrite Hleft.
    + vm_compute. reflexivity.
    + rewrite Hall. repeat constructor.
Defined.

(** * Further properties *)

(** ** Saving and loading the reminder settings *)

Section SaveLoadSettings.
Import ReminderStorage.

Lemma clampInt_of_number (x : Js.number) (lo hi dflt : Z) :
  (if bool_decide (Json.typeof (Some (Json.of_number x)) = Json.TNumber)
   then clampInt (asNumber (Some (Json.of_number x))) (Js.int lo) (Js.int hi)
   else Js.int dflt)
  = match x with
    | Js.Num q => Js.int (Z.min hi (Z.max lo (Js.Qtrunc q)))
    | _ => Js.int dflt
    end.
Proof.
  destruct x as [q | | | ]; try reflexivity.
  cbn [Json.of_number Json.typeof asNumber].
  rewrite bool_decide_true by reflexivity. apply clampInt_Num.
Qed.

Lemma loadReminderSettings_after_save (s : ReminderSettings) (w : World) :
  loadReminderSettings (after (saveReminderSettings s) w)
  = (Normal (readBack s), after (saveReminderSettings s) w).
Proof.
  unfold loadReminderSettings, bind at 1, AsyncStorage.getItem, asks.
  unfold after at 1, saveReminderSettings, AsyncStorage.setItem.
  cbn [snd storage]. rewrite lookup_insert_eq.
  unfold stringify. cbn [Json.isEmpty].
  unfold try_catch, bind, lift, ret. cbn [Json.parse Json.get].
  cbn [Json.member app String.eqb Ascii.eqb Bool.eqb].
  rewrite (clampInt_of_number (hour s) 0 23 20).
  rewrite (clampInt_of_number (minute s) 0 59 0).
  unfold readBack. f_equal. f_equal.
  destruct (notificationId s) as [id | ]; reflexivity.
Qed.

Lemma readBack_valid (s : ReminderSettings) : validTime s -> readBack s = s.
Proof.
  intros (h & m & Hh & Hhr & Hm & Hmr). destruct s as [e hr mn id].
  cbn in *. subst. unfold readBack, Js.int; cbn.
  rewrite !Qtrunc_inject_Z. f_equal; f_equal; f_equal; lia.
Qed.

Lemma validTime_readBack (s : ReminderSettings) : validTime (readBack s).
Proof.
  unfold validTime, readBack; cbn.
  destruct (hour s), (minute s);
    do 2 eexists; (split; [reflexivity | split; [lia | split;
      [reflexivity | lia]]]).
Qed.

Lemma storedSettings_eq (w : World) :
  loadReminderSettings w = (Normal (storedSettings w), w).
Proof.
  unfold storedSettings, result.
  destruct (storage w !! STORAGE_KEY) as [[raw | v] | ] eqn:Hraw.
  - unfold loadReminderSettings, bind, AsyncStorage.getItem, asks.
    rewrite Hraw. destruct raw; reflexivity.
  - destruct (loadReminderSettings_Encoded w v Hraw) as (s & -> & _).
    reflexivity.
  - unfold loadReminderSettings, bind, AsyncStorage.getItem, asks.
    now rewrite Hraw.
Qed.
End SaveLoadSettings.

(** X1. What [saveReminderSettings] writes, [loadReminderSettings] reads
    back with hour and minute truncated and clamped (20 and 0 for numbers
    that are not finite), the enabled flag and the notification id as they
    were; settings whose time is a whole hour in 0..23 and a whole minute in
    0..59 read back exactly as saved. *)
Theorem save_then_load_settings
    (s : ReminderStorage.ReminderSettings) (w : World) :
  result ReminderStorage.loadReminderSettings
         (after (ReminderStorage.saveReminderSettings s) w)
  = Normal (readBack s)
  /\ validTime (readBack s)
  /\ (validTime s ->
      result ReminderStorage.loadReminderSettings
             (after (ReminderStorage.saveReminderSettings s) w)
      = Normal s).
Proof.
  unfold result. rewrite loadReminderSettings_after_save. cbn [fst].
  split; [reflexivity | ]. split; [apply validTime_readBack | ].
  intros Hv. now rewrite readBack_valid.
Qed.

(** ** Cancelling schedules *)

Section Cancel.
Import Notifications NotificationsApi ReminderStorage.

Lemma without_cons (id : string) (ids : list string)
    (l : list NotificationRequest) :
  without ids (List.filter (fun r => negb (String.eqb (identifier r) id)) l)
  = without (id :: ids) l.
Proof.
  unfold without. induction l as [ | r rest IH]; [reflexivity | ].
  cbn [List.filter existsb].
  destruct (String.eqb (identifier r) id); cbn [negb orb]; [exact IH | ].
  cbn [List.filter].
  destruct (existsb (String.eqb (identifier r)) ids); cbn [negb];
    now rewrite IH.
Qed.

Lemma without_nil (l : list NotificationRequest) : without [] l = l.
Proof.
  induction l as [ | r rest IH]; [reflexivity | ].
  unfold without in *. cbn [List.filter existsb negb]. f_equal. exact IH.
Qed.

Lemma withScheduled_same (w : World) :
  withScheduled (scheduled (platform w)) w = w.
Proof. destruct w as [st jo [os gr sc ch iss fl] cl tz]. reflexivity. Qed.

(** On a platform whose calls succeed, cancelling the schedules of a list
    of requests removes the schedules with their identifiers. *)
Lemma forEach_cancel_exact (items : list NotificationRequest) (w : World) :
  healthy w ->
  forEach (fun req =>
             try_catch (cancelScheduledNotificationAsync (identifier req))
                       (ret tt)) items w
  = (Normal tt,
     withScheduled (without (map identifier items) (scheduled (platform w)))
                   w).
Proof.
  revert w. induction items as [ | x rest IH]; intros w Hw.
  - cbn [forEach map]. now rewrite without_nil, withScheduled_same.
  - cbn [forEach map]. unfold bind, try_catch at 1.
    unfold cancelScheduledNotificationAsync.
    rewrite call_healthy by exact Hw. cbn [update].
    match goal with
    | |- context [forEach _ rest ?w0] => set (w1 := w0)
    end.
    assert (healthy w1) as Hw1 by (intros c; apply Hw).
    etransitivity; [exact (IH w1 Hw1) | ].
    unfold w1. cbn [platform scheduled]. rewrite without_cons. reflexivity.
Qed.

(** Whatever the platform does, cancelling one by one never rejects and
    only removes schedules. *)
Lemma forEach_cancel_any (items : list NotificationRequest) (w : World) :
  exists w',
    forEach (fun req =>
               try_catch (cancelScheduledNotificationAsync (identifier req))
                         (ret tt)) items w
    = (Normal tt, w')
    /\ sameButSchedules w w'
    /\ sublist (scheduled (platform w')) (scheduled (platform w)).
Proof.
  revert w. induction items as [ | x rest IH]; intros w.
  - exists w. split; [reflexivity | ].
    split; [apply sameButSchedules_refl | reflexivity].
  - cbn [forEach]. unfold bind, try_catch at 1.
    unfold cancelScheduledNotificationAsync, call.
    destruct (failing (platform w) (CancelScheduled (identifier x))).
    + unfold ret. destruct (IH w) as (w' & Hrun & Hsame & Hsub).
      exists w'. split; [exact Hrun | now split].
    + cbn [update].
      match goal with
      | |- context [forEach _ rest ?w0] => set (w1 := w0)
      end.
      destruct (IH w1) as (w' & Hrun & Hsame & Hsub).
      exists w'. split; [exact Hrun | ]. split.
      * refine (sameButSchedules_trans w w1 w' _ Hsame). repeat split.
      * etransitivity; [exact Hsub | ]. apply filter_sublist.
Qed.

Lemma same_identifier_same_request (l : list NotificationRequest)
    (x y : NotificationRequest) :
  NoDup (map identifier l) -> In x l -> In y l ->
  identifier x = identifier y -> x = y.
Proof.
  induction l as [ | z rest IH]; intros Hnd Hx Hy E; [destruct Hx | ].
  cbn [map] in Hnd. apply NoDup_cons in Hnd as [Hz Hrest].
  destruct Hx as [<- | Hx], Hy as [<- | Hy]; [reflexivity | | | now apply IH].
  - exfalso. apply Hz. rewrite E. apply list_elem_of_In. now apply in_map.
  - exfalso. apply Hz. rewrite <- E. apply list_elem_of_In. now apply in_map.
Qed.

Lemma filter_ext_In {A} (f g : A -> bool) (l : list A) :
  (forall x, In x l -> f x = g x) -> List.filter f l = List.filter g l.
Proof.
  induction l as [ | x rest IH]; intros H; [reflexivity | ].
  cbn. rewrite (H x) by now left.
  rewrite IH; [reflexivity | ]. intros y Hy. apply H. now right.
Qed.

(** With identifiers that are unique, cancelling the identifiers of the
    app's schedules leaves exactly the foreign ones. *)
Lemma without_reminders (w : World) :
  NoDup (map identifier (scheduled (platform w))) ->
  without (map identifier (reminders w)) (scheduled (platform w))
  = foreign w.
Proof.
  intros Hnd. unfold without, foreign. apply filter_ext_In.
  intros r Hr. f_equal.
  destruct (isReminderRequest r) eqn:Hrem.
  - apply existsb_exists. exists (identifier r). split.
    + apply in_map. apply filter_In. now split.
    + apply String.eqb_refl.
  - destruct (existsb _ _) eqn:Hex; [ | reflexivity].
    apply existsb_exists in Hex as (id & Hid & Heq).
    apply String.eqb_eq in Heq. subst id.
    apply in_map_iff in Hid as (r' & Hid & Hr').
    apply filter_In in Hr' as [Hr' Hrem'].
    rewrite (same_identifier_same_request _ r' r Hnd Hr' Hr Hid) in Hrem'.
    congruence.
Qed.
End Cancel.

(** X2. On a platform whose calls succeed, [cancelAllReminders] returns
    the number of schedules that carry the app's signature, removes every
    schedule that has the identifier of one of them and nothing else, so
    that none of the app's schedules is left; when the identifiers of the
    platform are unique, exactly the foreign schedules remain, in their
    order. *)
Theorem cancelAllReminders_cancels_the_apps_schedules (w : World) :
  healthy w ->
  ReminderStorage.cancelAllReminders w
  = (Normal (Z.of_nat (length (reminders w))),
     withScheduled
       (without (map Notifications.identifier (reminders w))
                (Notifications.scheduled (platform w))) w)
  /\ reminders (after ReminderStorage.cancelAllReminders w) = []
  /\ (NoDup (map Notifications.identifier
                 (Notifications.scheduled (platform w))) ->
      Notifications.scheduled
        (platform (after ReminderStorage.cancelAllReminders w))
      = foreign w).
Proof.
  intros Hw.
  assert (ReminderStorage.cancelAllReminders w
          = (Normal (Z.of_nat (length (reminders w))),
             withScheduled
               (without (map Notifications.identifier (reminders w))
                        (Notifications.scheduled (platform w))) w)) as Hrun.
  { unfold ReminderStorage.cancelAllReminders, try_catch at 1, bind at 1.
    unfold NotificationsApi.getAllScheduledNotificationsAsync.
    rewrite call_healthy by exact Hw. unfold asks. cbn beta iota.
    fold (reminders w). unfold bind.
    rewrite forEach_cancel_exact by exact Hw. reflexivity. }
  split; [exact Hrun | ]. split.
  - destruct (cancelAllReminders_healthy w Hw) as (w' & Hrun' & Hnone & _).
    unfold after. now rewrite Hrun'.
  - intros Hnd. unfold after. rewrite Hrun. cbn [snd].
    cbn [withScheduled platform Notifications.scheduled].
    now apply without_reminders.
Qed.

(** Whatever fails, [cancelAllReminders] ends normally. *)
Lemma cancelAllReminders_any (w : World) :
  exists n w',
    ReminderStorage.cancelAllReminders w = (Normal n, w')
    /\ sameButSchedules w w'
    /\ sublist (Notifications.scheduled (platform w'))
               (Notifications.scheduled (platform w))
    /\ match Notifications.failing (platform w) Notifications.GetAllScheduled,
             Notifications.failing (platform w)
               Notifications.CancelAllScheduled with
       | false, _ => n = Z.of_nat (length (reminders w))
       | true, false => n = -1 /\ Notifications.scheduled (platform w') = []
       | true, true => n = 0 /\ w' = w
       end.
Proof.
  unfold ReminderStorage.cancelAllReminders, try_catch at 1, bind at 1.
  unfold NotificationsApi.getAllScheduledNotificationsAsync,
    NotificationsApi.call at 1.
  destruct (Notifications.failing (platform w) Notifications.GetAllScheduled).
  - unfold try_catch, bind,
      NotificationsApi.cancelAllScheduledNotificationsAsync,
      NotificationsApi.call.
    destruct (Notifications.failing (platform w)
                Notifications.CancelAllScheduled).
    + exists 0, w. split; [reflexivity | ].
      split; [apply sameButSchedules_refl | ]. now split.
    + eexists _, _. split; [reflexivity | ].
      split; [repeat split | ]. split; [apply sublist_nil_l | now split].
  - unfold asks. cbn beta iota. fold (reminders w).
    destruct (forEach_cancel_any (reminders w) w)
      as (w' & Hrun & Hsame & Hsub).
    unfold bind. rewrite Hrun. exists (Z.of_nat (length (reminders w))), w'.
    split; [reflexivity | ]. split; [exact Hsame | ].
    split; [exact Hsub | reflexivity].
Qed.

(** X3. [cancelAllReminders] never rejects, whatever calls of the platform
    fail, and it only removes schedules. When the listing succeeds it
    returns the number of the app's schedules, also if single cancellations
    fail; when the listing fails it cancels everything and returns -1; when
    that fails too it returns 0 and leaves the world as it was. *)
Theorem cancelAllReminders_never_rejects (w : World) :
  exists n w',
    ReminderStorage.cancelAllReminders w = (Normal n, w')
    /\ sameButSchedules w w'
    /\ sublist (Notifications.scheduled (platform w'))
               (Notifications.scheduled (platform w))
    /\ match Notifications.failing (platform w) Notifications.GetAllScheduled,
             Notifications.failing (platform w)
               Notifications.CancelAllScheduled with
       | false, _ => n = Z.of_nat (length (reminders w))
       | true, false => n = -1 /\ Notifications.scheduled (platform w') = []
       | true, true => n = 0 /\ w' = w
       end.
Proof. exact (cancelAllReminders_any w). Qed.

(** X4. [cancelReminder] never rejects. Without an id, or with the empty
    id, it leaves the world as it was, and so it does when the platform
    fails to cancel; otherwise it removes the schedules with that
    identifier and no other. *)
Theorem cancelReminder_best_effort (id : option string) (w : World) :
  result (ReminderStorage.cancelReminder id) w = Normal tt
  /\ after (ReminderStorage.cancelReminder id) w
     = match id with
       | None => w
       | Some i =>
           if String.eqb i ""
              || Notifications.failing (platform w)
                   (Notifications.CancelScheduled i)
           then w
           else withScheduled
                  (without [i] (Notifications.scheduled (platform w))) w
       end.
Proof.
  unfold result, after, ReminderStorage.cancelReminder.
  destruct id as [i | ]; [ | now split].
  destruct (String.eqb i ""); [now split | ]. cbn [orb].
  unfold try_catch, NotificationsApi.cancelScheduledNotificationAsync,
    NotificationsApi.call.
  destruct (Notifications.failing (platform w)
              (Notifications.CancelScheduled i)); [now split | ].
  cbn [NotificationsApi.update fst snd]. split; [reflexivity | ].
  unfold withScheduled. f_equal. f_equal.
  rewrite <- (without_cons i []). now rewrite without_nil.
Qed.

(** ** Scheduling the daily reminder *)

Section Schedule.
Import Notifications NotificationsApi ReminderStorage.

Lemma clampInt_range (value : Js.number) (lo hi : Z) :
  value <> Js.NaN -> lo <= hi ->
  exists z, clampInt value (Js.int lo) (Js.int hi) = Js.int z
            /\ lo <= z <= hi.
Proof.
  intros Hnan Hle. destruct value as [q | | | ]; [ | congruence | | ].
  - rewrite clampInt_Num. eexists. split; [reflexivity | lia].
  - exists hi. split; [reflexivity | lia].
  - exists lo. split; [ | lia].
    unfold clampInt. cbn [Js.Math_trunc Js.Math_max Js.int].
    change (Js.Num (inject_Z lo)) with (Js.int lo).
    change (Js.Num (inject_Z hi)) with (Js.int hi).
    rewrite Math_min_int. f_equal. lia.
Qed.

(** What [scheduleDailyReminder] does on a working platform, counter of
    identifiers included. *)
Lemma scheduleDailyReminder_issued (h m : Js.number) (w : World) :
  healthy w ->
  exists w',
    scheduleDailyReminder h m w = (Normal (nextIdentifier (platform w)), w')
    /\ scheduled (platform w')
       = (scheduled (platform w) ++ [dailyReminder w h m])%list
    /\ issued (platform w') = S (issued (platform w))
    /\ sameButSchedules w w'.
Proof.
  intros Hw.
  destruct (ensureAndroidChannel_healthy w Hw)
    as (w1 & Hrun & Hsched & Hissued & Hsame).
  pose proof (healthy_same _ _ Hsame Hw) as Hw1.
  unfold scheduleDailyReminder, bind. rewrite Hrun.
  unfold asks. cbn beta iota.
  unfold scheduleNotificationAsync. rewrite call_healthy by exact Hw1.
  unfold bind, asks, update, ret. cbn beta iota.
  eexists. split; [ | split; [ | split]].
  - unfold nextIdentifier. rewrite Hissued. reflexivity.
  - cbn [platform scheduled snd]. rewrite Hsched.
    unfold dailyReminder, nextIdentifier.
    rewrite ?Hissued. destruct Hsame as (_ & _ & _ & _ & _ & -> & _).
    reflexivity.
  - cbn [platform issued snd]. now rewrite ?Hissued.
  - eapply sameButSchedules_trans; [exact Hsame | ]. now repeat split.
Qed.

Lemma nextIdentifier_fresh (p p' : Platform) :
  issued p' = S (issued p) -> nextIdentifier p' <> nextIdentifier p.
Proof.
  unfold nextIdentifier. intros Hi E.
  apply (inj (String.append "notification-")) in E.
  apply (inj pretty) in E. lia.
Qed.

(** Whatever fails, a rejected [scheduleDailyReminder] has scheduled
    nothing. *)
Lemma scheduleDailyReminder_storage (h m : Js.number) (w : World) :
  storage (after (scheduleDailyReminder h m) w) = storage w
  /\ journal (after (scheduleDailyReminder h m) w) = journal w
  /\ (forall e, result (scheduleDailyReminder h m) w = Throw e ->
        scheduled (platform (after (scheduleDailyReminder h m) w))
        = scheduled (platform w))
  /\ collation (after (scheduleDailyReminder h m) w) = collation w.
Proof.
  unfold after, result, scheduleDailyReminder, ensureAndroidChannel,
    setNotificationChannelAsync, scheduleNotificationAsync, call, bind, asks,
    update, ret.
  destruct w as [st jo [os gr sc ch iss fl] cl tz co].
  cbn [platform OS failing].
  destruct (fl Schedule) eqn:Hs; destruct (fl SetChannel) eqn:Hc;
    (destruct os;
     [ rewrite (bool_decide_true (ios <> android)) by discriminate
     | rewrite (bool_decide_false (android <> android))
         by (intros H; now apply H)
     | rewrite (bool_decide_true (web <> android)) by discriminate ]);
    cbn; rewrite ?Hs, ?Hc; cbn; rewrite ?Hs; cbn;
    (split; [reflexivity | split; [reflexivity | split; [ | reflexivity]]]);
    intros e He; try reflexivity; discriminate He.
Qed.
End Schedule.

(** X5. On a working platform [scheduleDailyReminder] hands the platform a
    daily trigger whose hour is a whole number in 0..23 and whose minute is
    a whole number in 0..59, whatever numbers other than [NaN] it is called
    with (fractions are truncated, values out of range and infinities
    clamped). The new schedule has the returned identifier and the content
    that the function writes: the title, the body, the sound, and as its
    only data the tag of the app under [kind], so that it carries the
    signature by which the app finds its schedules. *)
Theorem scheduleDailyReminder_time_in_range
    (hour minute : Js.number) (w : World) :
  healthy w -> hour <> Js.NaN -> minute <> Js.NaN ->
  exists new h m channel,
    Notifications.scheduled
      (platform (after (ReminderStorage.scheduleDailyReminder hour minute) w))
    = (Notifications.scheduled (platform w) ++ [new])%list
    /\ result (ReminderStorage.scheduleDailyReminder hour minute) w
       = Normal (Notifications.identifier new)
    /\ Notifications.content new
       = {| Notifications.title := Some "Reminder";
            Notifications.body := Some "Time to add today's track.";
            Notifications.sound := true;
            Notifications.data :=
              Some [("kind", Json.JString "checkin:daily-reminder-v1")] |}
    /\ ReminderStorage.isReminderRequest new = true
    /\ Notifications.trigger new
       = Notifications.DAILY (Js.int h) (Js.int m) channel
    /\ 0 <= h <= 23 /\ 0 <= m <= 59.
Proof.
  intros Hw Hh Hm.
  destruct (scheduleDailyReminder_healthy hour minute w Hw)
    as (w' & Hrun & Hsched & _).
  destruct (clampInt_range hour 0 23 Hh ltac:(lia)) as (h & Hhc & Hhr).
  destruct (clampInt_range minute 0 59 Hm ltac:(lia)) as (m & Hmc & Hmr).
  exists (dailyReminder w hour minute), h, m.
  eexists. unfold after, result. rewrite Hrun. cbn [fst snd].
  split; [exact Hsched | ]. split; [reflexivity | ].
  split; [reflexivity | ].
  split; [reflexivity | ]. split; [ | now split].
  cbn [dailyReminder Notifications.trigger]. now rewrite Hhc, Hmc.
Qed.

(** X6. [scheduleDailyReminder] never looks at what is scheduled: on a
    working platform every call adds one schedule of the app, so two calls
    in a row leave two more, with the two different identifiers that the
    calls returned. When the platform rejects the call, nothing is
    scheduled; in no case is the storage written. *)
Theorem scheduleDailyReminder_always_adds
    (hour minute : Js.number) (w : World) :
  let run := ReminderStorage.scheduleDailyReminder hour minute in
  (healthy w ->
   exists first second,
     result run w = Normal (Notifications.identifier first)
     /\ result run (after run w) = Normal (Notifications.identifier second)
     /\ reminders (after run (after run w))
        = (reminders w ++ [first; second])%list
     /\ Notifications.identifier first <> Notifications.identifier second)
  /\ (forall e, result run w = Throw e ->
        Notifications.scheduled (platform (after run w))
        = Notifications.scheduled (platform w))
  /\ storage (after run w) = storage w
  /\ journal (after run w) = journal w.
Proof.
  cbn zeta. split.
  - intros Hw.
    destruct (scheduleDailyReminder_issued hour minute w Hw)
      as (w1 & Hrun1 & Hsched1 & Hissued1 & Hsame1).
    pose proof (healthy_same _ _ Hsame1 Hw) as Hw1.
    destruct (scheduleDailyReminder_issued hour minute w1 Hw1)
      as (w2 & Hrun2 & Hsched2 & Hissued2 & Hsame2).
    exists (dailyReminder w hour minute), (dailyReminder w1 hour minute).
    unfold after, result. rewrite Hrun1. cbn [fst snd]. rewrite Hrun2.
    cbn [fst snd]. split; [reflexivity | ]. split; [reflexivity | ]. split.
    + rewrite (reminders_app w1 w2 _ Hsched2) by reflexivity.
      rewrite (reminders_app w w1 _ Hsched1) by reflexivity.
      now rewrite <- app_assoc.
    + cbn [dailyReminder Notifications.identifier]. intros E.
      now apply (nextIdentifier_fresh (platform w) (platform w1)).
  - pose proof (scheduleDailyReminder_storage hour minute w)
      as (Hst & Hjo & Hthrow & _).
    split; [exact Hthrow | now split].
Qed.

(** ** Reconciliation when the app starts *)

Section Startup.
Import Notifications ReminderStorage.

Lemma storedSettings_storage (w w' : World) :
  storage w' = storage w -> storedSettings w' = storedSettings w.
Proof.
  intros Hst. unfold storedSettings, result, loadReminderSettings, bind,
    AsyncStorage.getItem, asks. rewrite Hst.
  destruct (storage w !! STORAGE_KEY) as [[raw | v] | ];
    [destruct raw; reflexivity | | reflexivity].
  destruct v; reflexivity.
Qed.

Lemma validTime_storedSettings (w : World) : validTime (storedSettings w).
Proof.
  unfold storedSettings, result.
  destruct (storage w !! STORAGE_KEY) as [[raw | v] | ] eqn:Hraw.
  - unfold loadReminderSettings, bind, AsyncStorage.getItem, asks.
    rewrite Hraw. exists 20, 0.
    destruct raw; cbn; repeat split; lia.
  - destruct (loadReminderSettings_Encoded w v Hraw) as (s & -> & Hh & Hm).
    cbn [fst]. exists (hourOf v), (minuteOf v).
    pose proof (hourOf_range v). pose proof (minuteOf_range v).
    now repeat split.
  - unfold loadReminderSettings, bind, AsyncStorage.getItem, asks.
    rewrite Hraw. exists 20, 0. cbn. repeat split; lia.
Qed.

Lemma storedSettings_after_save (s : ReminderSettings) (w : World) :
  storedSettings (after (saveReminderSettings s) w) = readBack s.
Proof.
  unfold storedSettings, result.
  now rewrite loadReminderSettings_after_save.
Qed.

Lemma platform_after_save (s : ReminderSettings) (w : World) :
  platform (after (saveReminderSettings s) w) = platform w.
Proof. reflexivity. Qed.

Lemma validTime_syncedId (s : ReminderSettings) (only : NotificationRequest) :
  validTime s -> validTime (syncedId s only).
Proof. unfold syncedId. now destruct (_ && _). Qed.

Lemma syncedId_same_id (s : ReminderSettings) (only : NotificationRequest) :
  notificationId (syncedId s only) = notificationId s ->
  syncedId s only = s.
Proof.
  unfold syncedId. destruct (_ && _); [ | reflexivity].
  cbn [withId notificationId]. intros E. now apply withId_same.
Qed.

(** The start of the app when exactly one schedule of the app exists. *)
Lemma startup_one (w : World) (only : NotificationRequest) :
  healthy w -> granted (platform w) = true ->
  enabled (storedSettings w) = true -> reminders w = [only] ->
  RootLayout.reconcile w
  = (Normal tt,
     if bool_decide (notificationId (syncedId (storedSettings w) only)
                     <> notificationId (storedSettings w))
     then after (saveReminderSettings (syncedId (storedSettings w) only)) w
     else w).
Proof.
  intros Hw Hg He Hone.
  unfold RootLayout.reconcile, try_catch, bind at 1.
  rewrite storedSettings_eq, He. cbn [negb].
  unfold bind. rewrite (reconcile_one _ w only He Hg Hw Hone).
  destruct (bool_decide _); reflexivity.
Qed.

(** The start of the app with reminders enabled and permission granted. *)
Lemma startup_enabled (w : World) :
  healthy w -> granted (platform w) = true ->
  enabled (storedSettings w) = true ->
  exists w1 only,
    sameButSchedules w w1 /\ reminders w1 = [only]
    /\ RootLayout.reconcile w
       = (Normal tt,
          if bool_decide (notificationId (syncedId (storedSettings w) only)
                          <> notificationId (storedSettings w))
          then after (saveReminderSettings
                        (syncedId (storedSettings w) only)) w1
          else w1).
Proof.
  intros Hw Hg He.
  destruct (reconcile_single (storedSettings w) w He Hg Hw)
    as (s1 & w1 & only & Hrun & Hsame & Hone & ->).
  exists w1, only. split; [exact Hsame | ]. split; [exact Hone | ].
  unfold RootLayout.reconcile, try_catch, bind at 1.
  rewrite storedSettings_eq, He. cbn [negb].
  unfold bind. rewrite Hrun.
  destruct (bool_decide _); reflexivity.
Qed.

(** After the start there is one schedule, the stored id is in line with
    it, and a second start finds nothing to do. *)
Lemma startup_settles (w : World) :
  healthy w -> granted (platform w) = true ->
  enabled (storedSettings w) = true ->
  exists only,
    reminders (after RootLayout.reconcile w) = [only]
    /\ storedSettings (after RootLayout.reconcile w)
       = syncedId (storedSettings w) only
    /\ RootLayout.reconcile (after RootLayout.reconcile w)
       = (Normal tt, after RootLayout.reconcile w).
Proof.
  intros Hw Hg He.
  destruct (startup_enabled w Hw Hg He) as (w1 & only & Hsame & Hone & Hrun).
  exists only.
  assert (after RootLayout.reconcile w = snd (RootLayout.reconcile w))
    as Hafter by reflexivity.
  rewrite Hrun in Hafter. cbn [snd] in Hafter. rewrite Hafter. clear Hafter.
  set (s := storedSettings w) in *.
  pose proof (validTime_storedSettings w) as Hvalid. fold s in Hvalid.
  pose proof (healthy_same _ _ Hsame Hw) as Hw1.
  assert (granted (platform w1) = true) as Hg1.
  { destruct Hsame as (_ & _ & _ & _ & -> & _). exact Hg. }
  assert (storedSettings w1 = s) as Hs1.
  { apply storedSettings_storage. apply Hsame. }
  set (w' := if bool_decide _ then _ else w1).
  assert (reminders w' = [only] /\ healthy w'
          /\ granted (platform w') = true
          /\ storedSettings w' = syncedId s only) as (Hone' & Hw' & Hg' & Hs').
  { unfold w'. case_bool_decide as Hid.
    - repeat split; try assumption.
      rewrite storedSettings_after_save.
      apply readBack_valid, validTime_syncedId, Hvalid.
    - repeat split; try assumption. rewrite Hs1. symmetry.
      apply syncedId_same_id.
      destruct (decide (notificationId (syncedId s only)
                        = notificationId s)) as [E | E];
        [exact E | now exfalso]. }
  split; [exact Hone' | ]. split; [exact Hs' | ].
  rewrite (startup_one w' only Hw' Hg'); [ | | exact Hone'].
  - rewrite Hs', syncedId_idem.
    rewrite bool_decide_false; [reflexivity | ]. intros H. now apply H.
  - rewrite Hs', enabled_syncedId. exact He.
Qed.
End Startup.

(** X7. The reconciliation at the start of the app never rejects. With
    stored settings that are disabled (or absent) it leaves the world as it
    was. With enabled settings, permission granted and a working platform,
    it leaves exactly one schedule of the app and stored settings whose
    notification id is the identifier of that schedule, and running it
    again changes nothing: no schedule is added or cancelled and nothing is
    written. *)
Theorem startup_reconcile_settles (w : World) :
  result RootLayout.reconcile w = Normal tt
  /\ (ReminderStorage.enabled (storedSettings w) = false ->
      after RootLayout.reconcile w = w)
  /\ (healthy w -> Notifications.granted (platform w) = true ->
      ReminderStorage.enabled (storedSettings w) = true ->
      exists only,
        reminders (after RootLayout.reconcile w) = [only]
        /\ storedSettings (after RootLayout.reconcile w)
           = syncedId (storedSettings w) only
        /\ (Notifications.identifier only <> "" ->
            ReminderStorage.notificationId
              (storedSettings (after RootLayout.reconcile w))
            = Some (Notifications.identifier only))
        /\ after RootLayout.reconcile (after RootLayout.reconcile w)
           = after RootLayout.reconcile w).
Proof.
  split; [ | split].
  - unfold result, RootLayout.reconcile, try_catch.
    destruct (bind _ _ w) as [[[] | e] w']; reflexivity.
  - intros He. unfold after, RootLayout.reconcile, try_catch, bind.
    now rewrite storedSettings_eq, He.
  - intros Hw Hg He.
    destruct (startup_settles w Hw Hg He) as (only & Hone & Hs & Hagain).
    exists only. split; [exact Hone | ]. split; [exact Hs | ]. split.
    + intros Hne. rewrite Hs, syncedId_withId by exact Hne. reflexivity.
    + unfold after at 1. now rewrite Hagain.
Qed.

(** ** Saving the settings on the settings screen *)

Section Persist.
Import Notifications NotificationsApi ReminderStorage SettingsScreen.

Lemma requestReminderPermissions_eq (answer : bool) (w : World) :
  Permissions.requestReminderPermissions answer w
  = (Normal (granted (platform w) || answer),
     if granted (platform w) then w else withGranted answer w).
Proof.
  unfold Permissions.requestReminderPermissions, bind,
    getPermissionsAsync, asks.
  destruct (granted (platform w)); reflexivity.
Qed.

Lemma reminders_withGranted (g : bool) (w : World) :
  reminders (withGranted g w) = reminders w.
Proof. reflexivity. Qed.

Lemma healthy_withGranted (g : bool) (w : World) :
  healthy w -> healthy (withGranted g w).
Proof. intros H c. apply H. Qed.

Lemma reminders_after_save (s : ReminderSettings) (w : World) :
  reminders (after (saveReminderSettings s) w) = reminders w.
Proof. reflexivity. Qed.

Lemma healthy_after_save (s : ReminderSettings) (w : World) :
  healthy w -> healthy (after (saveReminderSettings s) w).
Proof. intros H c. apply H. Qed.

(** What [persist] leaves behind on a working platform. *)
Lemma persist_healthy (next : ReminderSettings) (answer : bool) (w : World) :
  healthy w ->
  let w' := after (persist next answer) w in
  healthy w' /\
  match enabled next, granted (platform w) || answer with
  | false, _ =>
      result (persist next answer) w
      = Normal {| settings := Some (withoutId next); status := "Saved" |}
      /\ reminders w' = []
      /\ storedSettings w' = readBack (withoutId next)
  | true, false =>
      result (persist next answer) w
      = Normal {| settings := Some (switchedOff next);
                  status := "Notifications not allowed" |}
      /\ reminders w' = []
      /\ storedSettings w' = readBack (switchedOff next)
  | true, true =>
      exists new,
        result (persist next answer) w
        = Normal {| settings := Some (withId next (identifier new));
                    status := "Saved" |}
        /\ reminders w' = [new]
        /\ scheduledAt next new
        /\ storedSettings w' = readBack (withId next (identifier new))
        /\ granted (platform w') = true
  end.
Proof.
  intros Hw.
  destruct (cancelAllReminders_healthy w Hw)
    as (wc & Hcancel & Hnone & Hsame).
  pose proof (healthy_same _ _ Hsame Hw) as Hwc.
  assert (granted (platform wc) = granted (platform w)) as Hgc
    by apply Hsame.
  set (wp := if granted (platform w) then wc else withGranted answer wc).
  assert (healthy wp /\ reminders wp = []) as [Hwp Hnonep].
  { unfold wp. destruct (granted (platform w)); split; assumption. }
  assert (Permissions.requestReminderPermissions answer wc
          = (Normal (granted (platform w) || answer), wp)) as Hask.
  { rewrite requestReminderPermissions_eq, Hgc. reflexivity. }
  destruct (scheduleDailyReminder_healthy (hour next) (minute next) wp Hwp)
    as (ws & Hrun & Hsched & Hsames).
  assert (persist next answer w
          = if enabled next then
              if granted (platform w) || answer then
                (Normal {| settings :=
                             Some (withId next (nextIdentifier (platform wp)));
                           status := "Saved" |},
                 after (saveReminderSettings
                          (withId next (nextIdentifier (platform wp)))) ws)
              else
                (Normal {| settings := Some (switchedOff next);
                           status := "Notifications not allowed" |},
                 after (saveReminderSettings (switchedOff next)) wp)
            else
              (Normal {| settings := Some (withoutId next);
                         status := "Saved" |},
               after (saveReminderSettings (withoutId next)) wc)) as Hper.
  { unfold persist, try_catch, bind at 1. rewrite Hcancel.
    unfold withId, withoutId, switchedOff.
    destruct (enabled next) eqn:He; [ | reflexivity].
    unfold bind at 1. rewrite Hask.
    destruct (granted (platform w) || answer); cbn [negb]; [ | reflexivity].
    unfold bind at 1. rewrite Hrun. reflexivity. }
  cbn zeta. unfold after, result.
  rewrite Hper. clear Hper.
  destruct (enabled next) eqn:He;
    [destruct (granted (platform w) || answer) eqn:Hok | ]; cbn [fst snd].
  - split; [apply healthy_after_save, (healthy_same _ _ Hsames Hwp) | ].
    exists (dailyReminder wp (hour next) (minute next)).
    split; [reflexivity | ].
    split.
    { rewrite reminders_after_save.
      rewrite (reminders_app wp ws _ Hsched) by reflexivity.
      now rewrite Hnonep. }
    split; [apply dailyReminder_scheduledAt | ].
    split; [apply storedSettings_after_save | ].
    rewrite platform_after_save.
    destruct Hsames as (_ & _ & _ & _ & -> & _).
    unfold wp. destruct (granted (platform w)) eqn:Hg.
    + now rewrite Hgc.
    + cbn in Hok. now subst answer.
  - split; [now apply healthy_after_save | ].
    split; [reflexivity | ]. split; [exact Hnonep | ].
    apply storedSettings_after_save.
  - split; [now apply healthy_after_save | ].
    destruct (granted (platform w) || answer);
      (split; [reflexivity | ]; split; [exact Hnone | ];
       apply storedSettings_after_save).
Qed.

(** A platform that rejects new schedules rejects [scheduleDailyReminder]. *)
Lemma scheduleDailyReminder_rejected (h m : Js.number) (w : World) :
  failing (platform w) Schedule = true ->
  exists e, result (scheduleDailyReminder h m) w = Throw e.
Proof.
  unfold result, scheduleDailyReminder, ensureAndroidChannel,
    setNotificationChannelAsync, scheduleNotificationAsync, call, bind, asks,
    update, ret.
  intros Hs.
  destruct (bool_decide (OS (platform w) <> android)); cbn.
  - rewrite Hs. now eexists.
  - destruct (failing (platform w) SetChannel); cbn; [now eexists | ].
    rewrite Hs. now eexists.
Qed.

(** Whatever call of the platform fails, [persist] ends normally; when the
    new schedule is rejected it shows the error status, and nothing has
    been set or written by then. *)
Lemma persist_any (next : ReminderSettings) (answer : bool) (w : World) :
  (exists shown, result (persist next answer) w = Normal shown)
  /\ (enabled next = true -> granted (platform w) || answer = true ->
      failing (platform w) Schedule = true ->
      result (persist next answer) w
      = Normal {| settings := None; status := "Error" |}
      /\ storage (after (persist next answer) w) = storage w
      /\ journal (after (persist next answer) w) = journal w).
Proof.
  destruct (cancelAllReminders_any w) as (n & wc & Hcancel & Hsame & _).
  assert (storage wc = storage w /\ journal wc = journal w) as [Hst Hjo]
    by (split; apply Hsame).
  assert (granted (platform wc) = granted (platform w)) as Hg
    by apply Hsame.
  assert (failing (platform wc) = failing (platform w)) as Hf
    by apply Hsame.
  set (wp := if granted (platform wc) then wc else withGranted answer wc).
  assert (storage wp = storage w /\ journal wp = journal w
          /\ failing (platform wp) = failing (platform w))
    as (Hstp & Hjop & Hfp).
  { unfold wp. destruct (granted (platform wc)); now repeat split. }
  pose proof (scheduleDailyReminder_storage (hour next) (minute next) wp)
    as (Hsts & Hjos & _ & _).
  pose proof (scheduleDailyReminder_rejected (hour next) (minute next) wp)
    as Hrej.
  rewrite Hfp in Hrej.
  unfold after in Hsts, Hjos. unfold result in Hrej. unfold after, result.
  destruct (persist next answer w) as [c w'] eqn:Hper. cbn [fst snd].
  revert Hper. unfold persist, try_catch, bind at 1. rewrite Hcancel.
  destruct (enabled next).
  - unfold bind at 1. rewrite requestReminderPermissions_eq. fold wp.
    rewrite Hg.
    destruct (granted (platform w) || answer); cbn [negb].
    + unfold bind at 1.
      destruct (scheduleDailyReminder (hour next) (minute next) wp)
        as [[id | e] ws]; cbn [fst snd] in Hsts, Hjos, Hrej.
      * unfold bind, ret. cbn [fst snd]. intros [= <- <-].
        split; [now eexists | ]. intros _ _ Hs.
        destruct (Hrej Hs) as [e He]. discriminate He.
      * intros [= <- <-]. split; [now eexists | ]. intros _ _ _.
        split; [reflexivity | ]. split; congruence.
    + unfold bind, ret. cbn [fst snd]. intros [= <- <-].
      split; [now eexists | ]. discriminate.
  - unfold bind, ret. cbn [fst snd]. intros [= <- <-].
    split; [now eexists | ]. discriminate.
Qed.

(** The start of the app finds nothing to do after [persist]. *)
Lemma startup_after_persist (next : ReminderSettings) (answer : bool)
    (w : World) :
  healthy w ->
  RootLayout.reconcile (after (persist next answer) w)
  = (Normal tt, after (persist next answer) w).
Proof.
  intros Hw. pose proof (persist_healthy next answer w Hw) as H.
  cbn zeta in H. destruct H as [Hw' H].
  set (w' := after (persist next answer) w) in *.
  assert (enabled (storedSettings w') = false ->
          RootLayout.reconcile w' = (Normal tt, w')) as Hoff.
  { intros He. unfold RootLayout.reconcile, try_catch, bind.
    now rewrite storedSettings_eq, He. }
  destruct (enabled next) eqn:He;
    [destruct (granted (platform w) || answer) | ].
  - destruct H as (new & _ & Hone & _ & Hs & Hg).
    rewrite (startup_one w' new Hw' Hg); [ | | exact Hone].
    + rewrite Hs. unfold syncedId. cbn [readBack withId notificationId].
      rewrite (bool_decide_false (Some (identifier new)
                                  <> Some (identifier new)))
        by (intros E; now apply E).
      rewrite andb_false_r.
      rewrite bool_decide_false; [reflexivity | ]. intros E. now apply E.
    + rewrite Hs. cbn. exact He.
  - destruct H as (_ & _ & Hs). apply Hoff. now rewrite Hs.
  - destruct H as (_ & _ & Hs). apply Hoff. rewrite Hs. cbn. exact He.
Qed.
End Persist.

(** X8. On a working platform, saving on the settings screen leaves at
    most one schedule of the app, whatever was scheduled before. With the
    reminder switched off none is left and the stored settings have no
    notification id. With the reminder switched on and permission there
    (granted before, or given when asked), exactly one schedule is left, at
    the time of the settings, and the stored settings carry its identifier.
    With permission refused none is left and the settings are stored
    switched off, without id, and the screen shows that notifications are
    not allowed. *)
Theorem persist_outcomes
    (next : ReminderStorage.ReminderSettings) (answer : bool) (w : World) :
  healthy w ->
  let run := SettingsScreen.persist next answer in
  match ReminderStorage.enabled next,
        Notifications.granted (platform w) || answer with
  | false, _ =>
      result run w
      = Normal {| SettingsScreen.settings := Some (withoutId next);
                  SettingsScreen.status := "Saved" |}
      /\ reminders (after run w) = []
      /\ storedSettings (after run w) = readBack (withoutId next)
  | true, false =>
      result run w
      = Normal {| SettingsScreen.settings := Some (switchedOff next);
                  SettingsScreen.status := "Notifications not allowed" |}
      /\ reminders (after run w) = []
      /\ storedSettings (after run w) = readBack (switchedOff next)
  | true, true =>
      exists new,
        result run w
        = Normal {| SettingsScreen.settings :=
                      Some (withId next (Notifications.identifier new));
                    SettingsScreen.status := "Saved" |}
        /\ reminders (after run w) = [new]
        /\ scheduledAt next new
        /\ storedSettings (after run w)
           = readBack (withId next (Notifications.identifier new))
        /\ Notifications.granted (platform (after run w)) = true
  end.
Proof.
  intros Hw. exact (proj2 (persist_healthy next answer w Hw)).
Qed.

(** X9. Saving on the settings screen never rejects, whatever calls of the
    notification platform fail: its whole body is inside [try]. When the
    reminder is to be switched on, permission is there (granted before, or
    given when asked) and the platform rejects the new schedule, the
    screen shows the status "Error"; the rejection comes before the
    settings are set on the screen and before the write, so no settings
    are set and nothing is written to the storage. *)
Theorem persist_never_rejects
    (next : ReminderStorage.ReminderSettings) (answer : bool) (w : World) :
  let run := SettingsScreen.persist next answer in
  (exists shown, result run w = Normal shown)
  /\ (ReminderStorage.enabled next = true ->
      Notifications.granted (platform w) || answer = true ->
      Notifications.failing (platform w) Notifications.Schedule = true ->
      result run w
      = Normal {| SettingsScreen.settings := None;
                  SettingsScreen.status := "Error" |}
      /\ storage (after run w) = storage w
      /\ journal (after run w) = journal w).
Proof. exact (persist_any next answer w). Qed.

(** X10. What saving on the settings screen leaves behind is settled: on a
    working platform the reconciliation at the next start of the app
    changes nothing, neither the schedules nor the storage. *)
Theorem startup_after_persist_changes_nothing
    (next : ReminderStorage.ReminderSettings) (answer : bool) (w : World) :
  healthy w ->
  after RootLayout.reconcile (after (SettingsScreen.persist next answer) w)
  = after (SettingsScreen.persist next answer) w.
Proof.
  intros Hw. unfold after at 1. now rewrite startup_after_persist.
Qed.

(** ** The order of check-ins of one date key *)


Section OtherDates.
Import CheckinStorage.

Lemma loadCheckinForDate_head (key : string) (w : World) :
  result (loadCheckinForDate key) w = Normal (head (checkinsOf key w)).
Proof.
  unfold result. rewrite loadCheckinForDate_eq. cbn [fst].
  now rewrite list_find_head_filter.
Qed.

Lemma filter_insert_other (key : string) (l : list DailyCheckin) (i : nat)
    (old next : DailyCheckin) :
  l !! i = Some old -> dateKey old <> key -> dateKey next <> key ->
  filter (fun c => dateKey c = key) (<[i := next]> l)
  = filter (fun c => dateKey c = key) l.
Proof.
  revert i. induction l as [ | x r IH]; intros i Hi Hold Hnext;
    [reflexivity | ].
  destruct i as [ | i]; cbn in Hi.
  - injection Hi as ->.
    change (<[0%nat := next]> (old :: r)) with (next :: r).
    now rewrite !filter_cons, !decide_False by assumption.
  - change (<[S i := next]> (x :: r)) with (x :: <[i := next]> r).
    rewrite !filter_cons. now rewrite (IH i).
Qed.

Lemma filter_filter_swap {A} (P Q : A -> Prop)
    `{!forall x, Decision (P x)} `{!forall x, Decision (Q x)} (l : list A) :
  filter P (filter Q l) = filter Q (filter P l).
Proof.
  induction l as [ | x r IH]; [reflexivity | ].
  rewrite !filter_cons.
  destruct (decide (Q x)), (decide (P x));
    rewrite ?filter_cons, ?decide_True, ?decide_False by assumption;
    now rewrite IH.
Qed.

(** The check-ins of another date key after an upsert: the same, as far
    as their numbers are finite. *)
Lemma checkinsOf_after_upsert (values : Values) (key : string) (w : World) :
  key <> dateKey (upserted values w) ->
  checkinsOf key (after (upsertTodayCheckin values) w)
  = filter finiteCheckin (checkinsOf key w).
Proof.
  intros Hkey. unfold checkinsOf.
  rewrite checkins_after_upsert_any.
  rewrite checkinsOf_sorted, filter_filter_swap. f_equal.
  unfold upsertedAll.
  destruct (list_find _ _) as [[i old] | ] eqn:Hfind.
  - apply list_find_Some in Hfind as (Hi & Hk & _).
    apply (filter_insert_other key _ i old); [exact Hi | | ]; congruence.
  - rewrite filter_app, filter_cons, decide_False by congruence.
    now rewrite filter_nil, app_nil_r.
Qed.
End OtherDates.

(** X11. Among the stored elements that are valid check-ins of one date
    key, [loadAllCheckins] keeps the stored order, because the sort is
    stable, and [loadCheckinForDate] returns the first of them, or null
    when there is none. *)
Theorem loadCheckinForDate_first_stored
    (key : string) (v : Json.value) (w : World) :
  storage w !! CheckinStorage.STORAGE_KEY = Some (Json.Encoded v) ->
  let stored := omap readCheckin (elements v) in
  checkinsOf key w = filter (fun c => CheckinStorage.dateKey c = key) stored
  /\ result (CheckinStorage.loadCheckinForDate key) w
     = Normal (head (filter (fun c => CheckinStorage.dateKey c = key)
                            stored)).
Proof.
  intros Hst stored.
  assert (checkinsOf key w
          = filter (fun c => CheckinStorage.dateKey c = key) stored) as H.
  { unfold checkinsOf. rewrite checkins_eq, Hst. apply checkinsOf_sorted. }
  split; [exact H | ]. now rewrite loadCheckinForDate_head, H.
Qed.

(** X12. [upsertTodayCheckin] touches the check-ins of its own date
    only. For every other date key the check-ins whose numbers are finite
    are the same as before, in the same order; one with a number that is
    not finite, as a stored numeral beyond the range of doubles gives it,
    is written back with [null] and is not read again. So when the
    check-ins of the other key hold finite numbers, as those that the
    application wrote do, they are what they were and
    [loadCheckinForDate] returns what it returned before. *)
Theorem upsert_keeps_other_dates
    (values : CheckinStorage.Values) (key : string) (w : World) :
  key <> CheckinStorage.dateKey (upserted values w) ->
  let w' := after (CheckinStorage.upsertTodayCheckin values) w in
  checkinsOf key w' = filter finiteCheckin (checkinsOf key w)
  /\ result (CheckinStorage.loadCheckinForDate key) w'
     = Normal (head (filter finiteCheckin (checkinsOf key w)))
  /\ (Forall finiteCheckin (checkinsOf key w) ->
      checkinsOf key w' = checkinsOf key w
      /\ result (CheckinStorage.loadCheckinForDate key) w'
         = result (CheckinStorage.loadCheckinForDate key) w).
Proof.
  intros Hkey w'.
  pose proof (checkinsOf_after_upsert values key w Hkey) as H.
  fold w' in H.
  split; [exact H | ].
  split; [now rewrite loadCheckinForDate_head, H | ].
  intros Hfin. rewrite !loadCheckinForDate_head, H.
  now rewrite filter_finite_id.
Qed.

(** ** Today's check-in *)

Section Today.
Import Date CheckinStorage.

Lemma getLocalDateKey_same_day (tza tv tv' : Z) :
  Day (LocalTime tza tv) = Day (LocalTime tza tv') ->
  getLocalDateKey tza (Some tv) = getLocalDateKey tza (Some tv').
Proof. intros H. rewrite !getLocalDateKey_eq. cbn zeta. now rewrite H. Qed.

Lemma TimeClip_clock (w : World) :
  deviceOk w -> TimeClip (Some (clock w)) = Some (clock w).
Proof.
  intros (H0 & Hmax & Htz). unfold TimeClip, maxTime, msPerDay in *.
  destruct (Z.leb_spec (Z.abs (clock w)) 8640000000000000);
    [reflexivity | lia].
Qed.

(** The key that is written at the time of the world reads back as the
    start of today. *)
Lemma localDateFromDateKey_today (w : World) :
  deviceOk w ->
  localDateFromDateKey (LocalTZA w)
    (getLocalDateKey (LocalTZA w) (Some (clock w)))
  = localMidnight w (today w).
Proof.
  intros Hok. pose proof (today_bounds w Hok) as (Htoday & _).
  destruct Hok as (H0 & Hmax & Htz).
  apply localDateFromDateKey_getLocalDateKey; [exact Htz | | ].
  - unfold maxTime, msPerDay in *. lia.
  - unfold YearFromTime. pose proof (civil_year_1600 _ Htoday).
    unfold today in *. lia.
Qed.

Lemma upserted_dateKey (values : Values) (w : World) :
  deviceOk w -> v_date values = None ->
  dateKey (upserted values w)
  = getLocalDateKey (LocalTZA w) (Some (clock w)).
Proof.
  intros Hok Hd. unfold upserted. cbn [dateKey]. rewrite Hd.
  now rewrite TimeClip_clock.
Qed.

Lemma upserted_localDay (values : Values) (w w' : World) :
  deviceOk w -> v_date values = None -> LocalTZA w' = LocalTZA w ->
  localDay w' (upserted values w) = Some (today w).
Proof.
  intros Hok Hd Hz. unfold localDay.
  rewrite Hz, (upserted_dateKey values w Hok Hd).
  rewrite (localDateFromDateKey_today w Hok). unfold localMidnight.
  cbn [fmap option_fmap option_map].
  now rewrite LocalTime_UTC, Day_midnight.
Qed.

(** A valid cutoff is the start of today or of an earlier day. *)
Lemma purgeCutoff_day (days : option Js.number) (w : World) :
  deviceOk w -> purgeCutoff days w <> None ->
  exists day, day <= today w /\ purgeCutoff days w = localMidnight w day.
Proof.
  intros Hok. rewrite purgeCutoff_eq by exact Hok.
  set (D := date (civil (today w))). clearbody D.
  destruct (Js.Math_max (Js.int 1) (default (Js.int 90) days))
    as [m | | | ] eqn:Hmax; try (cbn; congruence).
  apply Math_max_1_ge in Hmax.
  assert (Js.Qtrunc (inject_Z D - (m - inject_Z 1)) <= D) as Hle.
  { rewrite <- (Qtrunc_inject_Z D) at 2.
    apply Qtrunc_le.
    rewrite <- (Qplus_0_r (inject_Z D)) at 2.
    unfold Qminus. apply Qplus_le_r.
    apply (Qopp_le_compat 0). destruct m as [n d].
    unfold Qle in *. cbn in *. lia. }
  unfold Js.sub, Js.int.
  set (steps := Js.Qtrunc (inject_Z D - (m - inject_Z 1))) in *.
  clearbody steps. intros Hvalid.
  exists (today w - D + steps). split; [lia | ].
  unfold TimeClip, localMidnight in *.
  destruct (_ <=? _); [reflexivity | congruence].
Qed.

Lemma head_filter_kept (key : string) (f : DailyCheckin -> bool)
    (l : list DailyCheckin) (x : DailyCheckin) :
  head (filter (fun c => dateKey c = key) l) = Some x -> f x = true ->
  head (filter (fun c => dateKey c = key) (List.filter f l)) = Some x.
Proof.
  intros Hhead Hx. induction l as [ | y r IH]; [discriminate | ].
  rewrite filter_cons in Hhead. cbn [List.filter].
  destruct (decide (dateKey y = key)) as [Hy | Hy].
  - injection Hhead as ->. rewrite Hx.
    now rewrite filter_cons, decide_True by exact Hy.
  - destruct (f y); [rewrite filter_cons, decide_False by exact Hy | ];
      now apply IH.
Qed.

Lemma upserted_first (values : Values) (w : World) :
  finiteValues values ->
  head (checkinsOf (dateKey (upserted values w))
          (after (upsertTodayCheckin values) w))
  = Some (upserted values w).
Proof.
  intros Hv. unfold checkinsOf.
  rewrite checkins_after_upsert_any.
  rewrite <- list_find_head_filter. now apply list_find_upsertedAll.
Qed.

(** A purge on the day of an upsert keeps the record of the upsert, and
    keeps it first of its key. *)
Lemma purge_keeps_today (values : Values) (days : option Js.number)
    (later : Z) (w : World) :
  deviceOk w -> finiteValues values -> v_date values = None ->
  let w1 := atTime later (after (upsertTodayCheckin values) w) in
  deviceOk w1 -> today w1 = today w -> purgeCutoff days w1 <> None ->
  head (checkinsOf (dateKey (upserted values w))
          (after (purgeCheckinsOlderThan days) w1))
  = Some (upserted values w).
Proof.
  intros Hok Hv Hd w1 Hok1 Htoday Hvalid.
  destruct (purgeCutoff_day days w1 Hok1 Hvalid) as (day & Hday & Hcut).
  unfold checkinsOf. rewrite checkins_after_purge
    by (unfold w1; rewrite checkins_atTime;
        apply checkins_after_upsert_finite).
  apply head_filter_kept.
  - unfold w1. rewrite checkins_atTime. now apply upserted_first.
  - rewrite Hcut, onOrAfter_localMidnight. unfold keptOn.
    rewrite (upserted_localDay values w w1 Hok Hd).
    + apply Z.leb_le. lia.
    + unfold w1, after. now rewrite upsertTodayCheckin_eq.
Qed.
End Today.

(** X13. Writing a date as a key and reading the key gives the start of
    the local day of the date, for every valid date of the year 100 or a
    later one, in a zone within a day of UTC; and the key of the date that
    was read is the key again. *)
Theorem dateKey_round_trip (tza tv : Z) :
  - Date.msPerDay <= tza <= Date.msPerDay -> Z.abs tv <= Date.maxTime ->
  100 <= Date.YearFromTime (Date.LocalTime tza tv) ->
  let key := CheckinStorage.getLocalDateKey tza (Some tv) in
  CheckinStorage.localDateFromDateKey tza key
  = Some (Date.UTC tza (Date.Day (Date.LocalTime tza tv) * Date.msPerDay))
  /\ CheckinStorage.getLocalDateKey tza
       (CheckinStorage.localDateFromDateKey tza key) = key.
Proof.
  intros Htz Htv Hy key.
  pose proof (localDateFromDateKey_getLocalDateKey tza tv Htz Htv Hy) as H.
  fold key in H. split; [exact H | ]. rewrite H. unfold key.
  apply getLocalDateKey_same_day.
  now rewrite LocalTime_UTC, Day_midnight.
Qed.

(** X14. A check-in saved for now is not purged on the day it was saved:
    after [upsertTodayCheckin] without a date and with finite values,
    [purgeCheckinsOlderThan], run at any later time of the same local day
    with any number of days that gives a valid cutoff, keeps the record,
    and [loadCheckinForDate] on its key still returns it. *)
Theorem todays_checkin_survives_purge
    (values : CheckinStorage.Values) (days : option Js.number)
    (later : Z) (w : World) :
  deviceOk w -> finiteValues values ->
  CheckinStorage.v_date values = None ->
  let w1 := atTime later (after (CheckinStorage.upsertTodayCheckin values) w) in
  deviceOk w1 -> today w1 = today w -> purgeCutoff days w1 <> None ->
  let w2 := after (CheckinStorage.purgeCheckinsOlderThan days) w1 in
  upserted values w ∈ checkins w2
  /\ result (CheckinStorage.loadCheckinForDate
               (CheckinStorage.dateKey (upserted values w))) w2
     = Normal (Some (upserted values w)).
Proof.
  intros Hok Hv Hd w1 Hok1 Htoday Hvalid w2.
  pose proof (purge_keeps_today values days later w Hok Hv Hd Hok1 Htoday
                Hvalid) as Hhead.
  fold w1 in Hhead. fold w2 in Hhead. split.
  - unfold checkinsOf in Hhead.
    destruct (filter _ (checkins w2)) as [ | x r] eqn:Hf; [discriminate | ].
    injection Hhead as ->.
    assert (upserted values w ∈ filter
              (fun c => CheckinStorage.dateKey c
                        = CheckinStorage.dateKey (upserted values w))
              (checkins w2)) as Hin
      by (rewrite Hf; apply list_elem_of_here).
    now apply list_elem_of_filter in Hin.
  - now rewrite loadCheckinForDate_head, Hhead.
Qed.

(** X15. What the Save button saves is shown when the home screen loads
    again on the same local day: [loadInitial] then purges with 90 days,
    finds a check-in for today's key, and that check-in has the energy,
    mood and focus that were saved; the count it shows is not zero. *)
Theorem saved_checkin_is_shown_again
    (energy mood focus : Js.number) (later : Z) (w : World) :
  deviceOk w ->
  Js.isFinite energy = true -> Js.isFinite mood = true ->
  Js.isFinite focus = true ->
  let w1 := atTime later (after (HomeScreen.onPressSave energy mood focus) w) in
  deviceOk w1 -> today w1 = today w ->
  exists count existing,
    result HomeScreen.loadInitial w1 = Normal (count, Some existing)
    /\ CheckinStorage.energy existing = energy
    /\ CheckinStorage.mood existing = mood
    /\ CheckinStorage.focus existing = focus
    /\ CheckinStorage.dateKey existing
       = CheckinStorage.getLocalDateKey (LocalTZA w) (Some (clock w))
    /\ (0 < count)%nat.
Proof.
  intros Hok He Hm Hf.
  set (values := {| CheckinStorage.v_energy := energy;
                    CheckinStorage.v_mood := mood;
                    CheckinStorage.v_focus := focus;
                    CheckinStorage.v_date := None |}).
  assert (after (HomeScreen.onPressSave energy mood focus) w
          = after (CheckinStorage.upsertTodayCheckin values) w) as ->.
  { unfold after, HomeScreen.onPressSave, bind. fold values.
    rewrite upsertTodayCheckin_eq, loadAllCheckins_eq. reflexivity. }
  intros w1 Hok1 Htoday.
  assert (finiteValues values) as Hv by now repeat split.
  assert (purgeCutoff (Some (Js.int 90)) w1 <> None) as Hvalid.
  { rewrite purgeCutoff_int by (exact Hok1 || lia). discriminate. }
  pose proof (purge_keeps_today values (Some (Js.int 90)) later w Hok Hv
                eq_refl Hok1 Htoday Hvalid) as Hhead.
  fold w1 in Hhead.
  set (w2 := after (CheckinStorage.purgeCheckinsOlderThan
                      (Some (Js.int 90))) w1) in *.
  assert (LocalTZA w2 = LocalTZA w) as Hz.
  { unfold w2. rewrite LocalTZA_after_purge. unfold w1, after.
    now rewrite upsertTodayCheckin_eq. }
  assert (clock w2 = later) as Hc
    by (unfold w2; now rewrite clock_after_purge).
  assert (CheckinStorage.getLocalDateKey (LocalTZA w2)
            (Date.TimeClip (Some (clock w2)))
          = CheckinStorage.dateKey (upserted values w)) as Hkey.
  { rewrite (upserted_dateKey values w Hok eq_refl).
    assert (deviceOk w2) as Hok2.
    { unfold deviceOk in *. rewrite Hz, Hc.
      change (clock w1) with later in Hok1.
      assert (LocalTZA w1 = LocalTZA w) as Hz1
        by (unfold w1, after; now rewrite upsertTodayCheckin_eq).
      now rewrite Hz1 in Hok1. }
    rewrite (TimeClip_clock w2 Hok2), Hz.
    apply getLocalDateKey_same_day.
    assert (today w1 = Date.Day (Date.LocalTime (LocalTZA w) later)) as E.
    { unfold today, w1, after. now rewrite upsertTodayCheckin_eq. }
    rewrite Hc, <- E, Htoday. reflexivity. }
  exists (length (checkins w2)), (upserted values w).
  split; [ | split; [reflexivity | split; [reflexivity | split;
    [reflexivity | split]]]].
  - unfold result, HomeScreen.loadInitial, bind at 1.
    destruct (CheckinStorage.purgeCheckinsOlderThan (Some (Js.int 90)) w1)
      as [c wp] eqn:Hp.
    assert (wp = w2) as -> by (unfold w2, after; now rewrite Hp).
    assert (exists n, c = Normal n) as [n ->].
    { pose proof (purgeCheckinsOlderThan_eq (Some (Js.int 90)) w1) as E.
      cbn zeta in E. rewrite Hp in E.
      destruct (_ =? _)%nat; injection E as -> _; eauto. }
    unfold bind, Date_new, asks, ret. cbv beta iota. rewrite Hkey.
    rewrite loadCheckinForDate_eq, loadAllCheckins_eq. cbn [fst snd].
    rewrite list_find_head_filter. fold (checkinsOf
      (CheckinStorage.dateKey (upserted values w)) w2).
    now rewrite Hhead.
  - now apply (upserted_dateKey values w Hok).
  - unfold checkinsOf in Hhead.
    destruct (checkins w2); [discriminate | cbn; lia].
Qed.

(** ** What a purge removes and writes, whatever the number of days *)

Section PurgeAny.
Import Date CheckinStorage.

Lemma purge_account (days : option Js.number) (w : World) :
  let kept := List.filter (onOrAfter (purgeCutoff days w) w) (checkins w) in
  let w' := after (purgeCheckinsOlderThan days) w in
  result (purgeCheckinsOlderThan days) w
  = Normal (Z.of_nat (length (checkins w)) - Z.of_nat (length kept))
  /\ (length kept = length (checkins w) -> w' = w)
  /\ (length kept <> length (checkins w) ->
      exists text,
        storage w' = <[STORAGE_KEY := text]> (storage w)
        /\ journal w' = SetItem STORAGE_KEY text :: journal w
        /\ platform w' = platform w).
Proof.
  intros kept w'.
  unfold w', after, result. rewrite purgeCheckinsOlderThan_eq. cbn zeta.
  fold kept.
  destruct (Nat.eqb_spec (length kept) (length (checkins w))) as [E | E];
    cbn [fst snd].
  - split; [f_equal; lia | ]. split; [reflexivity | congruence].
  - split; [reflexivity | ]. split; [congruence | ]. intros _.
    eexists. now repeat split.
Qed.

Lemma purgeCutoff_not_a_number (days : Js.number) (w : World) :
  days = Js.NaN \/ days = Js.Infinity -> purgeCutoff (Some days) w = None.
Proof.
  unfold purgeCutoff. cbn zeta.
  destruct (make _ _ _ _) as [c | ]; [ | reflexivity].
  intros [-> | ->]; reflexivity.
Qed.

End PurgeAny.

(** X16. Whatever the number of days and the state of the device,
    [purgeCheckinsOlderThan] returns the number of check-ins whose date is
    not on or after its cutoff. When there is none it leaves the world as
    it is, without a write. When there is one it writes once, under the
    key of the check-ins; what is read afterwards are the other check-ins
    in their order, without those that hold a number that is not finite,
    which are written with [null]. So in a store whose numbers are finite
    the purge leaves exactly the check-ins on or after the cutoff, and
    returns by how many the store has shrunk. *)
Theorem purge_accounts_for_what_it_removes
    (days : option Js.number) (w : World) :
  let purge := CheckinStorage.purgeCheckinsOlderThan days in
  let kept := List.filter (onOrAfter (purgeCutoff days w) w) (checkins w) in
  let w' := after purge w in
  result purge w
  = Normal (Z.of_nat (length (checkins w)) - Z.of_nat (length kept))
  /\ sublist kept (checkins w)
  /\ sublist (checkins w') kept
  /\ (length kept = length (checkins w) -> w' = w)
  /\ (length kept <> length (checkins w) ->
      checkins w' = filter finiteCheckin kept
      /\ exists text,
           storage w' = <[CheckinStorage.STORAGE_KEY := text]> (storage w)
           /\ journal w'
              = SetItem CheckinStorage.STORAGE_KEY text :: journal w)
  /\ (Forall finiteCheckin (checkins w) ->
      checkins w' = kept
      /\ result purge w
         = Normal (Z.of_nat (length (checkins w))
                   - Z.of_nat (length (checkins w')))).
Proof.
  intros purge kept w'.
  destruct (purge_account days w) as (Hres & Hsame & Hw).
  fold kept in Hres, Hsame, Hw. fold w' in Hsame, Hw. fold purge in Hres.
  split; [exact Hres | ]. split; [apply filter_sublist | ].
  split; [apply checkins_after_purge_sublist | ].
  split; [exact Hsame | ]. split.
  - intros Hne. split.
    + unfold w', purge. rewrite checkins_after_purge_any. cbn zeta.
      fold kept. now rewrite (proj2 (Nat.eqb_neq _ _) Hne).
    + destruct (Hw Hne) as (text & Hst & Hjo & _). now exists text.
  - intros Hfin.
    assert (checkins w' = kept) as Hleft
      by now apply checkins_after_purge.
    split; [exact Hleft | ]. now rewrite Hleft.
Qed.

(** X17. A number of days that is [NaN] or [Infinity] gives no valid
    cutoff, and no date is on or after an invalid one: the purge then
    removes every check-in and returns how many there were. *)
Theorem purge_not_a_number_removes_everything
    (days : Js.number) (w : World) :
  days = Js.NaN \/ days = Js.Infinity ->
  purgeCutoff (Some days) w = None
  /\ checkins (after (CheckinStorage.purgeCheckinsOlderThan (Some days)) w)
     = []
  /\ result (CheckinStorage.purgeCheckinsOlderThan (Some days)) w
     = Normal (Z.of_nat (length (checkins w))).
Proof.
  intros Hdays. pose proof (purgeCutoff_not_a_number days w Hdays) as Hcut.
  split; [exact Hcut | ]. now apply purge_no_cutoff.
Qed.

(** ** The two stores *)

Section TwoStores.
Import CheckinStorage.

Lemma storedSettings_lookup (w w' : World) :
  storage w' !! ReminderStorage.STORAGE_KEY
  = storage w !! ReminderStorage.STORAGE_KEY ->
  storedSettings w' = storedSettings w.
Proof.
  intros Hst. unfold storedSettings, result,
    ReminderStorage.loadReminderSettings, bind, AsyncStorage.getItem, asks.
  rewrite Hst.
  destruct (storage w !! ReminderStorage.STORAGE_KEY) as [[raw | v] | ];
    [destruct raw; reflexivity | | reflexivity].
  destruct v; reflexivity.
Qed.

Lemma checkins_lookup (w w' : World) :
  storage w' !! STORAGE_KEY = storage w !! STORAGE_KEY ->
  collation w' = collation w ->
  checkins w' = checkins w.
Proof. intros Hst Hc. now rewrite !checkins_eq, Hst, Hc. Qed.

Lemma keys_differ : STORAGE_KEY <> ReminderStorage.STORAGE_KEY.
Proof. discriminate. Qed.

Lemma storedSettings_written (v : Json.text) (w : World) :
  storedSettings (written STORAGE_KEY v w) = storedSettings w
  /\ platform (written STORAGE_KEY v w) = platform w.
Proof.
  split; [ | reflexivity]. apply storedSettings_lookup.
  unfold written, after, AsyncStorage.setItem. cbn [snd storage].
  apply lookup_insert_ne, keys_differ.
Qed.
End TwoStores.

(** X18. Check-ins and reminder settings are stored under different keys
    and do not disturb each other: [upsertTodayCheckin],
    [purgeCheckinsOlderThan] and [clearAllCheckins] leave the stored
    reminder settings and the platform as they are, and
    [saveReminderSettings], [scheduleDailyReminder] and
    [cancelAllReminders] leave the check-ins as they are. *)
Theorem stores_are_separate (w : World) :
  (forall values,
     let w' := after (CheckinStorage.upsertTodayCheckin values) w in
     storedSettings w' = storedSettings w /\ platform w' = platform w)
  /\ (forall days,
        let w' := after (CheckinStorage.purgeCheckinsOlderThan days) w in
        storedSettings w' = storedSettings w /\ platform w' = platform w)
  /\ (let w' := after CheckinStorage.clearAllCheckins w in
      storedSettings w' = storedSettings w /\ platform w' = platform w)
  /\ (forall s,
        checkins (after (ReminderStorage.saveReminderSettings s) w)
        = checkins w)
  /\ (forall h m,
        checkins (after (ReminderStorage.scheduleDailyReminder h m) w)
        = checkins w)
  /\ checkins (after ReminderStorage.cancelAllReminders w) = checkins w.
Proof.
  split; [ | split; [ | split; [ | split; [ | split]]]].
  - intros values w'. unfold w', after. rewrite upsertTodayCheckin_eq.
    apply storedSettings_written.
  - intros days w'. unfold w', after. rewrite purgeCheckinsOlderThan_eq.
    cbn zeta. destruct (_ =? _)%nat; [now split | ].
    apply storedSettings_written.
  - cbn zeta. split; [ | reflexivity]. apply storedSettings_lookup.
    unfold after, CheckinStorage.clearAllCheckins, AsyncStorage.removeItem.
    cbn [snd storage]. apply lookup_delete_ne, keys_differ.
  - intros s. apply checkins_lookup; [ | reflexivity].
    unfold after, ReminderStorage.saveReminderSettings,
      AsyncStorage.setItem. cbn [snd storage].
    apply lookup_insert_ne. intros E. now apply keys_differ.
  - intros h m.
    destruct (scheduleDailyReminder_storage h m w) as (Hst & _ & _ & Hc).
    apply checkins_lookup; [now rewrite Hst | exact Hc].
  - destruct (cancelAllReminders_any w) as (n & w' & Hrun & Hsame & _).
    unfold after. rewrite Hrun. cbn [snd]. apply checkins_lookup.
    + now destruct Hsame as (-> & _).
    + apply Hsame.
Qed.

(** X19. [clearAllCheckins] empties the store: afterwards there is no
    check-in, [loadCheckinForDate] returns null for every key, a purge
    returns 0 and writes nothing, and the first upsert (with finite
    values) leaves exactly its own record. *)
Theorem clear_empties_the_store (w : World) :
  let w' := after CheckinStorage.clearAllCheckins w in
  result CheckinStorage.clearAllCheckins w = Normal tt
  /\ result CheckinStorage.loadAllCheckins w' = Normal []
  /\ (forall key,
        result (CheckinStorage.loadCheckinForDate key) w' = Normal None)
  /\ (forall days,
        result (CheckinStorage.purgeCheckinsOlderThan days) w' = Normal 0
        /\ after (CheckinStorage.purgeCheckinsOlderThan days) w' = w')
  /\ (forall values,
        finiteValues values ->
        checkins (after (CheckinStorage.upsertTodayCheckin values) w')
        = [upserted values w']).
Proof.
  intros w'. pose proof (checkins_after_clear w) as Hnone. fold w' in Hnone.
  split; [reflexivity | ]. split; [ | split; [ | split]].
  - unfold result. now rewrite loadAllCheckins_eq, Hnone.
  - intros key. unfold result. now rewrite loadCheckinForDate_eq, Hnone.
  - intros days. unfold result, after.
    rewrite purgeCheckinsOlderThan_eq. cbn zeta. rewrite Hnone.
    now split.
  - intros values Hv.
    rewrite checkins_after_upsert by (exact Hv || (rewrite Hnone; constructor)).
    unfold upsertedAll. rewrite Hnone. reflexivity.
Qed.

(** ** The summary screen *)

Section Summary.
Import Date CheckinStorage SummaryScreen.







Lemma newestFirst_total (c : Str.Collation) (a b : DailyCheckin) :
  0 < newestFirst c a b -> dateKeyGe c b a.
Proof. apply localeCompare_total. Qed.

Lemma newestFirst_trans (c : Str.Collation) (a b d : DailyCheckin) :
  dateKeyGe c a b -> dateKeyGe c b d -> dateKeyGe c a d.
Proof.
  unfold dateKeyGe. intros Hab Hbd.
  exact (localeCompare_trans c _ _ _ Hbd Hab).
Qed.

Lemma newestFirst_sorted (c : Str.Collation) (l : list DailyCheckin) :
  StronglySorted (dateKeyGe c) (Array_sort (newestFirst c) l).
Proof.
  apply Array_sort_StronglySorted.
  - exact (newestFirst_total c).
  - exact (newestFirst_trans c).
Qed.

Lemma load_eq (w : World) :
  load w
  = (Normal (Array_sort (newestFirst (collation w))
               (checkins (after (purgeCheckinsOlderThan (Some (Js.int 90)))
                            w))),
     after (purgeCheckinsOlderThan (Some (Js.int 90))) w).
Proof.
  unfold load, bind at 1, after.
  pose proof (purgeCheckinsOlderThan_eq (Some (Js.int 90)) w) as E.
  cbn zeta in E.
  destruct (purgeCheckinsOlderThan (Some (Js.int 90)) w) as [c w2].
  assert (exists n, c = Normal n) as [n ->]
    by (destruct (_ =? _)%nat; injection E as -> _; eauto).
  unfold bind, asks, ret. rewrite loadAllCheckins_eq. cbv beta iota.
  assert (collation w2 = collation w) as ->; [ | reflexivity].
  destruct (_ =? _)%nat; now injection E as _ ->.
Qed.

(** The cutoff of the summary for a range of [k] days. *)
Lemma rangeData_eq (all : list DailyCheckin) (k : Z) (w : World) :
  deviceOk w -> 1 <= k <= 100000000 ->
  let kept := List.filter (keptOn (today w - (k - 1)) w) all in
  rangeData all (Js.int k) w
  = (Normal {| inRange := kept; count := length kept;
               energyAvg := average (map energy kept);
               moodAvg := average (map mood kept);
               focusAvg := average (map focus kept) |}, w).
Proof.
  intros Hok Hk kept.
  pose proof (purgeCutoff_int k w Hok ltac:(lia)) as Hcut.
  rewrite Z.max_r in Hcut by lia.
  unfold purgeCutoff in Hcut. cbn zeta in Hcut.
  change (default (Js.int 90) (Some (Js.int k))) with (Js.int k) in Hcut.
  rewrite Math_max_int, Z.max_r in Hcut by lia.
  unfold rangeData, bind, Date_new, asks, ret. cbv beta iota zeta.
  rewrite Hcut.
  assert (List.filter
            (fun c => Date.ge (localDateFromDateKey (LocalTZA w) (dateKey c))
                              (localMidnight w (today w - (k - 1)))) all
          = kept) as ->; [ | reflexivity].
  apply filter_ext_bool. intros c.
  apply (onOrAfter_localMidnight w (today w - (k - 1)) c).
Qed.

Lemma filter_all {A} (f : A -> bool) (l : list A) :
  (forall x, In x l -> f x = true) -> List.filter f l = l.
Proof.
  induction l as [ | x r IH]; intros H; [reflexivity | ].
  cbn. rewrite (H x) by now left. f_equal. apply IH.
  intros y Hy. apply H. now right.
Qed.
End Summary.


(** X21. Loading the summary purges with 90 days and hands over the
    check-ins that are left, each once, newest first: no key collates
    before the key of a later item in the collation of the device, which
    on a device that collates the keys it reads by their code units is
    the descending order of the code units. The storage taken to work, it
    does not reject. *)
Theorem summary_load_newest_first (w : World) :
  let purge := CheckinStorage.purgeCheckinsOlderThan (Some (Js.int 90)) in
  exists items,
    result SummaryScreen.load w = Normal items
    /\ after SummaryScreen.load w = after purge w
    /\ StronglySorted (dateKeyGe (collation w)) items
    /\ ((forall a b,
           a ∈ items -> b ∈ items ->
           Str.compare (collation w) (CheckinStorage.dateKey a)
                       (CheckinStorage.dateKey b)
           = Str.compareCodeUnits (CheckinStorage.dateKey a)
                                  (CheckinStorage.dateKey b)) ->
        StronglySorted
          (fun a b => String.compare (CheckinStorage.dateKey b)
                                     (CheckinStorage.dateKey a) <> Gt)
          items)
    /\ Permutation items (checkins (after purge w)).
Proof.
  intros purge. eexists. unfold result, after at 1. rewrite load_eq.
  split; [reflexivity | ]. split; [reflexivity | ].
  split; [apply newestFirst_sorted | ]. split.
  - intros Hcode.
    eapply StronglySorted_weaken; [ | apply newestFirst_sorted].
    intros x y Hx Hy Hxy. unfold dateKeyGe in Hxy.
    rewrite (Hcode y x Hy Hx) in Hxy. unfold Str.compareCodeUnits in Hxy.
    destruct (String.compare _ _); [discriminate | discriminate | lia].
  - apply Array_sort_Permutation.
Qed.


(** X23. The range of 90 days leaves nothing out: every check-in that
    loading the summary hands over is in the 90-day range when the range
    is computed later on the same local day, because the purge before the
    load and the range use the same cutoff. *)
Theorem ninety_day_range_shows_everything (later : Z) (w : World) :
  deviceOk w ->
  let w1 := atTime later (after SummaryScreen.load w) in
  deviceOk w1 -> today w1 = today w ->
  exists items data,
    result SummaryScreen.load w = Normal items
    /\ result (SummaryScreen.rangeData items (Js.int 90)) w1 = Normal data
    /\ SummaryScreen.inRange data = items
    /\ SummaryScreen.count data = length items.
Proof.
  intros Hok w1 Hok1 Htoday.
  set (w2 := after (CheckinStorage.purgeCheckinsOlderThan
                      (Some (Js.int 90))) w).
  assert (after SummaryScreen.load w = w2) as Hafter
    by (unfold after; now rewrite load_eq).
  assert (LocalTZA w1 = LocalTZA w) as Hz.
  { unfold w1. rewrite Hafter. apply LocalTZA_after_purge. }
  exists (Array_sort (SummaryScreen.newestFirst (collation w)) (checkins w2)).
  eexists. split; [unfold result; now rewrite load_eq | ].
  unfold result. rewrite (rangeData_eq _ 90 w1 Hok1 ltac:(lia)).
  cbn [fst SummaryScreen.inRange SummaryScreen.count].
  assert (List.filter (keptOn (today w1 - (90 - 1)) w1)
            (Array_sort (SummaryScreen.newestFirst (collation w)) (checkins w2))
          = Array_sort (SummaryScreen.newestFirst (collation w)) (checkins w2)) as ->;
    [ | now repeat split].
  apply filter_all. intros c Hc.
  apply list_elem_of_In in Hc.
  rewrite (Array_sort_Permutation (SummaryScreen.newestFirst (collation w))) in Hc.
  pose proof (purgeCutoff_int 90 w Hok ltac:(lia)) as Hcut.
  destruct (purge_at_cutoffDay _ w _ Hcut) as (_ & _ & _ & _ & Hsub).
  fold w2 in Hsub. apply (fun H => elem_of_sublist _ _ _ H Hsub) in Hc.
  apply list_elem_of_In, filter_In in Hc as [_ Hkept].
  rewrite Htoday, (keptOn_same_zone _ w w1 c Hz).
  rewrite Z.max_r in Hkept by lia. exact Hkept.
Qed.

(** ** Values that are no finite numbers *)

Section NotFinite.
Import CheckinStorage.

Lemma checkins_of_written (l : list DailyCheckin) (w : World)
    (c : DailyCheckin) :
  c ∈ checkins (written STORAGE_KEY (stringify l) w) ->
  c ∈ l /\ finiteCheckin c.
Proof.
  rewrite checkins_written_any.
  rewrite (Array_sort_Permutation (byDateKey (collation w))).
  intros Hc. apply list_elem_of_filter in Hc as [Hfin Hc]. now split.
Qed.

Lemma upserted_not_finite (values : Values) (w : World) :
  ~ finiteValues values -> ~ finiteCheckin (upserted values w).
Proof.
  intros Hv (He & Hm & Hf & _). apply Hv. now repeat split.
Qed.

(** No other record of the key of a lost upsert is left in a store that
    had one check-in per day. *)
Lemma upsertedAll_only_next (values : Values) (w : World)
    (c : DailyCheckin) :
  onePerDay w -> c ∈ upsertedAll values w ->
  dateKey c = dateKey (upserted values w) -> c = upserted values w.
Proof.
  unfold onePerDay, upsertedAll. intros Hnd Hc Hkey.
  destruct (list_find _ _) as [[i old] | ] eqn:Hfind.
  - apply list_find_Some in Hfind as (Hi & Hk & _).
    apply list_elem_of_lookup in Hc as (j & Hj).
    destruct (decide (j = i)) as [-> | Hne].
    + rewrite list_lookup_insert_eq in Hj
        by (eapply lookup_lt_Some; eassumption).
      now injection Hj as <-.
    + rewrite list_lookup_insert_ne in Hj by congruence.
      exfalso. apply Hne.
      apply (NoDup_lookup _ j i (dateKey c) Hnd);
        rewrite list_lookup_fmap; [now rewrite Hj | ].
      rewrite Hi. cbn. congruence.
  - apply list_find_None in Hfind. rewrite Forall_forall in Hfind.
    apply elem_of_app in Hc as [Hc | Hc].
    + now apply Hfind in Hc.
    + now apply list_elem_of_singleton in Hc.
Qed.
End NotFinite.

(** X24. [upsertTodayCheckin] does not check its values. A value that is
    no finite number ([NaN], an infinity) is written as [null], so the
    record that the call returns is not among the check-ins afterwards;
    in a store with one check-in per day, [loadCheckinForDate] then finds
    nothing for that day, also when the day had a check-in before. *)
Theorem upsert_of_non_finite_values_is_lost
    (values : CheckinStorage.Values) (w : World) :
  ~ finiteValues values ->
  let w' := after (CheckinStorage.upsertTodayCheckin values) w in
  result (CheckinStorage.upsertTodayCheckin values) w
  = Normal (upserted values w)
  /\ (upserted values w ∉ checkins w')
  /\ (onePerDay w ->
      result (CheckinStorage.loadCheckinForDate
                (CheckinStorage.dateKey (upserted values w))) w'
      = Normal None).
Proof.
  intros Hv w'. pose proof (upserted_not_finite values w Hv) as Hnext.
  assert (w' = written CheckinStorage.STORAGE_KEY
                 (CheckinStorage.stringify (upsertedAll values w)) w) as Hw'
    by (unfold w', after; now rewrite upsertTodayCheckin_eq).
  split; [unfold result; now rewrite upsertTodayCheckin_eq | ]. split.
  - rewrite Hw'. intros Hin. now apply checkins_of_written in Hin as [_ Hf].
  - intros Hone. rewrite loadCheckinForDate_head.
    destruct (checkinsOf _ w') as [ | c r] eqn:Hof; [reflexivity | ].
    exfalso.
    assert (c ∈ checkinsOf
              (CheckinStorage.dateKey (upserted values w)) w') as Hc
      by (rewrite Hof; apply list_elem_of_here).
    apply list_elem_of_filter in Hc as [Hkey Hc]. rewrite Hw' in Hc.
    apply checkins_of_written in Hc as [Hc Hfin].
    apply (upsertedAll_only_next values w c Hone Hc) in Hkey.
    now subst c.
Qed.

(** X25. The count that the Save button shows, with finite values. It
    is at least 1 and at most one more than the number of check-ins
    before. In a store whose numbers are finite, as the application
    writes them, it is the number of check-ins before when today already
    had one, and one more otherwise; a stored check-in with a number that
    is not finite is written back with [null] and is not counted. *)
Theorem save_button_count
    (energy mood focus : Js.number) (w : World) :
  Js.isFinite energy = true -> Js.isFinite mood = true ->
  Js.isFinite focus = true ->
  let values := {| CheckinStorage.v_energy := energy;
                   CheckinStorage.v_mood := mood;
                   CheckinStorage.v_focus := focus;
                   CheckinStorage.v_date := None |} in
  exists n,
    result (HomeScreen.onPressSave energy mood focus) w = Normal n
    /\ (1 <= n <= S (length (checkins w)))%nat
    /\ n = length (filter finiteCheckin (upsertedAll values w))
    /\ (Forall finiteCheckin (checkins w) ->
        n = if bool_decide
                 (CheckinStorage.dateKey (upserted values w)
                  ∈ CheckinStorage.dateKey <$> checkins w)
            then length (checkins w)
            else S (length (checkins w))).
Proof.
  intros He Hm Hf values.
  assert (finiteValues values) as Hv by now repeat split.
  exists (length (filter finiteCheckin (upsertedAll values w))).
  assert (length (upsertedAll values w)
          = if bool_decide
                 (CheckinStorage.dateKey (upserted values w)
                  ∈ CheckinStorage.dateKey <$> checkins w)
            then length (checkins w)
            else S (length (checkins w))) as Hlen.
  { rewrite <- (length_fmap CheckinStorage.dateKey), upsertedAll_keys.
    cbn zeta. case_bool_decide.
    - apply length_fmap.
    - rewrite length_app, length_fmap. cbn. lia. }
  split; [ | split; [ | split; [reflexivity | ]]].
  - unfold result, HomeScreen.onPressSave, bind. fold values.
    rewrite upsertTodayCheckin_eq, loadAllCheckins_eq. unfold ret.
    cbn [fst]. f_equal. rewrite checkins_written_any.
    now rewrite (Array_sort_Permutation
                   (CheckinStorage.byDateKey (collation w))).
  - split.
    + assert (upserted values w
              ∈ filter finiteCheckin (upsertedAll values w)) as Hin.
      { apply list_elem_of_filter.
        split; [now apply upserted_finite | apply upserted_in_upsertedAll]. }
      destruct (filter finiteCheckin (upsertedAll values w));
        [now apply elem_of_nil in Hin | cbn; lia].
    + etransitivity; [apply length_filter | ]. rewrite Hlen.
      case_bool_decide; lia.
  - intros Hall.
    now rewrite filter_finite_id by now apply upsertedAll_finite.
Qed.

(** ** Permission and channel *)

(** X26. [requestReminderPermissions] asks the user only when permission
    is not there yet: with permission it returns true and changes nothing;
    without, it returns the user's answer. What it returns is what
    [hasReminderPermissions] returns afterwards, and it touches neither
    the schedules nor the storage. *)
Theorem requestReminderPermissions_asks_when_needed
    (answer : bool) (w : World) :
  let w' := after (Permissions.requestReminderPermissions answer) w in
  result (Permissions.requestReminderPermissions answer) w
  = Normal (Notifications.granted (platform w) || answer)
  /\ (Notifications.granted (platform w) = true -> w' = w)
  /\ result ReminderStorage.hasReminderPermissions w'
     = Normal (Notifications.granted (platform w) || answer)
  /\ Notifications.scheduled (platform w')
     = Notifications.scheduled (platform w)
  /\ storage w' = storage w /\ journal w' = journal w.
Proof.
  unfold result, after. rewrite requestReminderPermissions_eq. cbn [fst snd].
  destruct (Notifications.granted (platform w)) eqn:Hg.
  - repeat split. unfold ReminderStorage.hasReminderPermissions,
      NotificationsApi.getPermissionsAsync, asks. cbn. now rewrite Hg.
  - repeat split. discriminate.
Qed.

(** X27. A reminder scheduled on Android names the channel "reminders",
    and that channel exists when the schedule is made; if the channel
    cannot be set nothing is scheduled. On other systems the schedule
    names no channel and no channel is set. The returned identifier is
    the one of the new schedule. *)
Theorem reminder_names_an_existing_channel
    (hour minute : Js.number) (w : World) :
  let run := ReminderStorage.scheduleDailyReminder hour minute in
  (forall id,
     result run w = Normal id ->
     exists new h m,
       Notifications.scheduled (platform (after run w))
       = (Notifications.scheduled (platform w) ++ [new])%list
       /\ Notifications.identifier new = id
       /\ if bool_decide (Notifications.OS (platform w)
                          = Notifications.android)
          then Notifications.trigger new
               = Notifications.DAILY h m (Some "reminders")
               /\ "reminders" ∈ Notifications.channels
                                  (platform (after run w))
          else Notifications.trigger new = Notifications.DAILY h m None
               /\ Notifications.channels (platform (after run w))
                  = Notifications.channels (platform w))
  /\ (Notifications.OS (platform w) = Notifications.android ->
      Notifications.failing (platform w) Notifications.SetChannel = true ->
      run w = (Throw PlatformError, w)).
Proof.
  cbn zeta.
  unfold after, result, ReminderStorage.scheduleDailyReminder,
    ReminderStorage.ensureAndroidChannel,
    NotificationsApi.setNotificationChannelAsync,
    NotificationsApi.scheduleNotificationAsync, NotificationsApi.call,
    bind, asks, NotificationsApi.update, ret.
  destruct w as [st jo [os gr sc ch iss fl] cl tz co].
  cbn [platform Notifications.OS Notifications.failing
       Notifications.scheduled Notifications.channels].
  destruct (fl Notifications.Schedule) eqn:Hs;
    destruct (fl Notifications.SetChannel) eqn:Hc;
    (destruct os;
     [ rewrite (bool_decide_true (Notifications.ios <> Notifications.android))
         by discriminate;
       rewrite (bool_decide_false (Notifications.ios = Notifications.android))
         by discriminate
     | rewrite (bool_decide_false
                  (Notifications.android <> Notifications.android))
         by (intros H; now apply H);
       rewrite (bool_decide_true
                  (Notifications.android = Notifications.android))
         by reflexivity
     | rewrite (bool_decide_true (Notifications.web <> Notifications.android))
         by discriminate;
       rewrite (bool_decide_false (Notifications.web = Notifications.android))
         by discriminate ]);
    cbn; rewrite ?Hs, ?Hc; cbn; rewrite ?Hs; cbn;
    (split;
     [ intros id Hid; try discriminate Hid; injection Hid as <-;
       eexists; eexists; eexists;
       (split; [reflexivity | ]); (split; [reflexivity | ]);
       (split; [reflexivity | ]); try reflexivity; apply list_elem_of_here
     | intros Hos Hfail; try discriminate Hos; try discriminate Hfail;
       reflexivity ]).
Qed.

(** ** Witnesses of the further statements *)

(** The sample device at a later time of the same day. *)
Ltac sample_device_later :=
  unfold deviceOk, Date.maxTime, Date.msPerDay;
  cbn [atTime clock LocalTZA];
  match goal with
  | |- context [LocalTZA ?w] =>
      assert (LocalTZA w = 3600000) as -> by (vm_compute; reflexivity)
  end;
  lia.

Lemma sampleSettings_validTime on id : validTime (sampleSettings on id).
Proof.
  exists 20, 30. unfold sampleSettings. cbn. repeat split; lia.
Defined.

(** X1 at settings for 20:30. *)
Lemma save_then_load_settings_witness :
  result ReminderStorage.loadReminderSettings
         (after (ReminderStorage.saveReminderSettings
                   (sampleSettings true (Some "a")))
                (sampleScheduled []))
  = Normal (sampleSettings true (Some "a")).
Proof.
  exact (proj2 (proj2 (save_then_load_settings
                         (sampleSettings true (Some "a"))
                         (sampleScheduled [])))
           (sampleSettings_validTime _ _)).
Defined.

(** X2 at two schedules of the app. *)
Lemma cancelAllReminders_cancels_the_apps_schedules_witness :
  reminders (after ReminderStorage.cancelAllReminders
               (sampleScheduled [sampleReminder "a"; sampleReminder "b"]))
  = [].
Proof.
  exact (proj1 (proj2 (cancelAllReminders_cancels_the_apps_schedules
                         (sampleScheduled [sampleReminder "a";
                                           sampleReminder "b"])
                         (sampleScheduled_healthy _)))).
Defined.

(** X5 at 25 hours and 30.5 minutes. *)
Lemma scheduleDailyReminder_time_in_range_witness :
  exists new h m channel,
    Notifications.scheduled
      (platform (after (ReminderStorage.scheduleDailyReminder
                          (Js.int 25) (Js.Num (61 # 2)))
                       (sampleScheduled [])))
    = ([] ++ [new])%list
    /\ result (ReminderStorage.scheduleDailyReminder
                 (Js.int 25) (Js.Num (61 # 2))) (sampleScheduled [])
       = Normal (Notifications.identifier new)
    /\ Notifications.content new
       = {| Notifications.title := Some "Reminder";
            Notifications.body := Some "Time to add today's track.";
            Notifications.sound := true;
            Notifications.data :=
              Some [("kind", Json.JString "checkin:daily-reminder-v1")] |}
    /\ ReminderStorage.isReminderRequest new = true
    /\ Notifications.trigger new
       = Notifications.DAILY (Js.int h) (Js.int m) channel
    /\ 0 <= h <= 23 /\ 0 <= m <= 59.
Proof.
  assert (Js.int 25 <> Js.NaN) as Hh by discriminate.
  assert (Js.Num (61 # 2) <> Js.NaN) as Hm by discriminate.
  exact (scheduleDailyReminder_time_in_range (Js.int 25) (Js.Num (61 # 2))
           (sampleScheduled []) (sampleScheduled_healthy _) Hh Hm).
Defined.

(** X6 at a platform without schedules. *)
Lemma scheduleDailyReminder_always_adds_witness :
  let run := ReminderStorage.scheduleDailyReminder (Js.int 20) (Js.int 0) in
  exists first second,
    result run (sampleScheduled []) = Normal (Notifications.identifier first)
    /\ result run (after run (sampleScheduled []))
       = Normal (Notifications.identifier second)
    /\ reminders (after run (after run (sampleScheduled [])))
       = (reminders (sampleScheduled []) ++ [first; second])%list
    /\ Notifications.identifier first <> Notifications.identifier second.
Proof.
  exact (proj1 (scheduleDailyReminder_always_adds (Js.int 20) (Js.int 0)
                  (sampleScheduled []))
           (sampleScheduled_healthy _)).
Defined.

Lemma sampleStored_healthy s l : healthy (sampleStored s l).
Proof. intros c. reflexivity. Defined.

(** X7 at stored settings that are switched on, with two schedules. *)
Lemma startup_reconcile_settles_witness :
  let w := sampleStored (sampleSettings true None)
             [sampleReminder "a"; sampleReminder "b"] in
  exists only,
    reminders (after RootLayout.reconcile w) = [only]
    /\ storedSettings (after RootLayout.reconcile w)
       = syncedId (storedSettings w) only
    /\ (Notifications.identifier only <> "" ->
        ReminderStorage.notificationId
          (storedSettings (after RootLayout.reconcile w))
        = Some (Notifications.identifier only))
    /\ after RootLayout.reconcile (after RootLayout.reconcile w)
       = after RootLayout.reconcile w.
Proof.
  cbn zeta.
  assert (ReminderStorage.enabled
            (storedSettings (sampleStored (sampleSettings true None)
                               [sampleReminder "a"; sampleReminder "b"]))
          = true) as He by (vm_compute; reflexivity).
  exact (proj2 (proj2 (startup_reconcile_settles
                         (sampleStored (sampleSettings true None)
                            [sampleReminder "a"; sampleReminder "b"])))
           (sampleStored_healthy _ _) eq_refl He).
Defined.

(** X8 at switching the reminder on, with two schedules left over. *)
Lemma persist_outcomes_witness :
  let w := sampleScheduled [sampleReminder "a"; sampleReminder "b"] in
  let next := sampleSettings true None in
  exists new,
    result (SettingsScreen.persist next false) w
    = Normal {| SettingsScreen.settings :=
                  Some (withId next (Notifications.identifier new));
                SettingsScreen.status := "Saved" |}
    /\ reminders (after (SettingsScreen.persist next false) w) = [new]
    /\ scheduledAt next new
    /\ storedSettings (after (SettingsScreen.persist next false) w)
       = readBack (withId next (Notifications.identifier new))
    /\ Notifications.granted
         (platform (after (SettingsScreen.persist next false) w)) = true.
Proof.
  exact (persist_outcomes (sampleSettings true None) false
           (sampleScheduled [sampleReminder "a"; sampleReminder "b"])
           (sampleScheduled_healthy _)).
Defined.

(** X9 at a platform that rejects the new schedule. *)
Lemma persist_never_rejects_witness :
  let run := SettingsScreen.persist (sampleSettings true None) true in
  result run sampleRejecting
  = Normal {| SettingsScreen.settings := None;
              SettingsScreen.status := "Error" |}
  /\ storage (after run sampleRejecting) = storage sampleRejecting
  /\ journal (after run sampleRejecting) = journal sampleRejecting.
Proof.
  exact (proj2 (persist_never_rejects (sampleSettings true None) true
                  sampleRejecting)
           eq_refl eq_refl eq_refl).
Defined.

(** X10 at switching the reminder on. *)
Lemma startup_after_persist_changes_nothing_witness :
  let w := sampleScheduled [sampleReminder "a"; sampleReminder "b"] in
  let saved := after (SettingsScreen.persist (sampleSettings true None) true)
                     w in
  after RootLayout.reconcile saved = saved.
Proof.
  exact (startup_after_persist_changes_nothing (sampleSettings true None)
           true (sampleScheduled [sampleReminder "a"; sampleReminder "b"])
           (sampleScheduled_healthy _)).
Defined.

(** X11 at a store written with two records of one day. *)
Lemma loadCheckinForDate_first_stored_witness :
  let l := [sampleCheckin "2024-01-02" 7; sampleCheckin "2024-01-01" 3;
            sampleCheckin "2024-01-02" 4] in
  let stored := omap readCheckin (elements (Json.JArray
                                              (map CheckinStorage.toJSON l))) in
  checkinsOf "2024-01-02" (sampleWorld l)
  = filter (fun c => CheckinStorage.dateKey c = "2024-01-02") stored
  /\ result (CheckinStorage.loadCheckinForDate "2024-01-02") (sampleWorld l)
     = Normal (head (filter (fun c => CheckinStorage.dateKey c = "2024-01-02")
                            stored)).
Proof.
  cbn zeta.
  assert (storage (sampleWorld [sampleCheckin "2024-01-02" 7;
                                sampleCheckin "2024-01-01" 3;
                                sampleCheckin "2024-01-02" 4])
            !! CheckinStorage.STORAGE_KEY
          = Some (Json.Encoded
                    (Json.JArray
                       (map CheckinStorage.toJSON
                          [sampleCheckin "2024-01-02" 7;
                           sampleCheckin "2024-01-01" 3;
                           sampleCheckin "2024-01-02" 4])))) as Hst
    by (vm_compute; reflexivity).
  exact (loadCheckinForDate_first_stored "2024-01-02" _ _ Hst).
Defined.

(** X12 at an upsert for 15 March 2024 and the key of 1 January. *)
Lemma upsert_keeps_other_dates_witness :
  let w := sampleWorld [sampleCheckin "2024-01-01" 3] in
  let w' := after (CheckinStorage.upsertTodayCheckin (sampleValues 9 None))
                  w in
  checkinsOf "2024-01-01" w' = [sampleCheckin "2024-01-01" 3]
  /\ result (CheckinStorage.loadCheckinForDate "2024-01-01") w'
     = Normal (Some (sampleCheckin "2024-01-01" 3)).
Proof.
  cbn zeta.
  assert ("2024-01-01"
          <> CheckinStorage.dateKey
               (upserted (sampleValues 9 None)
                  (sampleWorld [sampleCheckin "2024-01-01" 3]))) as Hkey
    by (vm_compute; discriminate).
  destruct (upsert_keeps_other_dates (sampleValues 9 None) "2024-01-01"
              (sampleWorld [sampleCheckin "2024-01-01" 3]) Hkey)
    as (Hof & Hres & _).
  split.
  - etransitivity; [exact Hof | vm_compute; reflexivity].
  - etransitivity; [exact Hres | vm_compute; reflexivity].
Defined.

(** X13 at 15 March 2024, 11:53, one hour east of UTC. *)
Lemma dateKey_round_trip_witness :
  let key := CheckinStorage.getLocalDateKey 3600000 (Some 1710500000000) in
  CheckinStorage.localDateFromDateKey 3600000 key
  = Some (Date.UTC 3600000
            (Date.Day (Date.LocalTime 3600000 1710500000000)
             * Date.msPerDay))
  /\ CheckinStorage.getLocalDateKey 3600000
       (CheckinStorage.localDateFromDateKey 3600000 key) = key.
Proof.
  assert (- Date.msPerDay <= 3600000 <= Date.msPerDay) as Htz
    by (unfold Date.msPerDay; lia).
  assert (Z.abs 1710500000000 <= Date.maxTime) as Htv
    by (unfold Date.maxTime; lia).
  assert (100 <= Date.YearFromTime (Date.LocalTime 3600000 1710500000000))
    as Hy by (apply Z.leb_le; vm_compute; reflexivity).
  exact (dateKey_round_trip 3600000 1710500000000 Htz Htv Hy).
Defined.

(** X14 at an upsert into an empty store and a purge an hour later. *)
Lemma todays_checkin_survives_purge_witness :
  let values := sampleValues 9 None in
  let w := sampleWorld [] in
  let w1 := atTime 1710503600000
              (after (CheckinStorage.upsertTodayCheckin values) w) in
  let w2 := after (CheckinStorage.purgeCheckinsOlderThan (Some (Js.int 90)))
                  w1 in
  upserted values w ∈ checkins w2
  /\ result (CheckinStorage.loadCheckinForDate
               (CheckinStorage.dateKey (upserted values w))) w2
     = Normal (Some (upserted values w)).
Proof.
  cbn zeta.
  assert (deviceOk (atTime 1710503600000
                      (after (CheckinStorage.upsertTodayCheckin
                                (sampleValues 9 None)) (sampleWorld []))))
    as Hok1.
  { sample_device_later. }
  assert (today (atTime 1710503600000
                   (after (CheckinStorage.upsertTodayCheckin
                             (sampleValues 9 None)) (sampleWorld [])))
          = today (sampleWorld [])) as Htoday by (vm_compute; reflexivity).
  assert (purgeCutoff (Some (Js.int 90))
            (atTime 1710503600000
               (after (CheckinStorage.upsertTodayCheckin
                         (sampleValues 9 None)) (sampleWorld [])))
          <> None) as Hvalid by (vm_compute; discriminate).
  exact (todays_checkin_survives_purge (sampleValues 9 None)
           (Some (Js.int 90)) 1710503600000 (sampleWorld [])
           (sampleWorld_deviceOk _) (sampleValues_finite _ _) eq_refl
           Hok1 Htoday Hvalid).
Defined.

(** X15 at saving 9, 4 and 8 and loading the screen an hour later. *)
Lemma saved_checkin_is_shown_again_witness :
  let w := sampleWorld [] in
  let w1 := atTime 1710503600000
              (after (HomeScreen.onPressSave (Js.int 9) (Js.int 4) (Js.int 8))
                     w) in
  exists count existing,
    result HomeScreen.loadInitial w1 = Normal (count, Some existing)
    /\ CheckinStorage.energy existing = Js.int 9
    /\ CheckinStorage.mood existing = Js.int 4
    /\ CheckinStorage.focus existing = Js.int 8
    /\ CheckinStorage.dateKey existing
       = CheckinStorage.getLocalDateKey (LocalTZA w) (Some (clock w))
    /\ (0 < count)%nat.
Proof.
  cbn zeta.
  assert (deviceOk (atTime 1710503600000
                      (after (HomeScreen.onPressSave (Js.int 9) (Js.int 4)
                                (Js.int 8)) (sampleWorld []))))
    as Hok1.
  { sample_device_later. }
  assert (today (atTime 1710503600000
                   (after (HomeScreen.onPressSave (Js.int 9) (Js.int 4)
                             (Js.int 8)) (sampleWorld [])))
          = today (sampleWorld [])) as Htoday by (vm_compute; reflexivity).
  exact (saved_checkin_is_shown_again (Js.int 9) (Js.int 4) (Js.int 8)
           1710503600000 (sampleWorld []) (sampleWorld_deviceOk _)
           eq_refl eq_refl eq_refl Hok1 Htoday).
Defined.

(** X16 at a store with a check-in of 1 January 2023, which a purge of 90
    days on 15 March 2024 removes. *)
Lemma purge_accounts_for_what_it_removes_witness :
  let w := sampleWorld [sampleCheckin "2023-01-01" 3;
                        sampleCheckin "2024-03-15" 5] in
  let w' := after (CheckinStorage.purgeCheckinsOlderThan None) w in
  result (CheckinStorage.purgeCheckinsOlderThan None) w = Normal 1
  /\ checkins w' = [sampleCheckin "2024-03-15" 5]
  /\ exists text,
       storage w' = <[CheckinStorage.STORAGE_KEY := text]> (storage w)
       /\ journal w'
          = SetItem CheckinStorage.STORAGE_KEY text :: journal w.
Proof.
  cbn zeta.
  destruct (purge_accounts_for_what_it_removes None
              (sampleWorld [sampleCheckin "2023-01-01" 3;
                            sampleCheckin "2024-03-15" 5]))
    as (Hres & _ & _ & _ & Hwrites & _).
  split; [etransitivity; [exact Hres | vm_compute; reflexivity] | ].
  destruct (Hwrites ltac:(vm_compute; discriminate)) as (Hleft & Htext).
  split; [ | exact Htext].
  etransitivity; [exact Hleft | vm_compute; reflexivity].
Defined.

(** X17 at [NaN] days. *)
Lemma purge_not_a_number_removes_everything_witness :
  let w := sampleWorld [sampleCheckin "2024-03-14" 3;
                        sampleCheckin "2024-03-15" 5] in
  purgeCutoff (Some Js.NaN) w = None
  /\ checkins (after (CheckinStorage.purgeCheckinsOlderThan (Some Js.NaN)) w)
     = []
  /\ result (CheckinStorage.purgeCheckinsOlderThan (Some Js.NaN)) w
     = Normal (Z.of_nat (length (checkins w))).
Proof.
  exact (purge_not_a_number_removes_everything Js.NaN
           (sampleWorld [sampleCheckin "2024-03-14" 3;
                         sampleCheckin "2024-03-15" 5])
           (or_introl eq_refl)).
Defined.

(** X19 at the first upsert after clearing a store of two check-ins. *)
Lemma clear_empties_the_store_witness :
  let w' := after CheckinStorage.clearAllCheckins
              (sampleWorld [sampleCheckin "2024-01-01" 3;
                            sampleCheckin "2024-01-02" 7]) in
  checkins (after (CheckinStorage.upsertTodayCheckin (sampleValues 9 None))
                  w')
  = [upserted (sampleValues 9 None) w'].
Proof.
  exact (proj2 (proj2 (proj2 (proj2
           (clear_empties_the_store
              (sampleWorld [sampleCheckin "2024-01-01" 3;
                            sampleCheckin "2024-01-02" 7])))))
           (sampleValues 9 None) (sampleValues_finite _ _)).
Defined.


(** X21 at a store with check-ins of 14 and 15 March 2024 and one of
    1 January 2023, which the purge removes. *)
Lemma summary_load_newest_first_witness :
  let w := sampleWorld [sampleCheckin "2023-01-01" 7;
                        sampleCheckin "2024-03-14" 3;
                        sampleCheckin "2024-03-15" 5] in
  exists items,
    result SummaryScreen.load w = Normal items
    /\ StronglySorted
         (fun a b => String.compare (CheckinStorage.dateKey b)
                                    (CheckinStorage.dateKey a) <> Gt)
         items
    /\ Permutation items [sampleCheckin "2024-03-14" 3;
                          sampleCheckin "2024-03-15" 5].
Proof.
  cbn zeta.
  destruct (summary_load_newest_first
              (sampleWorld [sampleCheckin "2023-01-01" 7;
                            sampleCheckin "2024-03-14" 3;
                            sampleCheckin "2024-03-15" 5]))
    as (items & Hres & _ & _ & Hunits & Hperm).
  exists items. split; [exact Hres | ]. split.
  - apply Hunits. intros a b _ _. reflexivity.
  - assert (checkins
              (after (CheckinStorage.purgeCheckinsOlderThan
                        (Some (Js.int 90)))
                 (sampleWorld [sampleCheckin "2023-01-01" 7;
                               sampleCheckin "2024-03-14" 3;
                               sampleCheckin "2024-03-15" 5]))
            = [sampleCheckin "2024-03-14" 3; sampleCheckin "2024-03-15" 5])
      as E by (vm_compute; reflexivity).
    cbn zeta in Hperm. rewrite E in Hperm. exact Hperm.
Defined.


(** X23 at a store with an old and a recent check-in, the range computed
    an hour after the load. *)
Lemma ninety_day_range_shows_everything_witness :
  let w := sampleWorld [sampleCheckin "2023-01-01" 3;
                        sampleCheckin "2024-03-15" 5] in
  let w1 := atTime 1710503600000 (after SummaryScreen.load w) in
  exists items data,
    result SummaryScreen.load w = Normal items
    /\ result (SummaryScreen.rangeData items (Js.int 90)) w1 = Normal data
    /\ SummaryScreen.inRange data = items
    /\ SummaryScreen.count data = length items.
Proof.
  cbn zeta.
  assert (deviceOk (atTime 1710503600000
                      (after SummaryScreen.load
                         (sampleWorld [sampleCheckin "2023-01-01" 3;
                                       sampleCheckin "2024-03-15" 5]))))
    as Hok1.
  { sample_device_later. }
  assert (today (atTime 1710503600000
                   (after SummaryScreen.load
                      (sampleWorld [sampleCheckin "2023-01-01" 3;
                                    sampleCheckin "2024-03-15" 5])))
          = today (sampleWorld [sampleCheckin "2023-01-01" 3;
                                sampleCheckin "2024-03-15" 5])) as Htoday
    by (vm_compute; reflexivity).
  exact (ninety_day_range_shows_everything 1710503600000
           (sampleWorld [sampleCheckin "2023-01-01" 3;
                         sampleCheckin "2024-03-15" 5])
           (sampleWorld_deviceOk _) Hok1 Htoday).
Defined.

(** X24 at an energy that is [NaN], on a day that had a check-in. *)
Lemma upsert_of_non_finite_values_is_lost_witness :
  let values := {| CheckinStorage.v_energy := Js.NaN;
                   CheckinStorage.v_mood := Js.int 4;
                   CheckinStorage.v_focus := Js.int 8;
                   CheckinStorage.v_date := None |} in
  let w := sampleWorld [sampleCheckin "2024-03-15" 5] in
  let w' := after (CheckinStorage.upsertTodayCheckin values) w in
  result (CheckinStorage.upsertTodayCheckin values) w
  = Normal (upserted values w)
  /\ (upserted values w ∉ checkins w')
  /\ (onePerDay w ->
      result (CheckinStorage.loadCheckinForDate
                (CheckinStorage.dateKey (upserted values w))) w'
      = Normal None).
Proof.
  assert (~ finiteValues {| CheckinStorage.v_energy := Js.NaN;
                            CheckinStorage.v_mood := Js.int 4;
                            CheckinStorage.v_focus := Js.int 8;
                            CheckinStorage.v_date := None |}) as Hv.
  { intros (He & _). discriminate He. }
  exact (upsert_of_non_finite_values_is_lost _
           (sampleWorld [sampleCheckin "2024-03-15" 5]) Hv).
Defined.

(** X25 at the first check-in of a store. *)
Lemma save_button_count_witness :
  result (HomeScreen.onPressSave (Js.int 9) (Js.int 4) (Js.int 8))
         (sampleWorld [])
  = Normal 1%nat.
Proof.
  destruct (save_button_count (Js.int 9) (Js.int 4) (Js.int 8)
              (sampleWorld []) eq_refl eq_refl eq_refl)
    as (n & Hres & _ & _ & Hn).
  assert (checkins (sampleWorld []) = []) as E by (vm_compute; reflexivity).
  rewrite E in Hn. specialize (Hn ltac:(constructor)).
  rewrite Hres, Hn. vm_compute. reflexivity.
Defined.

(** X26 at a device where permission is granted. *)
Lemma requestReminderPermissions_asks_when_needed_witness :
  after (Permissions.requestReminderPermissions false) (sampleScheduled [])
  = sampleScheduled [].
Proof.
  exact (proj1 (proj2 (requestReminderPermissions_asks_when_needed false
                         (sampleScheduled [])))
           eq_refl).
Defined.

(** X27 at a working platform that is not Android. *)
Lemma reminder_names_an_existing_channel_witness :
  let run := ReminderStorage.scheduleDailyReminder (Js.int 20) (Js.int 0) in
  let w := sampleScheduled [] in
  exists new h m,
    Notifications.scheduled (platform (after run w))
    = (Notifications.scheduled (platform w) ++ [new])%list
    /\ Notifications.identifier new = "notification-7"
    /\ Notifications.trigger new = Notifications.DAILY h m None
    /\ Notifications.channels (platform (after run w))
       = Notifications.channels (platform w).
Proof.
  cbn zeta.
  assert (result (ReminderStorage.scheduleDailyReminder (Js.int 20)
                    (Js.int 0)) (sampleScheduled [])
          = Normal "notification-7") as Hid by (vm_compute; reflexivity).
  exact (proj1 (reminder_names_an_existing_channel (Js.int 20) (Js.int 0)
                  (sampleScheduled []))
           "notification-7" Hid).
Defined.
